(** * news.py: a shallow embedding and its verified properties

    The program is a single-run pipeline: fetch an RSS feed, keep the
    entries of the last 24 hours, scrape the linked pages, ask a language
    model for a narrative, turn it into speech and post the audio (or, as
    a fall-back, the text) to a Telegram chat.

    Python values are embedded as follows.
    - [str] is a list of Unicode code points, so that [len], slicing and
      [split] count characters exactly as Python does.
    - [bytes] is a list of [Byte.byte].
    - Decoded JSON is the inductive [json]; the dynamic operations the
      program applies to it ([in], subscripts, [.get], [len], truth value)
      are total functions into [result], which carries the exception
      Python would raise.
    - A parsed HTML page is an [element] tree, as BeautifulSoup builds it.
    - Effects (logging, HTTP calls, feed download, [time.sleep], the
      random choice of a user agent) are threaded through the monad [M],
      whose state holds the chronological trace of the run and which
      keeps the trace when an exception is raised, as Python does.
    - The outside world (servers, clock, random source) and the two
      library parsers ([json.loads], BeautifulSoup's [html.parser]) are
      fields of the record [env]. *)

From Stdlib Require Import String Ascii DecimalString.
From Stdlib.Strings Require Import Byte.
From Stdlib Require Import ZArith NArith List Bool Lia SpecFloat.
Import ListNotations.

Set Implicit Arguments.
Set Warnings "-register-all".
Local Open Scope Z_scope.

(** ** Python strings *)

Definition codepoint := N.
Definition str := list codepoint.
Definition bytes := list Byte.byte.

(** An ASCII literal of the source. *)
Definition lit (s : string) : str := map N_of_ascii (list_ascii_of_string s).

(** ["\n"] *)
Definition NL : codepoint := 10%N.

Fixpoint str_eqb (a b : str) : bool :=
  match a, b with
  | [], [] => true
  | x :: a', y :: b' => N.eqb x y && str_eqb a' b'
  | _, _ => false
  end.

(** [len(s)] *)
Definition len {A} (s : list A) : Z := Z.of_nat (length s).

(** [s[:n]] and [s[i:j]] for [0 <= i <= j]. *)
Definition slice_to {A} (n : nat) (s : list A) : list A := firstn n s.
Definition slice {A} (i j : nat) (s : list A) : list A := firstn (j - i) (skipn i s).

(** [sep.join(parts)] *)
Fixpoint join (sep : str) (parts : list str) : str :=
  match parts with
  | [] => []
  | [p] => p
  | p :: rest => p ++ sep ++ join sep rest
  end.

(** [s.split(sep)] for a one-character separator: never empty. *)
Fixpoint split (sep : codepoint) (s : str) : list str :=
  match s with
  | [] => [[]]
  | c :: r =>
      if N.eqb c sep then [] :: split sep r
      else match split sep r with
           | h :: t => (c :: h) :: t
           | [] => [[c]]
           end
  end.

(** [str.isspace] on one character: the code points Python strips. *)
Definition isspace (c : codepoint) : bool :=
  ((9 <=? c) && (c <=? 13) || (28 <=? c) && (c <=? 32)
   || (c =? 133) || (c =? 160) || (c =? 5760)
   || (8192 <=? c) && (c <=? 8202)
   || (c =? 8232) || (c =? 8233) || (c =? 8239) || (c =? 8287)
   || (c =? 12288))%N.

Fixpoint lstrip (s : str) : str :=
  match s with
  | c :: r => if isspace c then lstrip r else s
  | [] => []
  end.

(** [s.strip()] *)
Definition strip (s : str) : str := rev (lstrip (rev (lstrip s))).

(** [s.upper()], character by character.  The table holds the ASCII
    letters and every other code point whose upper-case form consists of
    ASCII letters only (long s, sharp s, dotless i and the Latin
    ligatures); a code point outside the table has an upper-case form
    with at least one non-ASCII character and is left as it is, which
    does not change any comparison with an ASCII literal. *)
Definition upper_char (c : codepoint) : str :=
  (if (97 <=? c) && (c <=? 122) then [c - 32]
   else if c =? 223 then [83; 83]
   else if c =? 305 then [73]
   else if c =? 383 then [83]
   else if c =? 64256 then [70; 70]
   else if c =? 64257 then [70; 73]
   else if c =? 64258 then [70; 76]
   else if c =? 64259 then [70; 70; 73]
   else if c =? 64260 then [70; 70; 76]
   else if (c =? 64261) || (c =? 64262) then [83; 84]
   else [c])%N.

Definition upper (s : str) : str := flat_map upper_char s.

(** [str(n)] for a non-negative integer. *)
Definition str_of_nat (n : nat) : str :=
  lit (NilEmpty.string_of_uint (Nat.to_uint n)).

(** [needle in haystack] for two strings. *)
Fixpoint is_prefix (p s : str) : bool :=
  match p, s with
  | [], _ => true
  | x :: p', y :: s' => N.eqb x y && is_prefix p' s'
  | _ :: _, [] => false
  end.

Fixpoint is_substring (needle hay : str) : bool :=
  is_prefix needle hay ||
  match hay with
  | [] => false
  | _ :: r => is_substring needle r
  end.

(** [range(0, stop, step)] for [step > 0]: the multiples of [step] below
    [stop]. *)
Definition range_step (stop step : nat) : list nat :=
  map (fun k => (k * step)%nat) (seq 0 ((stop + step - 1) / step)).

(** ** Dictionaries with string keys, in insertion order *)

Definition dict (V : Type) := list (str * V).

Fixpoint dict_get {V} (k : str) (d : dict V) : option V :=
  match d with
  | [] => None
  | (k', v) :: r => if str_eqb k k' then Some v else dict_get k r
  end.

Definition dict_mem {V} (k : str) (d : dict V) : bool :=
  match dict_get k d with Some _ => true | None => false end.

(** [d[k] = v] *)
Fixpoint dict_set {V} (k : str) (v : V) (d : dict V) : dict V :=
  match d with
  | [] => [(k, v)]
  | (k', v') :: r =>
      if str_eqb k k' then (k, v) :: r else (k', v') :: dict_set k v r
  end.

(** ** Time *)

(** [time.struct_time], as feedparser fills it: broken-down UTC time with
    [tm_isdst = 0]. *)
Record struct_time := {
  tm_year : Z; tm_mon : Z; tm_mday : Z;
  tm_hour : Z; tm_min : Z; tm_sec : Z
}.

(** Days between 1970-01-01 and a proleptic Gregorian date. *)
Definition days_from_civil (y m d : Z) : Z :=
  let y' := if m <=? 2 then y - 1 else y in
  let era := y' / 400 in
  let yoe := y' - era * 400 in
  let doy := (153 * (m + (if 2 <? m then -3 else 9)) + 2) / 5 + d - 1 in
  let doe := yoe * 365 + yoe / 4 - yoe / 100 + doy in
  era * 146097 + doe - 719468.

(** [calendar.timegm]: seconds since the epoch of a UTC broken-down time. *)
Definition timegm (t : struct_time) : Z :=
  ((days_from_civil (tm_year t) (tm_mon t) (tm_mday t) * 24 + tm_hour t) * 60
   + tm_min t) * 60 + tm_sec t.

(** [time.mktime] reads its argument as local time.  With [tm_isdst = 0]
    this is the UTC reading shifted by the number of seconds the host's
    standard time lies west of UTC, taken here as one number for all
    dates: 0 on a UTC host, [time.timezone] in a zone whose standard
    offset is that of [time.timezone] at every date of the feed.  A zone
    where the two differ (Europe/Dublin, whose standard time is summer
    time) or whose offset changed over the dates read is outside this
    model. *)
Definition mktime (timezone : Z) (t : struct_time) : Z := timegm t + timezone.

(** A [datetime] that is aware and in UTC: microseconds since the epoch. *)
Definition datetime := Z.

(** [datetime.fromtimestamp(seconds, timezone.utc)], for instants within
    the years 1 to 9999; outside them Python raises [ValueError] or
    [OverflowError], which the model leaves out. *)
Definition datetime_fromtimestamp_utc (seconds : Z) : datetime := seconds * 1000000.

(** [timedelta(days=n)] *)
Definition timedelta_days (n : Z) : Z := n * 86400 * 1000000.

(** ** Decoded JSON *)

Inductive json :=
| JNull
| JBool (b : bool)
| JInt (z : Z)
| JFloat (f : spec_float)
| JStr (s : str)
| JArr (items : list json)
| JObj (members : list (str * json)).

(** ** Exceptions and results *)

Inductive transport_error := ConnectionError | Timeout | TooManyRedirects | OtherRequestError.

Inductive exn :=
| RequestError (e : transport_error)   (* requests.exceptions.RequestException, transport *)
| HTTPError                            (* raised by raise_for_status *)
| JSONDecodeError                      (* requests' JSONDecodeError *)
| TypeError
| KeyError
| IndexError
| AttributeError
| ParserError                          (* whatever the HTML parser raises *)
| OSError.                             (* a directory or file that cannot be written *)

(** [isinstance(e, requests.exceptions.RequestException)]: requests'
    [JSONDecodeError] derives from both [RequestException] and
    [json.JSONDecodeError]. *)
Definition is_RequestException (e : exn) : bool :=
  match e with
  | RequestError _ | HTTPError | JSONDecodeError => true
  | _ => false
  end.

(** [isinstance(e, json.JSONDecodeError)] *)
Definition is_json_JSONDecodeError (e : exn) : bool :=
  match e with JSONDecodeError => true | _ => false end.

Inductive result (A : Type) :=
| Ok (a : A)
| Raise (e : exn).
Arguments Ok {A} a.
Arguments Raise {A} e.

(** Truth value of a decoded JSON value. *)
Definition truthy (j : json) : bool :=
  match j with
  | JNull => false
  | JBool b => b
  | JInt z => negb (z =? 0)
  | JFloat f => match f with S754_zero _ => false | _ => true end
  | JStr s => match s with [] => false | _ => true end
  | JArr l => match l with [] => false | _ => true end
  | JObj m => match m with [] => false | _ => true end
  end.

(** [key in j] for a string [key]. *)
Definition py_contains (key : str) (j : json) : result bool :=
  match j with
  | JObj m => Ok (dict_mem key m)
  | JArr l => Ok (existsb (fun x => match x with JStr s => str_eqb s key | _ => false end) l)
  | JStr s => Ok (is_substring key s)
  | _ => Raise TypeError
  end.

(** [j[key]] for a string [key]. *)
Definition getitem_str (j : json) (key : str) : result json :=
  match j with
  | JObj m => match dict_get key m with Some v => Ok v | None => Raise KeyError end
  | _ => Raise TypeError
  end.

(** [j[0]] *)
Definition getitem_0 (j : json) : result json :=
  match j with
  | JArr (x :: _) => Ok x
  | JArr [] => Raise IndexError
  | JStr (c :: _) => Ok (JStr [c])
  | JStr [] => Raise IndexError
  | JObj _ => Raise KeyError
  | _ => Raise TypeError
  end.

(** [len(j)] *)
Definition py_len (j : json) : result Z :=
  match j with
  | JStr s => Ok (len s)
  | JArr l => Ok (len l)
  | JObj m => Ok (len m)
  | _ => Raise TypeError
  end.

(** [j.get(key)]: only dictionaries have [get]. *)
Definition py_get (j : json) (key : str) : result json :=
  match j with
  | JObj m => match dict_get key m with Some v => Ok v | None => Ok JNull end
  | _ => Raise AttributeError
  end.

(** ** Parsed HTML *)

(** A node of the tree BeautifulSoup builds.  [NavigableString] is a text
    node; [OtherString] stands for the string classes [get_text] leaves
    out (comments, declarations, script and style contents); [Tag] has a
    lower-case name, its attribute dictionary and its children. *)
Inductive element :=
| NavigableString (s : str)
| OtherString (s : str)
| Tag (name : str) (attrs : dict str) (contents : list element).

(** All nodes below [e], in document order. *)
Fixpoint descendants (e : element) : list element :=
  match e with
  | Tag _ _ cs => flat_map (fun c => c :: descendants c) cs
  | _ => []
  end.

Definition tag_named (name : str) (e : element) : bool :=
  match e with
  | Tag n _ _ => str_eqb n name
  | _ => false
  end.

Definition has_id (id : str) (e : element) : bool :=
  match e with
  | Tag _ attrs _ =>
      match dict_get (lit "id") attrs with
      | Some v => str_eqb v id
      | None => false
      end
  | _ => false
  end.

(** [soup.find(name)] and [soup.find(name, id=...)]: the first matching
    tag among the descendants. *)
Definition soup_find (name : str) (soup : element) : option element :=
  find (tag_named name) (descendants soup).

Definition soup_find_id (name id : str) (soup : element) : option element :=
  find (fun e => tag_named name e && has_id id e) (descendants soup).

(** [e.get_text(separator=sep, strip=True)]: the stripped, non-empty text
    nodes below [e], joined by [sep]. *)
Definition stripped_strings (e : element) : list str :=
  flat_map (fun d => match d with
                     | NavigableString s =>
                         match strip s with [] => [] | t => [t] end
                     | _ => []
                     end) (descendants e).

Definition get_text (sep : str) (e : element) : str := join sep (stripped_strings e).

(** ** The outside world *)

Inductive http_method := GET | POST.

(** What [requests.get] / [requests.post] is given as its body. *)
Inductive body :=
| NoBody
| DataStr (s : str)                                   (* data=<str> *)
| DataForm (fields : dict str)                        (* data=<dict> *)
| JsonBody (j : json)                                 (* json=<dict> *)
| Multipart (fields : dict str)                       (* data=<dict>, files=<dict> *)
            (files : dict (str * bytes * str)).

Record request := {
  req_method : http_method;
  req_url : str;
  req_headers : dict str;
  req_timeout : Z;
  req_body : body
}.

Record response := {
  status_code : Z;
  content : bytes
}.

(** [requests] either hands back the final response or raises a
    [RequestException] (no connection, time-out, ...). *)
Inductive http_outcome :=
| Responded (r : response)
| Failed (e : transport_error).

(** [response.ok], which is also the truth value of a response:
    [raise_for_status] raises exactly for 4xx and 5xx. *)
Definition response_ok (r : response) : bool :=
  negb ((400 <=? status_code r) && (status_code r <? 600)).

(** A feed entry, as feedparser returns it. *)
Record entry := {
  title : option str;
  link : option str;
  published_parsed : option struct_time;
  updated_parsed : option struct_time
}.

Record feed := {
  bozo : bool;
  entries : list entry
}.

Inductive level := INFO | WARNING | ERROR | CRITICAL.

(** A value interpolated into a log message. *)
Inductive log_arg :=
| AStr (s : str)
| AInt (z : Z)
| ADatetime (d : datetime)
| AExn (e : exn)
| AJson (j : json)
| AResponseText (r : option response).

(** What a run does to the world, in order. *)
Inductive event :=
| Log (lvl : level) (template : str) (args : list log_arg)
| Stderr (msg : str)
| Http (req : request) (out : http_outcome)
| FeedParse (url agent : str) (f : feed)
| Sleep (seconds : Z).

(** Configuration, servers, clock, random source and library parsers.
    The servers may answer according to everything that happened before
    in the run. *)
Record env := {
  BOT_TOKEN : str;
  CHAT_ID : str;
  DS_API_KEY : str;
  ELEVENLABS_API_KEY : str;
  ELEVENLABS_VOICE_ID : str;
  random_index : nat -> nat;        (* the k-th draw of the random module *)
  utcnow : datetime;                (* datetime.now(timezone.utc) *)
  timezone : Z;                     (* seconds the host's standard time lies west of UTC *)
  http_server : list event -> request -> http_outcome;
  feed_server : list event -> str -> str -> feed;
  json_loads : bytes -> option json;
  json_dumps : json -> str;
  html_parser : bytes -> result element
}.

(** ** The effect monad *)

Record state := {
  trace : list event;
  draws : nat
}.

Definition M (A : Type) := state -> result A * state.

Definition ret {A} (a : A) : M A := fun st => (Ok a, st).

Definition bind {A B} (m : M A) (k : A -> M B) : M B :=
  fun st =>
    match m st with
    | (Ok a, st') => k a st'
    | (Raise e, st') => (Raise e, st')
    end.

Definition raise {A} (e : exn) : M A := fun st => (Raise e, st).

(** [try: m  except <handles>: handler] *)
Definition try_except {A} (m : M A) (handles : exn -> bool) (handler : exn -> M A) : M A :=
  fun st =>
    match m st with
    | (Raise e, st') => if handles e then handler e st' else (Raise e, st')
    | r => r
    end.

Definition lift_result {A} (r : result A) : M A := fun st => (r, st).

Definition emit (ev : event) : M unit :=
  fun st => (Ok tt, {| trace := trace st ++ [ev]; draws := draws st |}).

Declare Scope monad_scope.
Delimit Scope monad_scope with monad.
Notation "x <- m ;; k" := (bind m (fun x => k))
  (at level 61, m at next level, right associativity) : monad_scope.
Notation "m ;; k" := (bind m (fun _ => k))
  (at level 61, right associativity) : monad_scope.
Local Open Scope monad_scope.

(** [for x in l: acc = body x acc] *)
Fixpoint for_each {A S} (l : list A) (body : A -> S -> M S) (acc : S) : M S :=
  match l with
  | [] => ret acc
  | x :: r => acc' <- body x acc ;; for_each r body acc'
  end.

Definition logging (lvl : level) (template : string) (args : list log_arg) : M unit :=
  emit (Log lvl (lit template) args).

(** ** Constants of the program *)

Definition USER_AGENTS : list str :=
  [ lit "Mozilla/5.0 (Windows NT 10.0; Win64; x64) AppleWebKit/537.36 (KHTML, like Gecko) Chrome/91.0.4472.124 Safari/537.36";
    lit "Mozilla/5.0 (X11; Linux x86_64) AppleWebKit/537.36 (KHTML, like Gecko) Chrome/92.0.4515.107 Safari/537.36";
    lit "Mozilla/5.0 (Windows NT 10.0; Win64; x64; rv:90.0) Gecko/20100101 Firefox/90.0";
    lit "Mozilla/5.0 (Macintosh; Intel Mac OS X 10_15_7) AppleWebKit/605.1.15 (KHTML, like Gecko) Version/14.1.2 Safari/605.1.15" ].

Definition DQUOTE : codepoint := 34%N.

Definition SYSTEM_PROMPT : str :=
  lit "You are a news summarizer with a left-wing perspective." ++ [NL] ++
  lit "Your goal is to create a concise and engaging narrative of " ++ [DQUOTE] ++
  lit "what's happened in the last 24 hours" ++ [DQUOTE] ++
  lit " based on the provided article texts." ++ [NL] ++
  lit "Focus particularly on news related to:" ++ [NL] ++
  lit "- LGBT issues and rights" ++ [NL] ++
  lit "- Social justice movements and inequalities" ++ [NL] ++
  lit "- Developments in Artificial Intelligence (AI), including ethics and societal impact" ++ [NL] ++
  lit "- Computer security, cybersecurity threats, and data privacy" ++ [NL] ++
  lit "Present the information as a coherent news update, not just a list of summaries." ++ [NL] ++
  lit "Highlight key events and their potential implications from your stated perspective." ++ [NL] ++
  lit "Ensure the tone is informative yet critical where appropriate, aligning with a progressive viewpoint." ++ [NL] ++
  lit "If there are no relevant articles for these specific topics, summarize the most important general news from the provided texts with this perspective in mind." ++ [NL] ++
  lit "If no text is provided, state that no news could be processed." ++ [NL].

Definition DS_API_URL : str := lit "https://api.deepseek.com/chat/completions".

Section Program.

Variable w : env.

Definition TELEGRAM_API_BASE_URL : str := lit "https://api.telegram.org/bot" ++ BOT_TOKEN w.
Definition TELEGRAM_SEND_MESSAGE_URL : str := TELEGRAM_API_BASE_URL ++ lit "/sendMessage".
Definition TELEGRAM_SEND_AUDIO_URL : str := TELEGRAM_API_BASE_URL ++ lit "/sendAudio".
Definition ELEVENLABS_API_URL : str :=
  lit "https://api.elevenlabs.io/v1/text-to-speech/" ++ ELEVENLABS_VOICE_ID w.

(** ** Primitive effects *)

(** [random.choice(USER_AGENTS)] *)
Definition random_choice (l : list str) : M str :=
  fun st =>
    (Ok (nth (random_index w (draws st) mod length l) l []),
     {| trace := trace st; draws := S (draws st) |}).

(** [requests.get] / [requests.post]: the call is recorded with what it
    came back with; a transport failure is raised.  The fields of a form
    or of a multipart body are taken to be encodable in UTF-8: for a
    field that holds a lone surrogate the library raises
    [UnicodeEncodeError] before it sends anything, a case the model
    leaves out. *)
Definition requests_call (req : request) : M response :=
  fun st =>
    let out := http_server w (trace st) req in
    let st' := {| trace := trace st ++ [Http req out]; draws := draws st |} in
    match out with
    | Responded r => (Ok r, st')
    | Failed e => (Raise (RequestError e), st')
    end.

(** [response.raise_for_status()] *)
Definition raise_for_status (r : response) : M unit :=
  if response_ok r then ret tt else raise HTTPError.

(** [response.json()]: a value, or [JSONDecodeError] for a body that is
    not JSON.  A body nested beyond the interpreter's recursion limit
    is outside the model. *)
Definition response_json (r : response) : M json :=
  match json_loads w (content r) with
  | Some j => ret j
  | None => raise JSONDecodeError
  end.

(** [feedparser.parse(url, agent=agent)] *)
Definition feedparser_parse (url agent : str) : M feed :=
  fun st =>
    let f := feed_server w (trace st) url agent in
    (Ok f, {| trace := trace st ++ [FeedParse url agent f]; draws := draws st |}).

Definition time_sleep (seconds : Z) : M unit := emit (Sleep seconds).

(** ** Helper functions *)

Definition get_random_user_agent : M str := random_choice USER_AGENTS.

(** Keyword arguments of [make_request]. *)
Record kwargs := {
  kw_headers : option (dict str);
  kw_data : option body;
  kw_json : option json
}.

Definition kw_body (kw : kwargs) : body :=
  match kw_data kw, kw_json kw with
  | Some b, _ => b
  | None, Some j => JsonBody j
  | None, None => NoBody
  end.

Definition make_request (url method : str) (kw : kwargs) : M (option response) :=
  let headers := match kw_headers kw with Some h => h | None => [] end in
  headers <- (if dict_mem (lit "User-Agent") headers then ret headers
              else ua <- get_random_user_agent ;;
                   ret (dict_set (lit "User-Agent") ua headers)) ;;
  try_except
    (let call m :=
       response <- requests_call {| req_method := m; req_url := url;
                                    req_headers := headers; req_timeout := 120;
                                    req_body := kw_body kw |} ;;
       raise_for_status response ;;
       ret (Some response) in
     if str_eqb (upper method) (lit "GET") then call GET
     else if str_eqb (upper method) (lit "POST") then call POST
     else logging ERROR "Unsupported HTTP method: {method}" [AStr method] ;;
          ret None)
    is_RequestException
    (fun e =>
       logging ERROR "Request failed for {url}. Error: {e}" [AStr url; AExn e] ;;
       ret None).

(** The truth value of what [make_request] returns. *)
Definition truthy_response (o : option response) : bool :=
  match o with
  | Some r => response_ok r
  | None => false
  end.

(** ** Feed Fetcher *)

(** [entry.get("published_parsed") or entry.get("updated_parsed")]: a
    [struct_time] is a non-empty tuple, hence true. *)
Definition published_time_struct (e : entry) : option struct_time :=
  match published_parsed e with
  | Some t => Some t
  | None => updated_parsed e
  end.

(** [entry.get('title', default)] *)
Definition title_or (default : string) (e : entry) : str :=
  match title e with
  | Some t => t
  | None => lit default
  end.

(** The instant the program compares with the window. *)
Definition entry_date (ts : struct_time) : datetime :=
  datetime_fromtimestamp_utc (mktime (timezone w) ts).

Definition fetch_rss_entries_body (twenty_four_hours_ago : datetime)
    (e : entry) (recent_entries : list entry) : M (list entry) :=
  match published_time_struct e with
  | Some ts =>
      if twenty_four_hours_ago <=? entry_date ts then
        logging INFO "Found recent entry: '{title}' published at {entry_date}"
                [AStr (title_or "No Title" e); ADatetime (entry_date ts)] ;;
        ret (recent_entries ++ [e])
      else ret recent_entries
  | None =>
      logging WARNING "Entry '{title}' has no parsable date. Skipping."
              [AStr (title_or "No Title" e)] ;;
      ret recent_entries
  end.

Definition fetch_rss_entries (rss_url : str) : M (list entry) :=
  logging INFO "Fetching RSS feed from: {rss_url}" [AStr rss_url] ;;
  agent <- get_random_user_agent ;;
  feed_data <- feedparser_parse rss_url agent ;;
  (if bozo feed_data
   then logging WARNING "RSS feed may be malformed. Bozo reason: {bozo_exception}" []
   else ret tt) ;;
  match entries feed_data with
  | [] =>
      logging INFO "No entries found in the RSS feed." [] ;;
      ret []
  | _ =>
      let now := utcnow w in
      let twenty_four_hours_ago := now - timedelta_days 1 in
      recent_entries <-
        for_each (entries feed_data) (fetch_rss_entries_body twenty_four_hours_ago) [] ;;
      logging INFO "Found {n} recent entries from the last 24 hours."
              [AInt (len recent_entries)] ;;
      ret recent_entries
  end.

(** ** Article Extractor *)

Definition extract_text_from_url (article_url : str) : M (option str) :=
  logging INFO "Extracting text from: {article_url}" [AStr article_url] ;;
  response <- make_request article_url (lit "GET")
                {| kw_headers := None; kw_data := None; kw_json := None |} ;;
  match response with
  | Some r =>
      if response_ok r then
        try_except
          (soup <- lift_result (html_parser w (content r)) ;;
           match soup_find_id (lit "section") (lit "entry-body") soup with
           | Some entry_body =>
               let text := get_text [NL] entry_body in
               logging INFO "Successfully extracted text from {article_url} (length: {n})"
                       [AStr article_url; AInt (len text)] ;;
               ret (Some text)
           | None =>
               logging WARNING "Could not find <section id='entry-body'> in {article_url}"
                       [AStr article_url] ;;
               let main_content :=
                 match soup_find (lit "main") soup with
                 | Some e => Some e
                 | None =>
                     match soup_find (lit "article") soup with
                     | Some e => Some e
                     | None => soup_find (lit "body") soup
                     end
                 end in
               let no_content :=
                 logging WARNING "No suitable content found in {article_url} using fallback."
                         [AStr article_url] ;;
                 ret None in
               match main_content with
               | Some mc =>
                   let text := get_text [NL] mc in
                   if 200 <? len text then
                     logging INFO "Fallback: Extracted text from {name} in {article_url} (length: {n})"
                             [AStr (match mc with Tag n _ _ => n | _ => [] end);
                              AStr article_url; AInt (len text)] ;;
                     ret (Some text)
                   else no_content
               | None => no_content
               end
           end)
          (fun _ => true)
          (fun e =>
             logging ERROR "Error parsing HTML from {article_url}: {e}"
                     [AStr article_url; AExn e] ;;
             ret None)
      else ret None
  | None => ret None
  end.

(** ** Narrative Generator *)

Definition PLACEHOLDER : str :=
  lit "No articles were found or text could not be extracted.".

(** The floats 0.7, 0.5 and 0.75 as binary64 values. *)
Definition float_0_7 : spec_float := S754_finite false 6305039478318694 (-53).
Definition float_0_5 : spec_float := S754_finite false 4503599627370496 (-53).
Definition float_0_75 : spec_float := S754_finite false 6755399441055744 (-53).

(** [a or b] on strings. *)
Definition str_or (a b : str) : str :=
  match a with [] => b | _ => a end.

Definition llm_payload (text_corpus : str) : json :=
  JObj [ (lit "messages",
          JArr [ JObj [ (lit "role", JStr (lit "system"));
                        (lit "content", JStr SYSTEM_PROMPT) ];
                 JObj [ (lit "role", JStr (lit "user"));
                        (lit "content", JStr (str_or text_corpus PLACEHOLDER)) ] ]);
         (lit "model", JStr (lit "deepseek-chat"));
         (lit "frequency_penalty", JInt 0);
         (lit "max_tokens", JInt 2048);
         (lit "presence_penalty", JInt 0);
         (lit "response_format", JObj [ (lit "type", JStr (lit "text")) ]);
         (lit "stream", JBool false);
         (lit "temperature", JFloat float_0_7);
         (lit "logprobs", JBool false) ].

(** The [try] block of [get_llm_narrative]. *)
Definition llm_read_narrative (r : response) : M (option json) :=
  try_except
    (try_except
       (response_data <- response_json r ;;
        has_choices <- lift_result (py_contains (lit "choices") response_data) ;;
        nonempty <- (if has_choices
                     then choices <- lift_result (getitem_str response_data (lit "choices")) ;;
                          ret (truthy choices)
                     else ret false) ;;
        if nonempty then
          choices <- lift_result (getitem_str response_data (lit "choices")) ;;
          first <- lift_result (getitem_0 choices) ;;
          message <- lift_result (getitem_str first (lit "message")) ;;
          narrative <- lift_result (getitem_str message (lit "content")) ;;
          n <- lift_result (py_len narrative) ;;
          logging INFO "Narrative received from DeepSeek (length: {n})" [AInt n] ;;
          ret (Some narrative)
        else
          logging ERROR "DeepSeek API response error or empty: {response_data}"
                  [AJson response_data] ;;
          ret None)
       is_json_JSONDecodeError
       (fun e =>
          logging ERROR "Failed to decode JSON response from DeepSeek: {e}" [AExn e] ;;
          logging ERROR "DeepSeek raw response: {text}" [AResponseText (Some r)] ;;
          ret None))
    (fun _ => true)
    (fun e =>
       logging ERROR "An unexpected error occurred with DeepSeek response processing: {e}"
               [AExn e] ;;
       ret None).

Definition get_llm_narrative (text_corpus : str) : M (option json) :=
  match DS_API_KEY w with
  | [] =>
      logging ERROR "DeepSeek API key not configured." [] ;;
      ret None
  | _ =>
      (match strip text_corpus with
       | [] => logging INFO "Text corpus is empty. LLM will be prompted accordingly." []
       | _ => ret tt
       end) ;;
      logging INFO "Sending text to DeepSeek for narrative generation..." [] ;;
      let payload := json_dumps w (llm_payload text_corpus) in
      let headers := [ (lit "Content-Type", lit "application/json");
                       (lit "Authorization", lit "Bearer " ++ DS_API_KEY w) ] in
      response <- make_request DS_API_URL (lit "POST")
                    {| kw_headers := Some headers; kw_data := Some (DataStr payload);
                       kw_json := None |} ;;
      match response with
      | Some r =>
          if response_ok r then llm_read_narrative r
          else logging ERROR "Failed to get response from DeepSeek API." [] ;;
               ret None
      | None =>
          logging ERROR "Failed to get response from DeepSeek API." [] ;;
          ret None
      end
  end.

(** ** Speech Synthesizer *)

Definition tts_payload (text : str) : json :=
  JObj [ (lit "text", JStr text);
         (lit "model_id", JStr (lit "eleven_multilingual_v2"));
         (lit "voice_settings",
          JObj [ (lit "stability", JFloat float_0_5);
                 (lit "similarity_boost", JFloat float_0_75) ]) ].

Definition text_to_speech_elevenlabs (text : str) : M (option bytes) :=
  match ELEVENLABS_API_KEY w, ELEVENLABS_VOICE_ID w with
  | _ :: _, _ :: _ =>
      match strip text with
      | [] =>
          logging WARNING "Empty text provided for text-to-speech." [] ;;
          ret None
      | _ =>
          logging INFO "Sending text to ElevenLabs for speech synthesis..." [] ;;
          let headers := [ (lit "Accept", lit "audio/mpeg");
                           (lit "Content-Type", lit "application/json");
                           (lit "xi-api-key", ELEVENLABS_API_KEY w) ] in
          response <- make_request ELEVENLABS_API_URL (lit "POST")
                        {| kw_headers := Some headers; kw_data := None;
                           kw_json := Some (tts_payload text) |} ;;
          let failed := logging ERROR "Failed to get response from ElevenLabs API." [] ;;
                        ret None in
          match response with
          | Some r =>
              if response_ok r then
                match status_code r =? 200, content r with
                | true, _ :: _ =>
                    logging INFO "MP3 audio received from ElevenLabs." [] ;;
                    ret (Some (content r))
                | _, _ =>
                    logging ERROR "ElevenLabs API error. Status: {status}, Response: {text}"
                            [AInt (status_code r); AResponseText (Some r)] ;;
                    ret None
                end
              else failed
          | None => failed
          end
      end
  | _, _ =>
      logging ERROR "ElevenLabs API key or Voice ID not configured." [] ;;
      ret None
  end.

(** ** Delivery Layer *)

Definition send_telegram_message (text_message : str) : M bool :=
  match BOT_TOKEN w, CHAT_ID w with
  | _ :: _, _ :: _ =>
      logging INFO "Sending text message to Telegram..." [] ;;
      let payload := [ (lit "chat_id", CHAT_ID w);
                       (lit "text", text_message);
                       (lit "parse_mode", lit "Markdown") ] in
      response <- make_request TELEGRAM_SEND_MESSAGE_URL (lit "POST")
                    {| kw_headers := None; kw_data := Some (DataForm payload);
                       kw_json := None |} ;;
      acknowledged <-
        (if truthy_response response then
           match response with
           | Some r =>
               j <- response_json r ;;
               ok <- lift_result (py_get j (lit "ok")) ;;
               ret (truthy ok)
           | None => ret false
           end
         else ret false) ;;
      if (acknowledged : bool) then
        logging INFO "Text message sent successfully to Telegram." [] ;;
        ret true
      else
        logging ERROR "Failed to send text message to Telegram. Response: {text}"
                [AResponseText response] ;;
        ret false
  | _, _ =>
      logging ERROR "Telegram Bot Token or Chat ID not configured." [] ;;
      ret false
  end.

Definition send_telegram_audio (audio_bytes : bytes) (caption : str) : M bool :=
  match BOT_TOKEN w, CHAT_ID w with
  | _ :: _, _ :: _ =>
      logging INFO "Sending audio to Telegram..." [] ;;
      let files := [ (lit "audio",
                      (lit "daily_news_summary.mp3", audio_bytes, lit "audio/mpeg")) ] in
      let data := [ (lit "chat_id", CHAT_ID w);
                    (lit "caption", slice_to 1024 caption) ] in
      try_except
        (response <- requests_call {| req_method := POST;
                                      req_url := TELEGRAM_SEND_AUDIO_URL;
                                      req_headers := [];
                                      req_timeout := 60;
                                      req_body := Multipart data files |} ;;
         raise_for_status response ;;
         j <- response_json response ;;
         ok <- lift_result (py_get j (lit "ok")) ;;
         if truthy ok then
           logging INFO "Audio sent successfully to Telegram." [] ;;
           ret true
         else
           logging ERROR "Failed to send audio to Telegram. Response: {text}"
                   [AResponseText (Some response)] ;;
           ret false)
        is_RequestException
        (fun e =>
           logging ERROR "Telegram audio send request failed: {e}" [AExn e] ;;
           ret false)
  | _, _ =>
      logging ERROR "Telegram Bot Token or Chat ID not configured." [] ;;
      ret false
  end.

(** ** Orchestrator *)

(** The caption summary: the first line of the narrative, cut to 200
    characters and marked with an ellipsis when cut. *)
Definition audio_caption_summary (narrative : str) : str :=
  let first_line := nth 0 (split NL narrative) [] in
  if 200 <? len first_line then slice_to 200 first_line ++ lit "..." else first_line.

Definition audio_caption (narrative : str) : str :=
  lit "Your 24hr News Summary:" ++ [NL] ++ audio_caption_summary narrative.

Definition max_len : nat := 4000.

(** The message carrying the chunk that starts at offset [i]. *)
Definition part_message (narrative : str) (i : nat) : str :=
  let chunk := slice i (i + max_len) narrative in
  lit "[Part " ++ str_of_nat (i / max_len + 1) ++ lit "]" ++ [NL] ++ chunk.

(** The [if not audio_sent] block of [main]: the narrative as text. *)
Definition main_send_text (narrative : str) : M unit :=
  logging INFO "Sending text narrative to Telegram as fallback." [] ;;
  (if Z.of_nat max_len <? len narrative then
     for_each (range_step (length narrative) max_len)
              (fun i _ =>
                 send_telegram_message (part_message narrative i) ;;
                 time_sleep 1)
              tt
   else
     send_telegram_message narrative ;;
     ret tt) ;;
  logging INFO "Text narrative sent to Telegram." [].

(** The last stage of [main], from the narrative on: synthesize, send
    the audio, fall back to text. *)
Definition main_deliver (narrative : str) : M unit :=
  logging INFO "Narrative generated successfully." [] ;;
  audio_data <- text_to_speech_elevenlabs narrative ;;
  audio_sent <-
    match audio_data with
    | Some ((_ :: _) as data) =>
        sent <- send_telegram_audio data (audio_caption narrative) ;;
        if (sent : bool) then
          logging INFO "Audio summary sent to Telegram." [] ;;
          ret true
        else
          logging WARNING "Failed to send audio summary to Telegram. Will attempt to send text version." [] ;;
          ret false
    | _ =>
        logging WARNING "Failed to generate audio from ElevenLabs. Will send text version." [] ;;
        ret false
    end ;;
  (if (audio_sent : bool) then ret tt else main_send_text narrative) ;;
  logging INFO "News aggregation process finished." [].

(** The extraction loop of [main]. *)
Definition main_extract_body (e : entry) (all_extracted_text : list str) : M (list str) :=
  match link e with
  | Some ((_ :: _) as url) =>
      text <- extract_text_from_url url ;;
      match text with
      | Some ((_ :: _) as t) =>
          ret (all_extracted_text ++
               [lit "--- Article: " ++ title_or "Untitled Article" e ++ lit " ---" ++ [NL]
                ++ t ++ [NL; NL]])
      | _ => ret all_extracted_text
      end
  | _ =>
      logging WARNING "Entry '{title}' has no link. Skipping." [AStr (title_or "No Title" e)] ;;
      ret all_extracted_text
  end.

Definition configured : bool :=
  forallb (fun s : str => match s with [] => false | _ => true end)
          [BOT_TOKEN w; CHAT_ID w; DS_API_KEY w; ELEVENLABS_API_KEY w; ELEVENLABS_VOICE_ID w].

Definition main (rss_url : str) : M unit :=
  if negb configured then
    logging CRITICAL "One or more critical API keys/IDs are missing in .env. Exiting." [] ;;
    emit (Stderr (lit "ERROR: Critical API keys/IDs missing. Check .env file and logs."))
  else
    logging INFO "Starting news aggregation process..." [] ;;
    recent_entries <- fetch_rss_entries rss_url ;;
    match recent_entries with
    | [] =>
        logging INFO "No recent articles found in the RSS feed. Nothing to process." [] ;;
        send_telegram_message
          (lit "No new articles found in the RSS feed in the last 24 hours.") ;;
        ret tt
    | _ =>
        all_extracted_text <- for_each recent_entries main_extract_body [] ;;
        match all_extracted_text with
        | [] =>
            logging INFO "No text could be extracted from recent articles." [] ;;
            send_telegram_message
              (lit "Found recent articles, but could not extract text content.") ;;
            ret tt
        | _ =>
            let full_text_corpus := concat all_extracted_text in
            logging INFO "Total length of extracted text corpus: {n}"
                    [AInt (len full_text_corpus)] ;;
            narrative <- get_llm_narrative full_text_corpus ;;
            let no_narrative :=
              logging ERROR "Failed to generate narrative from LLM. Sending raw text (if short) or error." [] ;;
              send_telegram_message
                (lit "Failed to generate an AI news summary. No update could be produced.") ;;
              ret tt in
            match narrative with
            | Some j =>
                if truthy j then
                  match j with
                  | JStr text => main_deliver text
                  | _ =>
                      (* a list or a dictionary has no [split] *)
                      logging INFO "Narrative generated successfully." [] ;;
                      raise AttributeError
                  end
                else no_narrative
            | None => no_narrative
            end
        end
    end.

End Program.


(** ** The script entry point *)

Section Script.

Variable w : env.

(** [DEFAULT_RSS_URL] of the configuration, and the text [str(e)] of an
    exception, which the model does not compute. *)
Variable DEFAULT_RSS_URL : str.
Variable exn_text : exn -> str.

(** What [os.makedirs(LOG_DIR, exist_ok=True)] and the opening of the log
    file by [logging.FileHandler(LOG_FILE_PATH)] do on the host: return,
    or raise where the path cannot be written. *)
Variable log_files : result unit.

(** [setup_logging]: create the directory, install the handlers, and log
    the first line. *)
Definition setup_logging : M unit :=
  lift_result log_files ;;
  logging INFO "Logging setup complete." [].

(** The [except Exception] handler around [main]: log, then try to tell
    the chat, and log if that fails too. *)
Definition report_unhandled (e : exn) : M unit :=
  logging CRITICAL "An unhandled exception occurred in main: {e}" [AExn e] ;;
  try_except
    (send_telegram_message w
       (lit "CRITICAL ERROR in news bot: " ++ exn_text e ++ lit ". Check logs.") ;;
     ret tt)
    (fun _ => true)
    (fun te =>
       logging ERROR "Failed to send critical error notification to Telegram: {te}"
               [AExn te]).

(** The [if __name__ == "__main__"] block, run with [sys.argv = argv];
    the value is the exit status of the process.  [setup_logging] is
    called outside the [try], so what it raises ends the script. *)
Definition run_as_script (argv : list str) : M Z :=
  setup_logging ;;
  chosen <-
    match argv with
    | _ :: rss_feed_url :: _ =>
        logging INFO "Using RSS feed URL from command line: {rss_feed_url}"
                [AStr rss_feed_url] ;;
        ret (Some rss_feed_url)
    | _ =>
        match DEFAULT_RSS_URL with
        | _ :: _ =>
            logging INFO "Using default RSS feed URL from .env: {rss_feed_url}"
                    [AStr DEFAULT_RSS_URL] ;;
            ret (Some DEFAULT_RSS_URL)
        | [] =>
            logging ERROR "No RSS feed URL provided. Please pass as a command line argument or set DEFAULT_RSS_URL in .env" [] ;;
            emit (Stderr (lit "Usage: python news.py <RSS_FEED_URL>")) ;;
            ret None
        end
    end ;;
  match chosen with
  | None => ret 1
  | Some [] =>
      logging CRITICAL "RSS Feed URL is empty. Exiting." [] ;;
      ret 1
  | Some rss_feed_url =>
      try_except (main w rss_feed_url) (fun _ => true) report_unhandled ;;
      ret 0
  end.

End Script.
(** * Vocabulary of the properties *)

Unset Implicit Arguments.

(** The events a computation adds to the trace. *)
Definition extends (st st' : state) (tr : list event) : Prop :=
  trace st' = trace st ++ tr.

(** ** Feed Fetcher *)

(** The publication instant of an entry, in UTC: its [published] time
    or, without one, its [updated] time. *)
Definition publication_instant (e : entry) : option datetime :=
  option_map (fun ts => datetime_fromtimestamp_utc (timegm ts)) (published_time_struct e).

(** The test the loop of [fetch_rss_entries] applies to an entry. *)
Definition kept (w : env) (e : entry) : bool :=
  match published_time_struct e with
  | Some ts => utcnow w - timedelta_days 1 <=? entry_date w ts
  | None => false
  end.

(** An entry whose publication instant is not older than 24 hours. *)
Definition not_older_than_a_day (now : datetime) (e : entry) : bool :=
  match publication_instant e with
  | Some t => now - timedelta_days 1 <=? t
  | None => false
  end.

(** The user agent drawn in state [st]. *)
Definition drawn_user_agent (w : env) (st : state) : str :=
  nth (random_index w (draws st) mod length USER_AGENTS) USER_AGENTS [].

(** The feed document a call of [fetch_rss_entries] downloads. *)
Definition fetched_feed (w : env) (rss_url : str) (st : state) : feed :=
  feed_server w
    (trace st ++ [Log INFO (lit "Fetching RSS feed from: {rss_url}") [AStr rss_url]])
    rss_url (drawn_user_agent w st).

(** ** HTTP Request Helper *)

(** The method [make_request] accepts, compared without regard to case. *)
Definition supported_method (method : str) : option http_method :=
  if str_eqb (upper method) (lit "GET") then Some GET
  else if str_eqb (upper method) (lit "POST") then Some POST
  else None.

Definition no_kwargs : kwargs := {| kw_headers := None; kw_data := None; kw_json := None |}.

Definition given_headers (kw : kwargs) : dict str :=
  match kw_headers kw with Some h => h | None => [] end.

(** The headers [make_request] sends and the draws it has consumed. *)
Definition request_headers (w : env) (kw : kwargs) (st : state) : dict str :=
  if dict_mem (lit "User-Agent") (given_headers kw) then given_headers kw
  else dict_set (lit "User-Agent") (drawn_user_agent w st) (given_headers kw).

Definition draws_after (kw : kwargs) (st : state) : nat :=
  if dict_mem (lit "User-Agent") (given_headers kw) then draws st else S (draws st).

Definition issued_request (w : env) (url : str) (m : http_method) (kw : kwargs)
    (st : state) : request :=
  {| req_method := m; req_url := url; req_headers := request_headers w kw st;
     req_timeout := 120; req_body := kw_body kw |}.

Definition request_failed (url : str) (e : exn) : event :=
  Log ERROR (lit "Request failed for {url}. Error: {e}") [AStr url; AExn e].

Definition unsupported_method (method : str) : event :=
  Log ERROR (lit "Unsupported HTTP method: {method}") [AStr method].

(** What a call of [make_request] returns and adds to the trace. *)
Definition make_request_result (w : env) (url method : str) (kw : kwargs) (st : state)
    : option response * list event :=
  match supported_method method with
  | None => (None, [unsupported_method method])
  | Some m =>
      let req := issued_request w url m kw st in
      let out := http_server w (trace st) req in
      match out with
      | Responded r =>
          if response_ok r then (Some r, [Http req out])
          else (None, [Http req out; request_failed url HTTPError])
      | Failed e => (None, [Http req out; request_failed url (RequestError e)])
      end
  end.

(** No event of the list is a network call. *)
Definition no_network_call (tr : list event) : bool :=
  forallb (fun ev => match ev with Http _ _ | FeedParse _ _ _ => false | _ => true end) tr.

(** ** Delivery Layer *)

(** What reaches the chat. *)
Inductive delivery :=
| TextMessage (chat_id text : str)
| AudioMessage (chat_id caption : str) (audio : bytes).

Definition field (name : string) (fields : dict str) : str :=
  match dict_get (lit name) fields with Some v => v | None => [] end.

(** The message or audio file a network call posts to the chat, if any. *)
Definition delivery_of (w : env) (ev : event) : option delivery :=
  match ev with
  | Http req _ =>
      match req_method req, req_body req with
      | POST, DataForm fields =>
          if str_eqb (req_url req) (TELEGRAM_SEND_MESSAGE_URL w)
          then Some (TextMessage (field "chat_id" fields) (field "text" fields))
          else None
      | POST, Multipart fields [(_, (_, audio, _))] =>
          if str_eqb (req_url req) (TELEGRAM_SEND_AUDIO_URL w)
          then Some (AudioMessage (field "chat_id" fields) (field "caption" fields) audio)
          else None
      | _, _ => None
      end
  | _ => None
  end.

(** The deliveries attempted in a stretch of the trace, in order. *)
Definition deliveries (w : env) (tr : list event) : list delivery :=
  flat_map (fun ev => match delivery_of w ev with Some d => [d] | None => [] end) tr.

(** The visible steps of the text path: messages and pauses. *)
Inductive step :=
| Send (d : delivery)
| Wait (seconds : Z).

Definition steps (w : env) (tr : list event) : list step :=
  flat_map (fun ev => match ev with
                      | Sleep n => [Wait n]
                      | _ => match delivery_of w ev with
                             | Some d => [Send d]
                             | None => []
                             end
                      end) tr.

(** [response.json().get("ok")], as a truth value. *)
Definition read_ok (w : env) (r : response) : result bool :=
  match json_loads w (content r) with
  | None => Raise JSONDecodeError
  | Some j =>
      match py_get j (lit "ok") with
      | Ok v => Ok (truthy v)
      | Raise e => Raise e
      end
  end.

(** The messaging provider acknowledged the call: the HTTP call succeeded
    and the JSON body has a true [ok] field. *)
Definition acknowledged (w : env) (out : http_outcome) : bool :=
  match out with
  | Responded r =>
      response_ok r &&
      match json_loads w (content r) with
      | Some (JObj m) =>
          match dict_get (lit "ok") m with Some v => truthy v | None => false end
      | _ => false
      end
  | Failed _ => false
  end.

(** The messaging provider answers the text endpoint in JSON objects:
    every response to a [sendMessage] call that passes the status check
    decodes to an object. *)
Definition replies_in_json (w : env) : Prop :=
  forall h req r,
    req_url req = TELEGRAM_SEND_MESSAGE_URL w ->
    http_server w h req = Responded r -> response_ok r = true ->
    exists m, json_loads w (content r) = Some (JObj m).

Definition message_kwargs (w : env) (text_message : str) : kwargs :=
  {| kw_headers := None;
     kw_data := Some (DataForm [ (lit "chat_id", CHAT_ID w);
                                 (lit "text", text_message);
                                 (lit "parse_mode", lit "Markdown") ]);
     kw_json := None |}.

Definition sending_text : event := Log INFO (lit "Sending text message to Telegram...") [].

(** The request [send_telegram_message] issues in state [st], and the
    server's answer. *)
Definition message_request (w : env) (text_message : str) (st : state) : request :=
  issued_request w (TELEGRAM_SEND_MESSAGE_URL w) POST (message_kwargs w text_message) st.

Definition message_outcome (w : env) (text_message : str) (st : state) : http_outcome :=
  http_server w (trace st ++ [sending_text]) (message_request w text_message st).

(** What [send_telegram_message] makes of the answer. *)
Definition text_send_result (w : env) (out : http_outcome) : result bool :=
  match out with
  | Responded r => if response_ok r then read_ok w r else Ok false
  | Failed _ => Ok false
  end.

(** Both credentials of the chat are set. *)
Definition chat_configured (w : env) : Prop := BOT_TOKEN w <> [] /\ CHAT_ID w <> [].

(** The numbered messages of a long narrative and its chunks. *)
Definition chunks (narrative : str) : list str :=
  map (fun i => slice i (i + max_len) narrative) (range_step (length narrative) max_len).

Definition numbered (k : nat) (chunk : str) : str :=
  lit "[Part " ++ str_of_nat (k + 1) ++ lit "]" ++ [NL] ++ chunk.

(** The texts the text path sends for a narrative. *)
Definition text_messages (narrative : str) : list str :=
  if Z.of_nat max_len <? len narrative
  then map (part_message narrative) (range_step (length narrative) max_len)
  else [narrative].

Definition sending_audio : event := Log INFO (lit "Sending audio to Telegram...") [].

(** The upload [send_telegram_audio] issues, and the server's answer. *)
Definition audio_request (w : env) (audio_bytes : bytes) (caption : str) : request :=
  {| req_method := POST;
     req_url := TELEGRAM_SEND_AUDIO_URL w;
     req_headers := [];
     req_timeout := 60;
     req_body :=
       Multipart [ (lit "chat_id", CHAT_ID w); (lit "caption", slice_to 1024 caption) ]
                 [ (lit "audio", (lit "daily_news_summary.mp3", audio_bytes, lit "audio/mpeg")) ] |}.

Definition audio_outcome (w : env) (audio_bytes : bytes) (caption : str) (st : state)
    : http_outcome :=
  http_server w (trace st ++ [sending_audio]) (audio_request w audio_bytes caption).

(** What [send_telegram_audio] makes of the answer. *)
Definition audio_send_result (w : env) (out : http_outcome) : result bool :=
  match out with
  | Responded r =>
      if response_ok r then
        match read_ok w r with
        | Raise e => if is_RequestException e then Ok false else Raise e
        | Ok b => Ok b
        end
      else Ok false
  | Failed _ => Ok false
  end.

(** The call was acknowledged by the messaging provider. *)
Definition posted (w : env) (ev : event) : bool :=
  match ev with
  | Http _ out => acknowledged w out
  | _ => false
  end.

(** The deliveries attempted in a stretch of the trace, each with
    whether it was acknowledged. *)
Definition attempts (w : env) (tr : list event) : list (delivery * bool) :=
  flat_map (fun ev => match delivery_of w ev with
                      | Some d => [(d, posted w ev)]
                      | None => []
                      end) tr.

Definition is_audio (d : delivery) : bool :=
  match d with AudioMessage _ _ _ => true | TextMessage _ _ => false end.

Definition is_text (d : delivery) : bool := negb (is_audio d).

(** Audio delivery succeeded: an audio upload was acknowledged. *)
Definition audio_delivered (w : env) (tr : list event) : bool :=
  existsb (fun a => is_audio (fst a) && snd a) (attempts w tr).

(** Text delivery succeeded: text messages were sent and every one of
    them was acknowledged. *)
Definition text_delivered (w : env) (tr : list event) : bool :=
  match filter (fun a => is_text (fst a)) (attempts w tr) with
  | [] => false
  | sends => forallb snd sends
  end.

(** A request body that is neither a form nor a file upload. *)
Definition plain_body (b : body) : Prop :=
  match b with
  | DataForm _ | Multipart _ _ => False
  | _ => True
  end.

(** The first line of a text: what precedes its first newline. *)
Fixpoint first_line (s : str) : str :=
  match s with
  | [] => []
  | c :: r => if N.eqb c NL then [] else c :: first_line r
  end.

(** The caption as the specification words it: the first line, cut to
    200 characters with an ellipsis when it is longer. *)
Definition short_first_line (narrative : str) : str :=
  if 200 <? len (first_line narrative)
  then firstn 200 (first_line narrative) ++ lit "..."
  else first_line narrative.

Definition CAPTION_HEADING : str := lit "Your 24hr News Summary:".

Definition narrative_generated : event := Log INFO (lit "Narrative generated successfully.") [].

(** The state in which [main_deliver] calls the speech synthesizer. *)
Definition at_synthesis (st : state) : state :=
  {| trace := trace st ++ [narrative_generated]; draws := draws st |}.

(** The audio the speech synthesizer hands to [main_deliver], if any. *)
Definition synthesized (w : env) (narrative : str) (st : state) : option bytes :=
  match fst (text_to_speech_elevenlabs w narrative (at_synthesis st)) with
  | Ok (Some (b :: bs)) => Some (b :: bs)
  | _ => None
  end.

(** The provider's answer to the upload of that audio. *)
Definition upload_outcome (w : env) (narrative : str) (st : state) (data : bytes)
    : http_outcome :=
  audio_outcome w data (audio_caption narrative)
    (snd (text_to_speech_elevenlabs w narrative (at_synthesis st))).

(** ** Article Extractor *)

Definition extracting (article_url : str) : event :=
  Log INFO (lit "Extracting text from: {article_url}") [AStr article_url].

(** The page [extract_text_from_url] fetches in state [st], if the fetch
    succeeds. *)
Definition fetched_page (w : env) (article_url : str) (st : state) : option response :=
  fst (make_request_result w article_url (lit "GET") no_kwargs
         {| trace := trace st ++ [extracting article_url]; draws := draws st |}).

(** The designated container: the first [section] with id [entry-body]. *)
Definition designated_container (soup : element) : option element :=
  soup_find_id (lit "section") (lit "entry-body") soup.

(** The fall-back element: the first [main]; without one the first
    [article]; without one the [body]. *)
Definition fallback_element (soup : element) : option element :=
  match soup_find (lit "main") soup with
  | Some e => Some e
  | None =>
      match soup_find (lit "article") soup with
      | Some e => Some e
      | None => soup_find (lit "body") soup
      end
  end.

(** The visible text of an element, one stripped string per line. *)
Definition visible_text (e : element) : str := get_text [NL] e.

(** What the extractor makes of a fetched page. *)
Definition extracted_text (w : env) (page : bytes) : option str :=
  match html_parser w page with
  | Raise _ => None
  | Ok soup =>
      match designated_container soup with
      | Some container => Some (visible_text container)
      | None =>
          match fallback_element soup with
          | Some e => if 200 <? len (visible_text e) then Some (visible_text e) else None
          | None => None
          end
      end
  end.

(** ** Narrative Generator *)

Definition llm_kwargs (w : env) (text_corpus : str) : kwargs :=
  {| kw_headers := Some [ (lit "Content-Type", lit "application/json");
                          (lit "Authorization", lit "Bearer " ++ DS_API_KEY w) ];
     kw_data := Some (DataStr (json_dumps w (llm_payload text_corpus)));
     kw_json := None |}.

(** What [get_llm_narrative] logs before it calls the provider. *)
Definition llm_preamble (text_corpus : str) : list event :=
  match strip text_corpus with
  | [] => [Log INFO (lit "Text corpus is empty. LLM will be prompted accordingly.") []]
  | _ => []
  end ++ [Log INFO (lit "Sending text to DeepSeek for narrative generation...") []].

Definition llm_state (text_corpus : str) (st : state) : state :=
  {| trace := trace st ++ llm_preamble text_corpus; draws := draws st |}.

(** The request sent to the provider, and its answer. *)
Definition llm_request (w : env) (text_corpus : str) (st : state) : request :=
  issued_request w DS_API_URL POST (llm_kwargs w text_corpus) (llm_state text_corpus st).

Definition llm_outcome (w : env) (text_corpus : str) (st : state) : http_outcome :=
  http_server w (trace (llm_state text_corpus st)) (llm_request w text_corpus st).

(** The decoded body is an object with a non-empty [choices] list. *)
Definition has_choices (j : json) : bool :=
  match j with
  | JObj m =>
      match dict_get (lit "choices") m with
      | Some (JArr (_ :: _)) => true
      | _ => false
      end
  | _ => false
  end.

(** The content of the user message of a request payload. *)
Definition user_content (payload : json) : option json :=
  match payload with
  | JObj m =>
      match dict_get (lit "messages") m with
      | Some (JArr [_; JObj user]) =>
          match dict_get (lit "role") user with
          | Some (JStr role) =>
              if str_eqb role (lit "user") then dict_get (lit "content") user else None
          | _ => None
          end
      | _ => None
      end
  | _ => None
  end.

(** ** Runs of the whole pipeline *)

(** The same world at another run: another random source and another
    reading of the clock. *)
Definition rerun (w : env) (rnd : nat -> nat) (now : datetime) : env :=
  {| BOT_TOKEN := BOT_TOKEN w;
     CHAT_ID := CHAT_ID w;
     DS_API_KEY := DS_API_KEY w;
     ELEVENLABS_API_KEY := ELEVENLABS_API_KEY w;
     ELEVENLABS_VOICE_ID := ELEVENLABS_VOICE_ID w;
     random_index := rnd;
     utcnow := now;
     timezone := timezone w;
     http_server := http_server w;
     feed_server := feed_server w;
     json_loads := json_loads w;
     json_dumps := json_dumps w;
     html_parser := html_parser w |}.

(** The test of [fetch_rss_entries] when the clock reads [now]. *)
Definition kept_at (w : env) (now : datetime) (e : entry) : bool :=
  match published_time_struct e with
  | Some ts => now - timedelta_days 1 <=? entry_date w ts
  | None => false
  end.

(** The window selects the same entries of the feed at both readings of
    the clock. *)
Definition same_selection (w : env) (rss_url : str) (now1 now2 : datetime) : Prop :=
  forall e, In e (entries (feed_server w [] rss_url [])) ->
            kept_at w now1 e = kept_at w now2 e.

Definition without_user_agent (headers : dict str) : dict str :=
  filter (fun kv => negb (str_eqb (fst kv) (lit "User-Agent"))) headers.

(** Two requests that differ at most in their [User-Agent] header. *)
Definition same_request (r1 r2 : request) : Prop :=
  req_method r1 = req_method r2 /\ req_url r1 = req_url r2 /\
  req_timeout r1 = req_timeout r2 /\ req_body r1 = req_body r2 /\
  without_user_agent (req_headers r1) = without_user_agent (req_headers r2).

(** The feed, the pages and the providers are fixed: every server answers
    by the request alone, whatever happened before in the run and
    whatever client identity the request carries. *)
Definition unchanged_world (w : env) : Prop :=
  (forall h1 h2 r1 r2, same_request r1 r2 -> http_server w h1 r1 = http_server w h2 r2) /\
  (forall h1 h2 url a1 a2, feed_server w h1 url a1 = feed_server w h2 url a2).

(** The URLs a stretch of the trace called over HTTP, in order. *)
Definition called_urls (tr : list event) : list str :=
  flat_map (fun ev => match ev with Http req _ => [req_url req] | _ => [] end) tr.

(** The events a run added to the trace it started from. *)
Definition new_events (st : state) (run_state : state) : list event :=
  skipn (length (trace st)) (trace run_state).

(** Two computations that return the same result and attempt the same
    deliveries, with the same acknowledgments, from any two states. *)
Definition similar {A} (w : env) (m1 m2 : M A) : Prop :=
  forall st1 st2,
    exists r st1' st2' tr1 tr2,
      m1 st1 = (r, st1') /\ m2 st2 = (r, st2') /\
      extends st1 st1' tr1 /\ extends st2 st2' tr2 /\
      attempts w tr1 = attempts w tr2.

(** ** Example worlds *)

Module World.

Definition start : state := {| trace := []; draws := 0 |}.

(** A world with every credential set, a constant feed and servers that
    answer by the request only. *)
Definition make (now : datetime) (tz : Z) (f : feed)
    (http : request -> http_outcome)
    (loads : bytes -> option json) (parser : bytes -> result element) : env :=
  {| BOT_TOKEN := lit "123:abc";
     CHAT_ID := lit "42";
     DS_API_KEY := lit "ds-key";
     ELEVENLABS_API_KEY := lit "el-key";
     ELEVENLABS_VOICE_ID := lit "voice";
     random_index := fun k => k;
     utcnow := now;
     timezone := tz;
     http_server := fun _ => http;
     feed_server := fun _ _ _ => f;
     json_loads := loads;
     json_dumps := fun _ => lit "{}";
     html_parser := parser |}.

Definition offline (_ : request) : http_outcome := Failed ConnectionError.

(** Noon of 2 January 2024, UTC. *)
Definition noon : struct_time :=
  {| tm_year := 2024; tm_mon := 1; tm_mday := 2; tm_hour := 12; tm_min := 0; tm_sec := 0 |}.

Definition now : datetime := datetime_fromtimestamp_utc (timegm noon).

Definition entry_at (ts : struct_time) : entry :=
  {| title := Some (lit "Headline");
     link := Some (lit "https://example.org/a");
     published_parsed := Some ts;
     updated_parsed := None |}.

(** An entry stamped one hour after [now]. *)
Definition future_entry : entry :=
  entry_at {| tm_year := 2024; tm_mon := 1; tm_mday := 2;
              tm_hour := 13; tm_min := 0; tm_sec := 0 |}.

(** An entry stamped exactly 24 hours before [now]. *)
Definition boundary_entry : entry :=
  entry_at {| tm_year := 2024; tm_mon := 1; tm_mday := 1;
              tm_hour := 12; tm_min := 0; tm_sec := 0 |}.

(** An entry stamped 26 hours before [now]. *)
Definition stale_entry : entry :=
  entry_at {| tm_year := 2024; tm_mon := 1; tm_mday := 1;
              tm_hour := 10; tm_min := 0; tm_sec := 0 |}.

Definition feed_of (l : list entry) : feed := {| bozo := false; entries := l |}.

(** A UTC host whose feed holds the three entries. *)
Definition utc_host : env :=
  make now 0 (feed_of [stale_entry; boundary_entry; future_entry])
       offline (fun _ => None) (fun _ => Raise ParserError).

(** The same feed read on a host five hours west of UTC. *)
Definition western_host : env :=
  make now 18000 (feed_of [stale_entry; boundary_entry; future_entry])
       offline (fun _ => None) (fun _ => Raise ParserError).

Definition feed_url : str := lit "https://example.org/feed.xml".

Definition page_url : str := lit "https://example.org/a".

(** A server that answers every request with status 304 and no body. *)
Definition not_modified : response := {| status_code := 304; content := [] |}.

Definition caching_host : env :=
  make now 0 (feed_of []) (fun _ => Responded not_modified)
       (fun _ => None) (fun _ => Raise ParserError).

(** The messaging provider answers 200 with a page that is not JSON. *)
Definition html_page : response := {| status_code := 200; content := [x3c; x68; x31; x3e] |}.

Definition proxy_host : env :=
  make now 0 (feed_of []) (fun _ => Responded html_page)
       (fun _ => None) (fun _ => Raise ParserError).

(** A provider that acknowledges everything with [{"ok": true}]. *)
Definition ok_body : response := {| status_code := 200; content := [x7b; x7d] |}.

Definition ok_json (_ : bytes) : option json := Some (JObj [(lit "ok", JBool true)]).

Definition friendly_host : env :=
  make now 0 (feed_of []) (fun _ => Responded ok_body)
       ok_json (fun _ => Raise ParserError).

(** An article page with the designated container, and one without it
    whose body is short. *)
Definition article_soup : element :=
  Tag (lit "[document]") []
    [ Tag (lit "html") []
        [ Tag (lit "head") [] [ Tag (lit "title") [] [ NavigableString (lit "T") ] ];
          Tag (lit "body") []
            [ Tag (lit "nav") [] [ NavigableString (lit "menu") ];
              Tag (lit "section") [ (lit "id", lit "entry-body") ]
                [ NavigableString (lit "  Hello ");
                  OtherString (lit "a comment");
                  Tag (lit "p") [] [ NavigableString (lit "world") ];
                  NavigableString (lit "   ") ] ] ] ].

Definition short_soup : element :=
  Tag (lit "[document]") []
    [ Tag (lit "html") []
        [ Tag (lit "body") [] [ Tag (lit "p") [] [ NavigableString (lit "Too short.") ] ] ] ].

Definition article_host : env :=
  make now 0 (feed_of [boundary_entry]) (fun _ => Responded ok_body)
       ok_json (fun _ => Ok article_soup).

Definition short_page_host : env :=
  make now 0 (feed_of [boundary_entry]) (fun _ => Responded ok_body)
       ok_json (fun _ => Ok short_soup).

(** A world in which the whole pipeline runs: the feed has one fresh
    entry, its page has the container, and the providers answer every
    request with the same JSON object, which acknowledges and carries a
    narrative. *)
Definition reply : json :=
  JObj [ (lit "ok", JBool true);
         (lit "choices",
          JArr [ JObj [ (lit "message", JObj [ (lit "content", JStr (lit "Summary X")) ]) ] ]) ].

Definition steady_host : env :=
  make now 0 (feed_of [boundary_entry]) (fun _ => Responded ok_body)
       (fun _ => Some reply) (fun _ => Ok article_soup).

(** The same world with the summarizer timing out. *)
Definition summarizer_down : env :=
  make now 0 (feed_of [boundary_entry])
       (fun req => if str_eqb (req_url req) DS_API_URL
                   then Failed Timeout else Responded ok_body)
       (fun _ => Some reply) (fun _ => Ok article_soup).

(** The same world with an empty feed. *)
Definition empty_feed_host : env :=
  make now 0 (feed_of []) (fun _ => Responded ok_body)
       (fun _ => Some reply) (fun _ => Ok article_soup).

(** A world without the bot token. *)
Definition unconfigured_host : env :=
  {| BOT_TOKEN := [];
     CHAT_ID := lit "42";
     DS_API_KEY := lit "ds-key";
     ELEVENLABS_API_KEY := lit "el-key";
     ELEVENLABS_VOICE_ID := lit "voice";
     random_index := fun k => k;
     utcnow := now;
     timezone := 0;
     http_server := fun _ _ => Responded ok_body;
     feed_server := fun _ _ _ => feed_of [boundary_entry];
     json_loads := fun _ => Some reply;
     json_dumps := fun _ => lit "{}";
     html_parser := fun _ => Ok article_soup |}.

(** A state left behind by earlier activity. *)
Definition used : state :=
  {| trace := [Sleep 1; Log INFO (lit "Logging setup complete.") []]; draws := 7 |}.

Definition one_second : Z := 1000000.
Definition one_hour : Z := 3600 * 1000000.

(** A narrative of 9000 characters. *)
Definition long_narrative : str := repeat 65%N (Z.to_nat 9000).

End World.


(** ** Conditions under which no send raises *)

(** A text that UTF-8 can encode: no code point of it is a lone
    surrogate (U+D800 to U+DFFF). *)
Definition encodable (s : str) : bool :=
  forallb (fun c => negb ((55296 <=? c)%N && (c <=? 57343)%N)) s.

(** The bot token and the chat id can be encoded. *)
Definition encodable_chat (w : env) : bool :=
  encodable (BOT_TOKEN w) && encodable (CHAT_ID w).

(** The messaging provider answers in JSON objects: every response to a
    [sendMessage] or [sendAudio] call that passes the status check
    decodes to an object. *)
Definition provider_replies_in_objects (w : env) : Prop :=
  forall h req r,
    req_url req = TELEGRAM_SEND_MESSAGE_URL w \/ req_url req = TELEGRAM_SEND_AUDIO_URL w ->
    http_server w h req = Responded r -> response_ok r = true ->
    exists m, json_loads w (content r) = Some (JObj m).

(** A broken-down time that is a calendar time of the years 1 to 9999,
    and a feed whose entries are so dated: the dates Python's [datetime]
    represents. *)
Definition calendar_time (t : struct_time) : bool :=
  (1 <=? tm_year t) && (tm_year t <=? 9999) &&
  (1 <=? tm_mon t) && (tm_mon t <=? 12) &&
  (1 <=? tm_mday t) && (tm_mday t <=? 31) &&
  (0 <=? tm_hour t) && (tm_hour t <=? 23) &&
  (0 <=? tm_min t) && (tm_min t <=? 59) &&
  (0 <=? tm_sec t) && (tm_sec t <=? 59).

Definition dated_in_range (f : feed) : bool :=
  forallb (fun e => match published_time_struct e with
                    | Some ts => calendar_time ts
                    | None => true
                    end) (entries f).

(** A world whose servers answer every call with status 200 and a body
    that decodes to a JSON list. *)
Definition array_host : env :=
  World.make World.now 0 (World.feed_of []) (fun _ => Responded World.ok_body)
             (fun _ => Some (JArr [])) (fun _ => Raise ParserError).

(** A computation that returns from every state. *)
Definition never_raises {A} (m : M A) : Prop :=
  forall st, exists a st', m st = (Ok a, st').


(** ** Vocabulary of the further properties *)

Definition is_log (ev : event) : bool :=
  match ev with Log _ _ _ => true | _ => false end.

(** A stretch of the trace that holds log lines only. *)
Definition only_logs (tr : list event) : bool := forallb is_log tr.

(** A computation that only logs, and one that only logs and returns. *)
Definition logs_only {A} (m : M A) : Prop :=
  forall st, exists r st' tr,
    m st = (r, st') /\ extends st st' tr /\ draws st' = draws st /\ only_logs tr = true.

Definition returns_quietly {A} (m : M A) : Prop :=
  forall st, exists a st' tr,
    m st = (Ok a, st') /\ extends st st' tr /\ draws st' = draws st /\ only_logs tr = true.

(** The feed downloads of a stretch of the trace: URL and agent. *)
Definition downloads (tr : list event) : list (str * str) :=
  flat_map (fun ev => match ev with FeedParse url agent _ => [(url, agent)] | _ => [] end) tr.

Definition fetching (rss_url : str) : event :=
  Log INFO (lit "Fetching RSS feed from: {rss_url}") [AStr rss_url].

(** The state in which [extract_text_from_url] calls [make_request], the
    request it sends and the server's answer. *)
Definition at_extraction (article_url : str) (st : state) : state :=
  {| trace := trace st ++ [extracting article_url]; draws := draws st |}.

Definition page_request (w : env) (article_url : str) (st : state) : request :=
  issued_request w article_url GET no_kwargs (at_extraction article_url st).

Definition page_outcome (w : env) (article_url : str) (st : state) : http_outcome :=
  http_server w (trace (at_extraction article_url st)) (page_request w article_url st).

(** The narrative a decoded provider response yields: the content of the
    message of the first choice, provided the response is an object, its
    [choices] a non-empty list, the first choice and its [message]
    objects, and the content a value that has a length (a string, a list
    or an object). *)
Definition narrative_of (j : json) : option json :=
  match j with
  | JObj m =>
      match dict_get (lit "choices") m with
      | Some (JArr (JObj first :: _)) =>
          match dict_get (lit "message") first with
          | Some (JObj message) =>
              match dict_get (lit "content") message with
              | Some (JStr s) => Some (JStr s)
              | Some (JArr l) => Some (JArr l)
              | Some (JObj o) => Some (JObj o)
              | _ => None
              end
          | _ => None
          end
      | _ => None
      end
  | _ => None
  end.

(** The call [text_to_speech_elevenlabs] makes. *)
Definition tts_kwargs (w : env) (text : str) : kwargs :=
  {| kw_headers := Some [ (lit "Accept", lit "audio/mpeg");
                          (lit "Content-Type", lit "application/json");
                          (lit "xi-api-key", ELEVENLABS_API_KEY w) ];
     kw_data := None;
     kw_json := Some (tts_payload text) |}.

Definition sending_to_speech : event :=
  Log INFO (lit "Sending text to ElevenLabs for speech synthesis...") [].

Definition at_speech (st : state) : state :=
  {| trace := trace st ++ [sending_to_speech]; draws := draws st |}.

Definition tts_request (w : env) (text : str) (st : state) : request :=
  issued_request w (ELEVENLABS_API_URL w) POST (tts_kwargs w text) (at_speech st).

Definition tts_outcome (w : env) (text : str) (st : state) : http_outcome :=
  http_server w (trace (at_speech st)) (tts_request w text st).

(** What both send functions read from a decoded object: the truth of
    its [ok] field. *)
Definition ok_field (m : list (str * json)) : bool :=
  match dict_get (lit "ok") m with Some v => truthy v | None => false end.

(** The links [main] follows: the non-empty links of the entries. *)
Definition links (l : list entry) : list str :=
  flat_map (fun e => match link e with Some (c :: r) => [c :: r] | _ => [] end) l.

(** The block an article contributes to the corpus. *)
Definition article_block (article_title text : str) : str :=
  lit "--- Article: " ++ article_title ++ lit " ---" ++ [NL] ++ text ++ [NL; NL].

(** The text [extract_text_from_url] returns for the page it fetches in
    state [st]: the text of the page when the fetch succeeds, else
    nothing. *)
Definition page_text (w : env) (article_url : str) (st : state) : option str :=
  match page_outcome w article_url st with
  | Responded page => if response_ok page then extracted_text w (content page) else None
  | Failed _ => None
  end.

(** The blocks an entry adds to the corpus when the loop of [main] comes
    to it in state [st]: the block of its page's text when it has a
    non-empty link and the page yields a non-empty text, else none. *)
Definition entry_blocks (w : env) (e : entry) (st : state) : list str :=
  match link e with
  | Some (c :: url) =>
      match page_text w (c :: url) st with
      | Some (t :: text) => [article_block (title_or "Untitled Article" e) (t :: text)]
      | _ => []
      end
  | _ => []
  end.

(** The state the loop of [main] is in after one entry, which it either
    extracts or skips with a warning, and after a list of entries. *)
Definition after_entry (w : env) (e : entry) (st : state) : state :=
  match link e with
  | Some (c :: url) => snd (extract_text_from_url w (c :: url) st)
  | _ =>
      {| trace := trace st ++ [Log WARNING (lit "Entry '{title}' has no link. Skipping.")
                                   [AStr (title_or "No Title" e)]];
         draws := draws st |}
  end.

Fixpoint after_entries (w : env) (l : list entry) (st : state) : state :=
  match l with
  | [] => st
  | e :: r => after_entries w r (after_entry w e st)
  end.

(** The blocks the loop of [main] collects over a list of entries, entry
    by entry. *)
Fixpoint loop_blocks (w : env) (l : list entry) (st : state) : list (list str) :=
  match l with
  | [] => []
  | e :: r => entry_blocks w e st :: loop_blocks w r (after_entry w e st)
  end.

(** The three fixed notices of [main]. *)
Definition NO_ARTICLES : str :=
  lit "No new articles found in the RSS feed in the last 24 hours.".
Definition NO_TEXT : str :=
  lit "Found recent articles, but could not extract text content.".
Definition NO_SUMMARY : str :=
  lit "Failed to generate an AI news summary. No update could be produced.".

(** The state in which [main] calls [fetch_rss_entries]. *)
Definition at_start (st : state) : state :=
  {| trace := trace st ++ [Log INFO (lit "Starting news aggregation process...") []];
     draws := draws st |}.

(** ** Which servers a computation contacts *)

(** An event that contacts no server other than the [allowed] URLs and
    downloads no feed. *)
Definition contacts (allowed : list str) (ev : event) : Prop :=
  match ev with
  | Http req _ => In (req_url req) allowed
  | FeedParse _ _ _ => False
  | _ => True
  end.

(** A computation whose every event is such, whether it returns or
    raises. *)
Definition stays_within (allowed : list str) {A} (m : M A) : Prop :=
  forall st, exists r st' tr,
    m st = (r, st') /\ extends st st' tr /\ Forall (contacts allowed) tr.

(** The endpoints of the delivery stage. *)
Definition DELIVERY_SERVICES (w : env) : list str :=
  [ELEVENLABS_API_URL w; TELEGRAM_SEND_AUDIO_URL w; TELEGRAM_SEND_MESSAGE_URL w].


(** ** The orchestrator *)

(** The entries [main] works on: those [fetch_rss_entries] keeps. *)
Definition selected (w : env) (rss_url : str) (st : state) : list entry :=
  filter (kept w) (entries (fetched_feed w rss_url (at_start st))).

(** What [get_llm_narrative] returns for the answer of the provider:
    the content of the first choice of an accepted answer that decodes. *)
Definition summary_of (w : env) (text_corpus : str) (st : state) : option json :=
  match llm_outcome w text_corpus st with
  | Responded r =>
      if response_ok r then
        match json_loads w (content r) with
        | Some j => narrative_of j
        | None => None
        end
      else None
  | Failed _ => None
  end.

(** The stages of a run of [main] from state [st]: the state after the
    feed was fetched; the texts extracted from the pages of the selected
    entries and the corpus made of them; the state in which the
    summarizer is called. *)
Definition after_fetch (w : env) (rss_url : str) (st : state) : state :=
  snd (fetch_rss_entries w rss_url (at_start st)).

Definition extracted_texts (w : env) (rss_url : str) (st : state) : list str :=
  concat (loop_blocks w (selected w rss_url st) (after_fetch w rss_url st)).

Definition corpus_of (w : env) (rss_url : str) (st : state) : str :=
  concat (extracted_texts w rss_url st).

Definition at_summary (w : env) (rss_url : str) (st : state) : state :=
  {| trace :=
       trace (after_entries w (selected w rss_url st) (after_fetch w rss_url st))
       ++ [Log INFO (lit "Total length of extracted text corpus: {n}")
               [AInt (len (corpus_of w rss_url st))]];
     draws := draws (after_entries w (selected w rss_url st) (after_fetch w rss_url st)) |}.

(** What [main] makes of the summarizer's answer for a corpus, when the
    summarizer is called in state [s]: with a non-empty text the run is
    that of the delivery stage on that text, started where the
    summarizer left off, and delivers what that stage delivers; with a
    true value that is not a text nothing is delivered and
    [AttributeError] is raised; with no answer or an empty one the
    notice that no summary could be produced is sent. *)
Definition outcome_of_summary (w : env) (text_corpus : str) (s : state)
    (res : result unit) (st' : state) (ds : list delivery) : Prop :=
  match summary_of w text_corpus s with
  | Some (JStr (c :: narrative)) =>
      exists tr,
        main_deliver w (c :: narrative) (snd (get_llm_narrative w text_corpus s)) = (res, st') /\
        extends (snd (get_llm_narrative w text_corpus s)) st' tr /\
        ds = deliveries w tr
  | Some j =>
      if truthy j then ds = [] /\ res = Raise AttributeError
      else ds = [TextMessage (CHAT_ID w) NO_SUMMARY]
  | None => ds = [TextMessage (CHAT_ID w) NO_SUMMARY]
  end.



(** ** The script *)

(** The URL the script works on: the first command-line argument when
    there is one, else the configured default. *)
Definition requested_url (DEFAULT_RSS_URL : str) (argv : list str) : str :=
  match argv with
  | _ :: rss_feed_url :: _ => rss_feed_url
  | _ => DEFAULT_RSS_URL
  end.

(** The state in which the script calls [main]: two log lines later. *)
Definition at_main (DEFAULT_RSS_URL : str) (argv : list str) (st : state) : state :=
  {| trace :=
       (trace st ++ [Log INFO (lit "Logging setup complete.") []])
       ++ [match argv with
           | _ :: rss_feed_url :: _ =>
               Log INFO (lit "Using RSS feed URL from command line: {rss_feed_url}")
                   [AStr rss_feed_url]
           | _ =>
               Log INFO (lit "Using default RSS feed URL from .env: {rss_feed_url}")
                   [AStr DEFAULT_RSS_URL]
           end];
     draws := draws st |}.

(** The message the script sends about an exception of [main]. *)
Definition critical_notice (exn_text : exn -> str) (e : exn) : str :=
  lit "CRITICAL ERROR in news bot: " ++ exn_text e ++ lit ". Check logs.".

(** * Properties *)

(** ** Basic facts *)

Lemma str_eqb_eq (a b : str) : str_eqb a b = true <-> a = b.
Proof.
  revert b; induction a as [|x a IH]; intros [|y b]; simpl; split;
    try congruence; try reflexivity.
  - intros H. apply andb_true_iff in H as [Hx Hab].
    apply N.eqb_eq in Hx. apply IH in Hab. congruence.
  - intros H. injection H as -> ->.
    rewrite N.eqb_refl. simpl. apply IH. reflexivity.
Qed.

Lemma str_eqb_refl (a : str) : str_eqb a a = true.
Proof. apply str_eqb_eq. reflexivity. Qed.

Lemma str_eqb_neq (a b : str) : str_eqb a b = false <-> a <> b.
Proof.
  split.
  - intros H E. apply str_eqb_eq in E. congruence.
  - intros H. destruct (str_eqb a b) eqn:E; [|reflexivity].
    apply str_eqb_eq in E. contradiction.
Qed.

Lemma extends_refl st : extends st st [].
Proof. unfold extends. now rewrite app_nil_r. Qed.

Lemma extends_trans st1 st2 st3 tr1 tr2 :
  extends st1 st2 tr1 -> extends st2 st3 tr2 -> extends st1 st3 (tr1 ++ tr2).
Proof. unfold extends. intros -> ->. now rewrite app_assoc. Qed.

(** ** Feed Fetcher: the 24-hour window *)

Lemma fetch_loop_filter (w : env) (l acc : list entry) (st : state) :
  exists st',
    for_each l (fetch_rss_entries_body w (utcnow w - timedelta_days 1)) acc st
    = (Ok (acc ++ filter (kept w) l), st').
Proof.
  revert acc st. induction l as [|e l IH]; intros acc st; simpl.
  - exists st. unfold ret. now rewrite app_nil_r.
  - unfold bind at 1. unfold fetch_rss_entries_body at 1, kept at 1.
    destruct (published_time_struct e) as [ts|].
    + destruct (utcnow w - timedelta_days 1 <=? entry_date w ts).
      * unfold bind, logging, emit, ret.
        match goal with |- context [for_each l _ ?a ?s] => destruct (IH a s) as [st' ->] end.
        exists st'. now rewrite <- app_assoc.
      * unfold ret. destruct (IH acc st) as [st' ->]. now exists st'.
    + unfold bind, logging, emit, ret.
      match goal with |- context [for_each l _ ?a ?s] => destruct (IH a s) as [st' ->] end.
      now exists st'.
Qed.

Lemma fetch_rss_entries_filter (w : env) (rss_url : str) (st : state) :
  exists st',
    fetch_rss_entries w rss_url st
    = (Ok (filter (kept w) (entries (fetched_feed w rss_url st))), st').
Proof.
  unfold fetch_rss_entries, fetched_feed, drawn_user_agent.
  unfold bind at 1. unfold logging at 1, emit at 1.
  unfold bind at 1. unfold get_random_user_agent, random_choice.
  unfold bind at 1. unfold feedparser_parse at 1. cbn [trace draws].
  set (f := feed_server w _ _ _).
  unfold bind at 1.
  assert (Hb : forall s, exists s',
             (if bozo f
              then logging WARNING "RSS feed may be malformed. Bozo reason: {bozo_exception}" []
              else ret tt) s = (Ok tt, s')).
  { intros s. destruct (bozo f); eexists; reflexivity. }
  match goal with |- context [(if bozo f then _ else _) ?s] =>
    destruct (Hb s) as [s1 ->] end.
  destruct (entries f) as [|e l] eqn:El.
  - eexists. reflexivity.
  - unfold bind at 1.
    destruct (fetch_loop_filter w (e :: l) [] s1) as [s2 ->].
    eexists. reflexivity.
Qed.

(** On a host whose clock zone is UTC the program's test is the test on
    the publication instant. *)
Lemma kept_on_utc_host (w : env) (e : entry) :
  timezone w = 0 -> kept w e = not_older_than_a_day (utcnow w) e.
Proof.
  intros Htz. unfold kept, not_older_than_a_day, publication_instant, entry_date, mktime.
  destruct (published_time_struct e) as [ts|]; simpl; [|reflexivity].
  now rewrite Htz, Z.add_0_r.
Qed.

(** C1 (as amended): on a host running in UTC, [fetch_rss_entries]
    returns, in feed order, exactly the entries of the downloaded feed
    whose publication instant is at or after now minus 24 hours.  An
    entry with a publication instant is retained if and only if that
    instant is not older than 24 hours (the boundary included); no upper
    bound is applied, and an entry without any timestamp is dropped. *)
Theorem C1_window_is_a_lower_bound (w : env) (rss_url : str) (st : state) :
  timezone w = 0 ->
  exists recent st',
    fetch_rss_entries w rss_url st = (Ok recent, st') /\
    recent = filter (not_older_than_a_day (utcnow w)) (entries (fetched_feed w rss_url st)) /\
    (forall e t, publication_instant e = Some t ->
       (In e recent <->
        In e (entries (fetched_feed w rss_url st)) /\ utcnow w - timedelta_days 1 <= t)) /\
    (forall e, publication_instant e = None -> ~ In e recent).
Proof.
  intros Htz.
  destruct (fetch_rss_entries_filter w rss_url st) as [st' Hrun].
  exists (filter (kept w) (entries (fetched_feed w rss_url st))), st'.
  split; [exact Hrun|]. split; [|split].
  - apply filter_ext. intros e. now apply kept_on_utc_host.
  - intros e t Ht. rewrite filter_In, kept_on_utc_host by exact Htz.
    unfold not_older_than_a_day. rewrite Ht, Z.leb_le. reflexivity.
  - intros e Hnone Hin. apply filter_In in Hin as [_ Hk].
    rewrite kept_on_utc_host in Hk by exact Htz.
    unfold not_older_than_a_day in Hk. rewrite Hnone in Hk. discriminate.
Qed.

Lemma C1_window_is_a_lower_bound_witness :
  timezone World.utc_host = 0 /\
  exists recent st',
    fetch_rss_entries World.utc_host World.feed_url World.start = (Ok recent, st') /\
    recent = filter (not_older_than_a_day (utcnow World.utc_host))
               (entries (fetched_feed World.utc_host World.feed_url World.start)) /\
    (forall e t, publication_instant e = Some t ->
       (In e recent <->
        In e (entries (fetched_feed World.utc_host World.feed_url World.start)) /\
        utcnow World.utc_host - timedelta_days 1 <= t)) /\
    (forall e, publication_instant e = None -> ~ In e recent).
Proof.
  split; [reflexivity|].
  apply (C1_window_is_a_lower_bound World.utc_host World.feed_url World.start).
  reflexivity.
Defined.

(** C1 as stated fails: an entry stamped one hour after the current
    instant lies outside the window that ends now, and is retained. *)
Lemma C1_future_entry_is_retained :
  fst (fetch_rss_entries World.utc_host World.feed_url World.start)
  = Ok [World.boundary_entry; World.future_entry] /\
  publication_instant World.future_entry = Some (utcnow World.utc_host + 3600 * 1000000) /\
  ~ (utcnow World.utc_host - timedelta_days 1 <= utcnow World.utc_host + 3600 * 1000000
     <= utcnow World.utc_host).
Proof.
  split; [vm_compute; reflexivity|]. split; [vm_compute; reflexivity|].
  vm_compute. intros [_ H]. apply H. reflexivity.
Qed.

(** [time.mktime] reads the feed's UTC time as local time: five hours
    west of UTC the entry that is 26 hours old passes the test. *)
Remark fetch_rss_entries_reads_local_time :
  fst (fetch_rss_entries World.western_host World.feed_url World.start)
  = Ok [World.stale_entry; World.boundary_entry; World.future_entry].
Proof. vm_compute. reflexivity. Qed.

(** ** HTTP Request Helper *)

(** Closes a goal that equates two runs up to the bracketing of the
    trace. *)
Ltac same_run := cbn; rewrite <- ?app_assoc; reflexivity.

(** Closes a goal [extends st st' tr] once [st'] is explicit. *)
Ltac trace_ext :=
  unfold extends; cbn [trace llm_state at_synthesis]; rewrite <- ?app_assoc; reflexivity.

Lemma make_request_run (w : env) (url method : str) (kw : kwargs) (st : state) :
  make_request w url method kw st
  = (Ok (fst (make_request_result w url method kw st)),
     {| trace := trace st ++ snd (make_request_result w url method kw st);
        draws := draws_after kw st |}).
Proof.
  unfold make_request, make_request_result, supported_method, issued_request,
    request_headers, draws_after, given_headers.
  set (h0 := match kw_headers kw with Some h => h | None => [] end).
  unfold bind at 1.
  destruct (dict_mem (lit "User-Agent") h0) eqn:Hua.
  - unfold ret at 1. unfold try_except.
    destruct (str_eqb (upper method) (lit "GET")).
    + unfold bind at 1, requests_call at 1.
      destruct (http_server w (trace st) _) as [r|e] eqn:Hout; cbn [fst snd].
      * unfold bind, raise_for_status. destruct (response_ok r); same_run.
      * same_run.
    + destruct (str_eqb (upper method) (lit "POST")).
      * unfold bind at 1, requests_call at 1.
        destruct (http_server w (trace st) _) as [r|e] eqn:Hout; cbn [fst snd].
        -- unfold bind, raise_for_status. destruct (response_ok r); same_run.
        -- same_run.
      * reflexivity.
  - unfold bind at 1, get_random_user_agent, random_choice, ret at 1.
    cbn [trace draws]. unfold try_except, drawn_user_agent.
    destruct (str_eqb (upper method) (lit "GET")).
    + unfold bind at 1, requests_call at 1. cbn [trace draws].
      destruct (http_server w (trace st) _) as [r|e] eqn:Hout; cbn [fst snd].
      * unfold bind, raise_for_status. destruct (response_ok r); same_run.
      * same_run.
    + destruct (str_eqb (upper method) (lit "POST")).
      * unfold bind at 1, requests_call at 1. cbn [trace draws].
        destruct (http_server w (trace st) _) as [r|e] eqn:Hout; cbn [fst snd].
        -- unfold bind, raise_for_status. destruct (response_ok r); same_run.
        -- same_run.
      * reflexivity.
Qed.

(** What [make_request] hands back is a response the server gave and
    that [raise_for_status] let pass. *)
Lemma make_request_result_some (w : env) url method kw st r :
  fst (make_request_result w url method kw st) = Some r -> response_ok r = true.
Proof.
  unfold make_request_result.
  destruct (supported_method method); [|discriminate].
  destruct (http_server w _ _) as [r'|e]; [|discriminate].
  destruct (response_ok r') eqn:Hok; [|discriminate].
  cbn. congruence.
Qed.

(** C5 (as amended): [make_request] never raises.  For a method other
    than GET or POST (compared in upper case) it returns [None] after
    logging an error, without any network call.  Otherwise it issues
    exactly one request with a 120-second time-out and returns the
    response unless the call failed in transport or the status is 4xx or
    5xx, in which case it logs the cause as an error and returns [None];
    a response with any other status, 2xx or not, is returned. *)
Theorem C5_make_request_sentinel (w : env) (url method : str) (kw : kwargs) (st : state) :
  exists res st' tr,
    make_request w url method kw st = (Ok res, st') /\ extends st st' tr /\
    match supported_method method with
    | None =>
        res = None /\ tr = [unsupported_method method] /\ no_network_call tr = true
    | Some m =>
        exists req rest,
          tr = Http req (http_server w (trace st) req) :: rest /\
          req_method req = m /\ req_url req = url /\ req_timeout req = 120 /\
          no_network_call rest = true /\
          match http_server w (trace st) req with
          | Responded r =>
              if (400 <=? status_code r) && (status_code r <? 600)
              then res = None /\ rest = [request_failed url HTTPError]
              else res = Some r /\ rest = []
          | Failed e => res = None /\ rest = [request_failed url (RequestError e)]
          end
    end.
Proof.
  rewrite make_request_run.
  do 3 eexists. split; [reflexivity|]. split; [reflexivity|].
  unfold make_request_result.
  destruct (supported_method method) as [m|]; cbn [fst snd].
  - exists (issued_request w url m kw st).
    destruct (http_server w (trace st) _) as [r|e] eqn:Hout.
    + unfold response_ok.
      destruct ((400 <=? status_code r) && (status_code r <? 600)); cbn [negb fst snd];
        eexists; repeat split; reflexivity.
    + eexists; repeat split; reflexivity.
  - repeat split; reflexivity.
Qed.

(** C5 as stated fails: a response with status 304 is not a success
    status, and [make_request] returns it. *)
Lemma C5_status_304_is_returned :
  fst (make_request World.caching_host World.page_url (lit "GET") no_kwargs World.start)
  = Ok (Some World.not_modified) /\
  ~ (200 <= status_code World.not_modified < 300).
Proof.
  split; [vm_compute; reflexivity|]. cbn. lia.
Qed.

(** ** Delivery Layer: sending text *)

Lemma deliveries_app w tr1 tr2 :
  deliveries w (tr1 ++ tr2) = deliveries w tr1 ++ deliveries w tr2.
Proof. apply flat_map_app. Qed.

Lemma attempts_app w tr1 tr2 :
  attempts w (tr1 ++ tr2) = attempts w tr1 ++ attempts w tr2.
Proof. apply flat_map_app. Qed.

Lemma deliveries_attempts w tr : deliveries w tr = map fst (attempts w tr).
Proof.
  induction tr as [|ev tr IH]; [reflexivity|].
  unfold deliveries, attempts in *. cbn [flat_map]. rewrite map_app, IH.
  destruct (delivery_of w ev); reflexivity.
Qed.

Lemma steps_app w tr1 tr2 : steps w (tr1 ++ tr2) = steps w tr1 ++ steps w tr2.
Proof. apply flat_map_app. Qed.

Lemma steps_log w lvl template args : steps w [Log lvl template args] = [].
Proof. reflexivity. Qed.

Lemma attempts_log w lvl template args : attempts w [Log lvl template args] = [].
Proof. reflexivity. Qed.

Lemma nonempty_cons {A} (l : list A) : l <> [] -> exists x r, l = x :: r.
Proof. destruct l as [|x r]; [congruence|]. intros _. now exists x, r. Qed.

(** A run of [send_telegram_message] with the chat configured: one
    request, whose answer decides the result. *)
Lemma send_telegram_message_run (w : env) (text : str) (st : state) :
  chat_configured w ->
  exists st' logs,
    send_telegram_message w text st
    = (text_send_result w (message_outcome w text st), st') /\
    extends st st'
      ([sending_text; Http (message_request w text st) (message_outcome w text st)] ++ logs) /\
    steps w logs = [] /\ attempts w logs = [].
Proof.
  intros [Hb Hc].
  unfold send_telegram_message.
  destruct (BOT_TOKEN w) as [|b bs] eqn:Eb; [congruence|].
  destruct (CHAT_ID w) as [|c cs] eqn:Ec; [congruence|].
  rewrite <- Ec. clear Hb Hc.
  unfold bind at 1, logging at 1, emit at 1.
  unfold bind at 1. rewrite make_request_run.
  unfold make_request_result.
  change (supported_method (lit "POST")) with (Some POST). cbv iota beta.
  cbn [trace draws].
  match goal with |- context [issued_request w ?u POST ?k ?s] =>
    change (issued_request w u POST k s) with (message_request w text st);
    set (d := draws_after k s)
  end.
  match goal with |- context [http_server w ?h (message_request w text st)] =>
    change (http_server w h (message_request w text st)) with (message_outcome w text st)
  end.
  change (Log INFO (lit "Sending text message to Telegram...") []) with sending_text.
  unfold text_send_result.
  destruct (message_outcome w text st) as [r|e] eqn:Hout.
  - destruct (response_ok r) eqn:Hok; cbn [fst snd].
    + unfold bind at 1. cbn [truthy_response]. rewrite Hok.
      unfold bind at 1, response_json, read_ok.
      destruct (json_loads w (content r)) as [j|].
      * unfold ret at 1. unfold bind at 1, lift_result.
        destruct (py_get j (lit "ok")) as [v|e].
        -- unfold ret at 1. destruct (truthy v);
             do 2 eexists; (split; [reflexivity|]);
             (split; [trace_ext|]);
             split; reflexivity.
        -- exists {| trace := (trace st ++ [sending_text]) ++ [Http (message_request w text st) (Responded r)];
                     draws := d |}, [].
           split; [reflexivity|]. split; [|split; reflexivity].
           trace_ext.
      * exists {| trace := (trace st ++ [sending_text]) ++ [Http (message_request w text st) (Responded r)];
                  draws := d |}, [].
        split; [reflexivity|]. split; [|split; reflexivity].
        trace_ext.
    + unfold bind at 1. cbn [truthy_response]. unfold ret at 1.
      do 2 eexists. split; [reflexivity|].
      split; [trace_ext|].
      split; reflexivity.
  - cbn [fst snd]. unfold bind at 1. cbn [truthy_response]. unfold ret at 1.
    do 2 eexists. split; [reflexivity|].
    split; [trace_ext|].
    split; reflexivity.
Qed.

Lemma text_send_result_in_json (w : env) (out : http_outcome) :
  (forall r, out = Responded r -> response_ok r = true ->
             exists m, json_loads w (content r) = Some (JObj m)) ->
  text_send_result w out = Ok (acknowledged w out).
Proof.
  intros H. unfold text_send_result, acknowledged, read_ok.
  destruct out as [r|e]; [|reflexivity].
  destruct (response_ok r) eqn:Hok; [|reflexivity].
  destruct (H r eq_refl Hok) as [m ->]. cbn [py_get andb].
  destruct (dict_get (lit "ok") m); reflexivity.
Qed.

Lemma delivery_of_message (w : env) (text : str) (st : state) (out : http_outcome) :
  delivery_of w (Http (message_request w text st) out) = Some (TextMessage (CHAT_ID w) text).
Proof.
  unfold delivery_of, message_request, issued_request. cbn [req_method req_body req_url].
  cbn [kw_body message_kwargs kw_data]. rewrite str_eqb_refl. reflexivity.
Qed.

(** A send with the chat configured shows as exactly one message. *)
Lemma send_telegram_message_steps (w : env) (text : str) (st : state) :
  chat_configured w ->
  exists st' tr,
    send_telegram_message w text st
    = (text_send_result w (message_outcome w text st), st') /\
    extends st st' tr /\
    steps w tr = [Send (TextMessage (CHAT_ID w) text)] /\
    attempts w tr
    = [(TextMessage (CHAT_ID w) text, acknowledged w (message_outcome w text st))].
Proof.
  intros Hcfg.
  destruct (send_telegram_message_run w text st Hcfg) as (st' & logs & Hrun & Hext & Hs & Hd).
  exists st'. eexists. split; [exact Hrun|]. split; [exact Hext|].
  split.
  - rewrite steps_app, Hs, app_nil_r. unfold steps. cbn [flat_map sending_text].
    rewrite delivery_of_message. reflexivity.
  - rewrite attempts_app, Hd, app_nil_r. unfold attempts. cbn [flat_map sending_text].
    rewrite delivery_of_message. reflexivity.
Qed.

(** C8 fails on the code: the provider answers 200 with a body that is
    not JSON, and [send_telegram_message] raises instead of returning
    [False]. *)
Lemma C8_non_json_reply_raises :
  fst (send_telegram_message World.proxy_host (lit "hello") World.start)
  = Raise JSONDecodeError /\
  message_outcome World.proxy_host (lit "hello") World.start = Responded World.html_page /\
  response_ok World.html_page = true /\
  json_loads World.proxy_host (content World.html_page) = None.
Proof. repeat split; vm_compute; reflexivity. Qed.

(** Where the provider's answers are JSON objects, the send reports
    exactly the acknowledgment. *)
Lemma send_telegram_message_acknowledged (w : env) (text : str) (st : state) :
  chat_configured w -> replies_in_json w ->
  fst (send_telegram_message w text st) = Ok (acknowledged w (message_outcome w text st)).
Proof.
  intros Hcfg Hjson.
  destruct (send_telegram_message_run w text st Hcfg) as (st' & logs & Hrun & _).
  rewrite Hrun. cbn [fst]. apply text_send_result_in_json.
  intros r Hr Hok. exact (Hjson _ (message_request w text st) _ eq_refl Hr Hok).
Qed.

(** ** The text path of the orchestrator *)

Lemma len_le_max (narrative : str) :
  len narrative <= 4000 -> (Z.of_nat max_len <? len narrative) = false.
Proof. intros H. apply Z.ltb_ge. change (Z.of_nat max_len) with 4000. exact H. Qed.

Lemma len_gt_max (narrative : str) :
  4000 < len narrative -> (Z.of_nat max_len <? len narrative) = true.
Proof. intros H. apply Z.ltb_lt. change (Z.of_nat max_len) with 4000. exact H. Qed.

(** C10: a narrative of at most 4000 characters that goes down the text
    path is sent as exactly one message, whose text is the narrative
    itself, without any part prefix and without a pause. *)
Theorem C10_short_narrative_single_message (w : env) (narrative : str) (st : state) :
  chat_configured w ->
  len narrative <= 4000 ->
  exists res st' tr,
    main_send_text w narrative st = (res, st') /\ extends st st' tr /\
    steps w tr = [Send (TextMessage (CHAT_ID w) narrative)].
Proof.
  intros Hcfg Hlen. unfold main_send_text. rewrite (len_le_max _ Hlen).
  unfold bind at 1, logging at 1, emit at 1.
  unfold bind at 1. unfold bind at 1.
  match goal with |- context [send_telegram_message w narrative ?s] =>
    destruct (send_telegram_message_steps w narrative s Hcfg) as (st1 & tr & Hrun & Hext & Hs & _)
  end.
  rewrite Hrun.
  destruct (text_send_result w _) as [b|e].
  - unfold ret at 1. unfold logging, emit.
    do 3 eexists. split; [reflexivity|]. split.
    + unfold extends in *. cbn [trace] in *. rewrite Hext, <- !app_assoc. reflexivity.
    + rewrite !steps_app, Hs. reflexivity.
  - do 3 eexists. split; [reflexivity|]. split.
    + unfold extends in *. cbn [trace] in *. rewrite Hext, <- !app_assoc. reflexivity.
    + rewrite !steps_app, Hs. reflexivity.
Qed.

Lemma C10_short_narrative_single_message_witness :
  chat_configured World.friendly_host /\
  len (lit "Summary X") <= 4000 /\
  exists res st' tr,
    main_send_text World.friendly_host (lit "Summary X") World.start = (res, st') /\
    extends World.start st' tr /\
    steps World.friendly_host tr
    = [Send (TextMessage (CHAT_ID World.friendly_host) (lit "Summary X"))].
Proof.
  assert (Hcfg : chat_configured World.friendly_host) by (split; discriminate).
  assert (Hlen : len (lit "Summary X") <= 4000) by (vm_compute; discriminate).
  split; [exact Hcfg|]. split; [exact Hlen|].
  exact (C10_short_narrative_single_message World.friendly_host (lit "Summary X") World.start Hcfg Hlen).
Defined.

Lemma slice_window {A} (n i : nat) (s : list A) :
  slice i (i + n) s = firstn n (skipn i s).
Proof. unfold slice. now replace (i + n - i)%nat with n by lia. Qed.

(** Chunking: generic facts, for any positive chunk size [n]. *)
Section Chunking.

Context {A : Type}.
Variable n : nat.
Hypothesis n_pos : (0 < n)%nat.

Lemma concat_windows (m : nat) (s : list A) :
  (length s <= m * n)%nat ->
  concat (map (fun k => firstn n (skipn (k * n) s)) (seq 0 m)) = s.
Proof.
  revert s. induction m as [|m IH]; intros s Hlen.
  - destruct s; [reflexivity|]. simpl in Hlen. lia.
  - rewrite <- cons_seq, <- seq_shift, map_cons, map_map. cbn [concat].
    rewrite Nat.mul_0_l. cbn [skipn].
    rewrite (map_ext _ (fun k => firstn n (skipn (k * n) (skipn n s)))).
    + rewrite IH; [apply firstn_skipn|]. rewrite length_skipn. lia.
    + intros k. rewrite skipn_skipn. f_equal. f_equal. lia.
Qed.

Lemma windows_cover (s : list A) :
  (length s <= (length s + n - 1) / n * n)%nat.
Proof.
  pose proof (Nat.div_mod_eq (length s + n - 1) n) as E.
  pose proof (Nat.mod_upper_bound (length s + n - 1) n ltac:(lia)) as B.
  lia.
Qed.

Lemma combine_seq_map {B} (f : nat -> B) (l : list nat) :
  combine l (map f l) = map (fun k => (k, f k)) l.
Proof. induction l as [|x l IH]; [reflexivity|]. cbn. now rewrite IH. Qed.

End Chunking.

Lemma chunks_windows (narrative : str) :
  chunks narrative
  = map (fun k => firstn max_len (skipn (k * max_len) narrative))
        (seq 0 ((length narrative + max_len - 1) / max_len)).
Proof.
  unfold chunks, range_step. rewrite map_map. apply map_ext.
  intros k. apply slice_window.
Qed.

Lemma max_len_pos : (0 < max_len)%nat.
Proof. unfold max_len. apply Nat.ltb_lt. vm_compute. reflexivity. Qed.

Lemma chunks_concat (narrative : str) : concat (chunks narrative) = narrative.
Proof.
  rewrite chunks_windows. apply (concat_windows max_len); [exact max_len_pos|].
  apply windows_cover. exact max_len_pos.
Qed.

Lemma chunks_bounded (narrative : str) :
  Forall (fun c => len c <= 4000) (chunks narrative).
Proof.
  rewrite chunks_windows. apply Forall_forall. intros c Hin.
  apply in_map_iff in Hin as (k & <- & _).
  unfold len. rewrite length_firstn.
  change 4000 with (Z.of_nat max_len). lia.
Qed.

Lemma chunks_count (narrative : str) :
  len (chunks narrative) = (len narrative + 3999) / 4000.
Proof.
  unfold len. rewrite chunks_windows, length_map, length_seq.
  rewrite Nat2Z.inj_div. f_equal.
  pose proof max_len_pos. rewrite Nat2Z.inj_sub by lia. rewrite Nat2Z.inj_add.
  change (Z.of_nat max_len) with 4000. lia.
Qed.

Lemma part_messages_numbered (narrative : str) :
  map (part_message narrative) (range_step (length narrative) max_len)
  = map (fun kc => numbered (fst kc) (snd kc))
        (combine (seq 0 (length (chunks narrative))) (chunks narrative)).
Proof.
  rewrite chunks_windows at 1. rewrite length_map, length_seq.
  rewrite chunks_windows. rewrite combine_seq_map, map_map.
  unfold range_step. rewrite map_map. apply map_ext. intros k.
  cbn [fst snd]. unfold part_message, numbered.
  rewrite slice_window. rewrite Nat.div_mul; [reflexivity|].
  pose proof max_len_pos. lia.
Qed.

(** The loop of the text path: one message and one pause per offset. *)
Lemma send_parts_steps (w : env) (narrative : str) (l : list nat) (st : state) :
  chat_configured w -> replies_in_json w ->
  exists st' tr,
    for_each l (fun i _ => send_telegram_message w (part_message narrative i) ;; time_sleep 1)
             tt st = (Ok tt, st') /\
    extends st st' tr /\
    steps w tr
    = flat_map (fun m => [Send (TextMessage (CHAT_ID w) m); Wait 1])
               (map (part_message narrative) l).
Proof.
  intros Hcfg Hjson. revert st. induction l as [|i l IH]; intros st.
  - exists st, []. split; [reflexivity|]. split; [apply extends_refl|reflexivity].
  - cbn [for_each]. unfold bind at 1. unfold bind at 1.
    destruct (send_telegram_message_steps w (part_message narrative i) st Hcfg)
      as (st1 & tr1 & Hrun & Hext1 & Hs1 & _).
    rewrite Hrun. rewrite text_send_result_in_json
      by (intros r Hr Hok;
          exact (Hjson _ (message_request w (part_message narrative i) st) _ eq_refl Hr Hok)).
    unfold time_sleep at 1, emit at 1.
    match goal with |- context [for_each l _ tt ?s] =>
      destruct (IH s) as (st2 & tr2 & Hloop & Hext2 & Hs2)
    end.
    rewrite Hloop. exists st2, (tr1 ++ [Sleep 1] ++ tr2).
    split; [reflexivity|]. split.
    + unfold extends in *. cbn [trace] in Hext2. rewrite Hext2, Hext1.
      now rewrite <- !app_assoc.
    + rewrite !steps_app, Hs1, Hs2. reflexivity.
Qed.

(** Where no send raises, the text path does what is meant for a long
    narrative.  A narrative of more than 4000 characters is cut at the
    offsets 0, 4000, 8000, ...; chunk [k] (counted from 1, in text order)
    is sent as its own message, prefixed by [[Part k]] and a newline, and
    each send is followed by a one-second pause.  Every chunk has at most
    4000 characters, the chunks concatenate to the narrative, and there
    are [ceil(len / 4000)] of them: three for 9000 characters.  The
    messaging provider is assumed to answer in JSON objects, and the
    narrative and the chat credentials to be encodable. *)
Lemma long_narrative_numbered_chunks (w : env) (narrative : str) (st : state) :
  chat_configured w ->
  replies_in_json w ->
  encodable_chat w = true ->
  encodable narrative = true ->
  4000 < len narrative ->
  exists st' tr,
    main_send_text w narrative st = (Ok tt, st') /\ extends st st' tr /\
    steps w tr
    = flat_map (fun m => [Send (TextMessage (CHAT_ID w) m); Wait 1])
        (map (fun kc => numbered (fst kc) (snd kc))
             (combine (seq 0 (length (chunks narrative))) (chunks narrative))) /\
    Forall (fun c => len c <= 4000) (chunks narrative) /\
    concat (chunks narrative) = narrative /\
    len (chunks narrative) = (len narrative + 3999) / 4000 /\
    (len narrative = 9000 -> len (chunks narrative) = 3).
Proof.
  intros Hcfg Hjson _ _ Hlen. unfold main_send_text. rewrite (len_gt_max _ Hlen).
  unfold bind at 1, logging at 1, emit at 1. unfold bind at 1.
  match goal with |- context [for_each _ _ tt ?s] =>
    destruct (send_parts_steps w narrative (range_step (length narrative) max_len) s Hcfg Hjson)
      as (st1 & tr & Hloop & Hext & Hs)
  end.
  rewrite Hloop. unfold logging, emit.
  do 2 eexists. split; [reflexivity|]. split; [|split; [|split; [|split; [|split]]]].
  - unfold extends in *. cbn [trace] in *. rewrite Hext, <- !app_assoc. reflexivity.
  - rewrite !steps_app, Hs, part_messages_numbered, !steps_log.
    now rewrite app_nil_r.
  - apply chunks_bounded.
  - apply chunks_concat.
  - apply chunks_count.
  - intros H. rewrite chunks_count, H. reflexivity.
Qed.

Lemma long_narrative_on_friendly_host :
  chat_configured World.friendly_host /\
  replies_in_json World.friendly_host /\
  encodable World.long_narrative = true /\
  4000 < len World.long_narrative /\
  exists st' tr,
    main_send_text World.friendly_host World.long_narrative World.start = (Ok tt, st') /\
    extends World.start st' tr /\
    steps World.friendly_host tr
    = flat_map (fun m => [Send (TextMessage (CHAT_ID World.friendly_host) m); Wait 1])
        (map (fun kc => numbered (fst kc) (snd kc))
             (combine (seq 0 (length (chunks World.long_narrative)))
                      (chunks World.long_narrative))) /\
    Forall (fun c => len c <= 4000) (chunks World.long_narrative) /\
    concat (chunks World.long_narrative) = World.long_narrative /\
    len (chunks World.long_narrative) = (len World.long_narrative + 3999) / 4000 /\
    (len World.long_narrative = 9000 -> len (chunks World.long_narrative) = 3).
Proof.
  assert (Hcfg : chat_configured World.friendly_host) by (split; discriminate).
  assert (Hjson : replies_in_json World.friendly_host)
    by (intros h req r _ _ _; eexists; reflexivity).
  assert (Hlen : 4000 < len World.long_narrative) by (vm_compute; reflexivity).
  assert (Henc : encodable World.long_narrative = true) by (vm_compute; reflexivity).
  split; [exact Hcfg|]. split; [exact Hjson|]. split; [exact Henc|]. split; [exact Hlen|].
  exact (long_narrative_numbered_chunks World.friendly_host World.long_narrative
           World.start Hcfg Hjson eq_refl Henc Hlen).
Qed.

(** The three messages of the 9000-character narrative. *)
Example long_narrative_parts :
  map (fun m => firstn 9 m) (text_messages World.long_narrative)
  = [lit "[Part 1]" ++ [NL]; lit "[Part 2]" ++ [NL]; lit "[Part 3]" ++ [NL]] /\
  map (fun m => len m - 9) (text_messages World.long_narrative) = [4000; 4000; 1000].
Proof. split; vm_compute; reflexivity. Qed.

(** C3: the loop of the text path stops at a send that raises.  With
    the 9000-character narrative, whose three messages [long_narrative_parts]
    lists, and a provider that answers [sendMessage] with status 200 and
    a page that is not JSON, the first send raises [JSONDecodeError] out
    of [send_telegram_message]; the text path ends with that exception
    after [[Part 1]] alone, without a pause, and parts 2 and 3 are never
    sent. *)
Theorem C3_failed_send_ends_the_parts :
  len World.long_narrative = 9000 /\
  length (text_messages World.long_narrative) = 3%nat /\
  fst (main_send_text World.proxy_host World.long_narrative World.start)
  = Raise JSONDecodeError /\
  steps World.proxy_host
    (trace (snd (main_send_text World.proxy_host World.long_narrative World.start)))
  = [Send (TextMessage (lit "42") (part_message World.long_narrative 0))].
Proof. repeat split; vm_compute; reflexivity. Qed.

(** ** Speech synthesis and audio upload *)

Lemma delivery_of_plain (w : env) (req : request) (out : http_outcome) :
  plain_body (req_body req) -> delivery_of w (Http req out) = None.
Proof.
  unfold delivery_of. destruct (req_method req), (req_body req); cbn; tauto.
Qed.

(** A call of [make_request] that carries neither a form nor a file
    posts nothing to the chat. *)
Lemma make_request_quiet (w : env) (url method : str) (kw : kwargs) (st : state) :
  plain_body (kw_body kw) ->
  steps w (snd (make_request_result w url method kw st)) = [] /\
  attempts w (snd (make_request_result w url method kw st)) = [].
Proof.
  intros Hplain. unfold make_request_result.
  destruct (supported_method method) as [m|]; [|split; reflexivity].
  assert (Hd : forall out, delivery_of w (Http (issued_request w url m kw st) out) = None)
    by (intros out; apply delivery_of_plain; exact Hplain).
  destruct (http_server w (trace st) _) as [r|e];
    [destruct (response_ok r)|]; unfold steps, attempts; cbn [snd flat_map];
    rewrite Hd; split; reflexivity.
Qed.

Lemma text_to_speech_quiet (w : env) (text : str) (st : state) :
  exists res st' tr,
    text_to_speech_elevenlabs w text st = (Ok res, st') /\ extends st st' tr /\
    steps w tr = [] /\ attempts w tr = [].
Proof.
  unfold text_to_speech_elevenlabs.
  destruct (ELEVENLABS_API_KEY w) as [|k ks] eqn:Ek;
    [do 3 eexists; split; [reflexivity|]; split; [trace_ext|split; reflexivity]|].
  destruct (ELEVENLABS_VOICE_ID w) as [|v vs] eqn:Ev;
    [do 3 eexists; split; [reflexivity|]; split; [trace_ext|split; reflexivity]|].
  destruct (strip text) as [|c cs];
    [do 3 eexists; split; [reflexivity|]; split; [trace_ext|split; reflexivity]|].
  unfold bind at 1, logging at 1, emit at 1. unfold bind at 1.
  rewrite make_request_run.
  match goal with |- context [make_request_result w ?u ?m ?k ?s] =>
    pose proof (make_request_quiet w u m k s I) as [Hs Hd];
    destruct (make_request_result w u m k s) as [resp tr0]
  end.
  cbn [fst snd] in *.
  assert (Hlog : forall lvl t a (s : state),
            extends st {| trace := ((trace st ++ [Log INFO (lit "Sending text to ElevenLabs for speech synthesis...") []]) ++ tr0) ++ [Log lvl t a];
                          draws := draws s |}
                    ([Log INFO (lit "Sending text to ElevenLabs for speech synthesis...") []] ++ tr0 ++ [Log lvl t a]))
    by (intros; trace_ext).
  destruct resp as [r|].
  - destruct (response_ok r).
    + destruct (status_code r =? 200); [destruct (content r) as [|b bs]|];
        do 3 eexists; (split; [reflexivity|]); (split; [apply Hlog|]);
        rewrite !steps_app, !attempts_app, Hs, Hd; split; reflexivity.
    + do 3 eexists; (split; [reflexivity|]); (split; [apply Hlog|]);
        rewrite !steps_app, !attempts_app, Hs, Hd; split; reflexivity.
  - do 3 eexists; (split; [reflexivity|]); (split; [apply Hlog|]);
      rewrite !steps_app, !attempts_app, Hs, Hd; split; reflexivity.
Qed.

Lemma delivery_of_audio (w : env) (audio : bytes) (caption : str) (out : http_outcome) :
  delivery_of w (Http (audio_request w audio caption) out)
  = Some (AudioMessage (CHAT_ID w) (slice_to 1024 caption) audio).
Proof.
  unfold delivery_of, audio_request. cbn [req_method req_body req_url].
  rewrite str_eqb_refl. reflexivity.
Qed.

(** A run of [send_telegram_audio] with the chat configured: one upload,
    whose answer decides the result. *)
Lemma send_telegram_audio_run (w : env) (audio : bytes) (caption : str) (st : state) :
  chat_configured w ->
  exists st' logs,
    send_telegram_audio w audio caption st
    = (audio_send_result w (audio_outcome w audio caption st), st') /\
    extends st st'
      ([sending_audio; Http (audio_request w audio caption) (audio_outcome w audio caption st)]
       ++ logs) /\
    steps w logs = [] /\ attempts w logs = [].
Proof.
  intros [Hb Hc]. unfold send_telegram_audio.
  destruct (BOT_TOKEN w) as [|b bs] eqn:Eb; [congruence|].
  destruct (CHAT_ID w) as [|c cs] eqn:Ec; [congruence|].
  rewrite <- Ec. clear Hb Hc.
  unfold bind at 1, logging at 1, emit at 1.
  unfold try_except. unfold bind at 1, requests_call at 1. cbn [trace draws].
  change (Log INFO (lit "Sending audio to Telegram...") []) with sending_audio.
  match goal with |- context [http_server w ?h ?r] =>
    change r with (audio_request w audio caption);
    change (http_server w h (audio_request w audio caption))
      with (audio_outcome w audio caption st)
  end.
  unfold audio_send_result.
  destruct (audio_outcome w audio caption st) as [r|e] eqn:Hout.
  - unfold bind at 1, raise_for_status at 1.
    destruct (response_ok r) eqn:Hok.
    + unfold ret at 1. unfold bind at 1, response_json, read_ok.
      destruct (json_loads w (content r)) as [j|].
      * unfold ret at 1. unfold bind at 1, lift_result.
        destruct (py_get j (lit "ok")) as [v|e].
        -- destruct (truthy v); do 2 eexists; (split; [reflexivity|]);
             (split; [trace_ext|]); split; reflexivity.
        -- destruct (is_RequestException e); do 2 eexists; (split; [reflexivity|]);
             (split; [trace_ext|]); split; reflexivity.
      * do 2 eexists; (split; [reflexivity|]); (split; [trace_ext|]); split; reflexivity.
    + do 2 eexists; (split; [reflexivity|]); (split; [trace_ext|]); split; reflexivity.
  - do 2 eexists; (split; [reflexivity|]); (split; [trace_ext|]); split; reflexivity.
Qed.

Lemma audio_send_result_true (w : env) (out : http_outcome) :
  audio_send_result w out = Ok true <-> acknowledged w out = true.
Proof.
  unfold audio_send_result, acknowledged, read_ok.
  destruct out as [r|e]; [|split; discriminate].
  destruct (response_ok r); [|split; discriminate]. cbn [andb].
  destruct (json_loads w (content r)) as [j|]; [|split; discriminate].
  destruct j; cbn [py_get is_RequestException]; try (split; discriminate).
  destruct (dict_get (lit "ok") members) as [v|]; cbn [truthy].
  - split; congruence.
  - split; discriminate.
Qed.

Lemma send_telegram_audio_attempt (w : env) (audio : bytes) (caption : str) (st : state) :
  chat_configured w ->
  exists st' tr,
    send_telegram_audio w audio caption st
    = (audio_send_result w (audio_outcome w audio caption st), st') /\
    extends st st' tr /\
    attempts w tr
    = [(AudioMessage (CHAT_ID w) (slice_to 1024 caption) audio,
        acknowledged w (audio_outcome w audio caption st))].
Proof.
  intros Hcfg.
  destruct (send_telegram_audio_run w audio caption st Hcfg)
    as (st' & logs & Hrun & Hext & _ & Ha).
  exists st'. eexists. split; [exact Hrun|]. split; [exact Hext|].
  rewrite attempts_app, Ha, app_nil_r. unfold attempts. cbn [flat_map sending_audio].
  rewrite delivery_of_audio. reflexivity.
Qed.

(** ** The text path in general *)

(** The loop over the offsets sends the part messages in order and stops
    only where a send raises. *)
Lemma send_parts_attempts (w : env) (narrative : str) (l : list nat) (st : state) :
  chat_configured w ->
  exists res st' tr sent rest,
    for_each l (fun i _ => send_telegram_message w (part_message narrative i) ;; time_sleep 1)
             tt st = (res, st') /\
    extends st st' tr /\
    map fst (attempts w tr) = map (TextMessage (CHAT_ID w)) sent /\
    map (part_message narrative) l = sent ++ rest /\
    (res = Ok tt -> rest = []).
Proof.
  intros Hcfg. revert st. induction l as [|i l IH]; intros st.
  - exists (Ok tt), st, [], [], [].
    split; [reflexivity|]. split; [apply extends_refl|]. repeat split; reflexivity.
  - cbn [for_each]. unfold bind at 1. unfold bind at 1.
    destruct (send_telegram_message_steps w (part_message narrative i) st Hcfg)
      as (st1 & tr1 & Hrun & Hext1 & _ & Ha1).
    rewrite Hrun. destruct (text_send_result w _) as [b|e].
    + unfold time_sleep at 1, emit at 1.
      match goal with |- context [for_each l _ tt ?s] =>
        destruct (IH s) as (res & st2 & tr2 & sent & rest & Hloop & Hext2 & Ha2 & Hparts & Hdone)
      end.
      rewrite Hloop.
      exists res, st2, (tr1 ++ [Sleep 1] ++ tr2), (part_message narrative i :: sent), rest.
      split; [reflexivity|]. split; [|split; [|split]].
      * unfold extends in *. cbn [trace] in Hext2. rewrite Hext2, Hext1.
        now rewrite <- !app_assoc.
      * rewrite !attempts_app, !map_app, Ha1, Ha2. reflexivity.
      * cbn [map app]. now rewrite Hparts.
      * exact Hdone.
    + exists (Raise e), st1, tr1, [part_message narrative i], (map (part_message narrative) l).
      split; [reflexivity|]. split; [exact Hext1|]. split; [|split].
      * rewrite Ha1. reflexivity.
      * reflexivity.
      * discriminate.
Qed.

Lemma main_send_text_attempts (w : env) (narrative : str) (st : state) :
  chat_configured w ->
  exists res st' tr sent rest,
    main_send_text w narrative st = (res, st') /\
    extends st st' tr /\
    map fst (attempts w tr) = map (TextMessage (CHAT_ID w)) sent /\
    text_messages narrative = sent ++ rest /\
    (res = Ok tt -> rest = []).
Proof.
  intros Hcfg. unfold main_send_text, text_messages.
  unfold bind at 1, logging at 1, emit at 1. unfold bind at 1.
  destruct (Z.of_nat max_len <? len narrative).
  - match goal with |- context [for_each _ _ tt ?s] =>
      destruct (send_parts_attempts w narrative (range_step (length narrative) max_len) s Hcfg)
        as (res & st1 & tr & sent & rest & Hloop & Hext & Ha & Hparts & Hdone)
    end.
    rewrite Hloop. destruct res as [[]|e].
    + unfold logging, emit. exists (Ok tt). eexists. eexists. exists sent, rest.
      split; [reflexivity|]. split; [|split; [|split]].
      * unfold extends in *. cbn [trace] in *. rewrite Hext, <- !app_assoc. reflexivity.
      * rewrite !attempts_app, !attempts_log, app_nil_r. exact Ha.
      * exact Hparts.
      * exact Hdone.
    + exists (Raise e). eexists. eexists. exists sent, rest.
      split; [reflexivity|]. split; [|split; [|split]].
      * unfold extends in *. cbn [trace] in *. rewrite Hext, <- !app_assoc. reflexivity.
      * rewrite !attempts_app, !attempts_log. exact Ha.
      * exact Hparts.
      * discriminate.
  - unfold bind at 1.
    match goal with |- context [send_telegram_message w narrative ?s] =>
      destruct (send_telegram_message_steps w narrative s Hcfg)
        as (st1 & tr & Hrun & Hext & _ & Ha)
    end.
    rewrite Hrun. destruct (text_send_result w _) as [b|e].
    + unfold ret at 1. unfold logging, emit.
      exists (Ok tt). eexists. eexists. exists [narrative], [].
      split; [reflexivity|]. split; [|split; [|split]].
      * unfold extends in *. cbn [trace] in *. rewrite Hext, <- !app_assoc. reflexivity.
      * rewrite !attempts_app, !attempts_log, app_nil_r, Ha. reflexivity.
      * reflexivity.
      * reflexivity.
    + exists (Raise e). eexists. eexists. exists [narrative], [].
      split; [reflexivity|]. split; [|split; [|split]].
      * unfold extends in *. cbn [trace] in *. rewrite Hext, <- !app_assoc. reflexivity.
      * rewrite !attempts_app, !attempts_log, Ha. reflexivity.
      * reflexivity.
      * reflexivity.
Qed.

(** ** Synthesize and deliver *)

Lemma audio_delivered_single (w : env) (tr : list event) (d : delivery) (ack : bool) :
  attempts w tr = [(d, ack)] -> audio_delivered w tr = is_audio d && ack.
Proof.
  intros H. unfold audio_delivered. rewrite H. cbn. now rewrite orb_false_r.
Qed.

Lemma audio_delivered_none (w : env) (tr : list event) :
  attempts w tr = [] -> audio_delivered w tr = false.
Proof. intros H. unfold audio_delivered. now rewrite H. Qed.

(** The last stage of [main] as a whole: an audio stretch of the trace
    followed by a text stretch. *)
Lemma main_deliver_run (w : env) (narrative : str) (st : state) :
  chat_configured w ->
  exists res st' tr_audio tr_text sent rest,
    main_deliver w narrative st = (res, st') /\
    extends st st' (tr_audio ++ tr_text) /\
    attempts w tr_audio
    = match synthesized w narrative st with
      | Some data =>
          [(AudioMessage (CHAT_ID w) (slice_to 1024 (audio_caption narrative)) data,
            acknowledged w (upload_outcome w narrative st data))]
      | None => []
      end /\
    map fst (attempts w tr_text) = map (TextMessage (CHAT_ID w)) sent /\
    text_messages narrative = sent ++ rest /\
    (audio_delivered w tr_audio = true -> sent = [] /\ res = Ok tt) /\
    (audio_delivered w tr_audio = false -> res = Ok tt -> rest = []).
Proof.
  intros Hcfg. unfold main_deliver, synthesized, upload_outcome.
  unfold bind at 1, logging at 1, emit at 1.
  change {| trace := trace st ++ [Log INFO (lit "Narrative generated successfully.") []];
            draws := draws st |} with (at_synthesis st).
  destruct (text_to_speech_quiet w narrative (at_synthesis st))
    as (ad & st1 & tr0 & Htts & Hext0 & _ & Ha0).
  unfold bind at 1. rewrite Htts. cbn [fst snd].
  assert (Hfallback : forall (warn : event) (st2 : state) (tra : list event),
            attempts w [warn] = [] ->
            extends st st2 tra -> attempts w tra = [] ->
            exists res st' tr_audio tr_text sent rest,
              (match main_send_text w narrative
                       {| trace := trace st2 ++ [warn]; draws := draws st2 |} with
               | (Ok _, s) => logging INFO "News aggregation process finished." [] s
               | (Raise e, s) => (Raise e, s)
               end) = (res, st') /\
              extends st st' (tr_audio ++ tr_text) /\
              attempts w tr_audio = [] /\
              map fst (attempts w tr_text) = map (TextMessage (CHAT_ID w)) sent /\
              text_messages narrative = sent ++ rest /\
              (res = Ok tt -> rest = [])).
  { intros warn st2 tra Hwarn Hext2 Hatt.
    destruct (main_send_text_attempts w narrative
                {| trace := trace st2 ++ [warn]; draws := draws st2 |} Hcfg)
      as (res & st3 & trt & sent & rest & Hrun & Hext3 & Ha3 & Hmsgs & Hdone).
    rewrite Hrun. destruct res as [[]|e].
    - exists (Ok tt). eexists. exists (tra ++ [warn]).
      exists (trt ++ [Log INFO (lit "News aggregation process finished.") []]), sent, rest.
      split; [reflexivity|]. split; [|split; [|split; [|split]]].
      + unfold extends in *. cbn [trace] in *. rewrite Hext3, Hext2, <- !app_assoc. reflexivity.
      + rewrite attempts_app, Hatt, Hwarn. reflexivity.
      + rewrite attempts_app, attempts_log, app_nil_r. exact Ha3.
      + exact Hmsgs.
      + exact Hdone.
    - exists (Raise e), st3, (tra ++ [warn]), trt, sent, rest.
      split; [reflexivity|]. split; [|split; [|split; [|split]]].
      + unfold extends in *. cbn [trace] in *. rewrite Hext3, Hext2, <- !app_assoc. reflexivity.
      + rewrite attempts_app, Hatt, Hwarn. reflexivity.
      + exact Ha3.
      + exact Hmsgs.
      + discriminate. }
  assert (Hgen : attempts w ([narrative_generated] ++ tr0) = [])
    by (rewrite attempts_app, Ha0; reflexivity).
  assert (Hext1 : extends st st1 ([narrative_generated] ++ tr0)).
  { unfold extends in *. cbn [trace at_synthesis] in Hext0. rewrite Hext0.
    now rewrite <- app_assoc. }
  destruct ad as [[|b bs]|].
  - (* empty audio *)
    unfold bind at 1, logging at 1, emit at 1, ret at 1. unfold bind at 1.
    destruct (Hfallback
                (Log WARNING (lit "Failed to generate audio from ElevenLabs. Will send text version.") [])
                st1 _ eq_refl Hext1 Hgen)
      as (res & st' & tra & trt & sent & rest & Hrun & Hext & Ha & Hat & Hmsgs & Hdone).
    exists res, st', tra, trt, sent, rest.
    split; [exact Hrun|]. split; [exact Hext|]. split; [exact Ha|].
    split; [exact Hat|]. split; [exact Hmsgs|].
    rewrite (audio_delivered_none w tra Ha). split; [discriminate|]. intros _. exact Hdone.
  - (* audio produced *)
    unfold bind at 1. unfold bind at 1.
    destruct (send_telegram_audio_attempt w (b :: bs) (audio_caption narrative) st1 Hcfg)
      as (st2 & tra & Hsend & Hext2 & Hatt).
    rewrite Hsend.
    pose proof (audio_send_result_true w (audio_outcome w (b :: bs) (audio_caption narrative) st1))
      as Hack.
    destruct (audio_send_result w _) as [[|]|e].
    + (* acknowledged *)
      unfold bind at 1, logging at 1, emit at 1, ret at 1. unfold ret at 1.
      unfold bind at 1. unfold logging, emit.
      exists (Ok tt). eexists.
      exists (([narrative_generated] ++ tr0) ++ tra
              ++ [Log INFO (lit "Audio summary sent to Telegram.") []]).
      exists [Log INFO (lit "News aggregation process finished.") []], [], (text_messages narrative).
      split; [reflexivity|]. split; [|split; [|split; [|split; [|split]]]].
      * unfold extends in *. cbn [trace] in *. rewrite Hext2, Hext1, <- !app_assoc. reflexivity.
      * rewrite !attempts_app, Ha0, Hatt. reflexivity.
      * reflexivity.
      * reflexivity.
      * intros _. split; reflexivity.
      * intros Hno. exfalso.
        assert (Hyes : audio_delivered w
                  (([narrative_generated] ++ tr0) ++ tra
                   ++ [Log INFO (lit "Audio summary sent to Telegram.") []]) = true).
        { erewrite audio_delivered_single
            by (rewrite !attempts_app, Ha0, Hatt; reflexivity).
          cbn [is_audio andb]. now apply Hack. }
        congruence.
    + (* not acknowledged *)
      unfold bind at 1, logging at 1, emit at 1, ret at 1. unfold bind at 1.
      assert (Hnack : acknowledged w (audio_outcome w (b :: bs) (audio_caption narrative) st1)
                      = false).
      { apply not_true_is_false. intros E. apply Hack in E. discriminate. }
      destruct (main_send_text_attempts w narrative
                  {| trace := trace st2
                       ++ [Log WARNING (lit "Failed to send audio summary to Telegram. Will attempt to send text version.") []];
                     draws := draws st2 |} Hcfg)
        as (res & st3 & trt & sent & rest & Hrun & Hext3 & Ha3 & Hmsgs & Hdone).
      rewrite Hrun.
      set (tr_a := ([narrative_generated] ++ tr0) ++ tra
              ++ [Log WARNING (lit "Failed to send audio summary to Telegram. Will attempt to send text version.") []]).
      assert (Hatt_a : attempts w tr_a
                = [(AudioMessage (CHAT_ID w) (slice_to 1024 (audio_caption narrative)) (b :: bs),
                    acknowledged w (audio_outcome w (b :: bs) (audio_caption narrative) st1))])
        by (unfold tr_a; rewrite !attempts_app, Ha0, Hatt; reflexivity).
      assert (Hnone : audio_delivered w tr_a = false)
        by (rewrite (audio_delivered_single w tr_a _ _ Hatt_a), Hnack; apply andb_false_r).
      destruct res as [[]|e].
      * exists (Ok tt). eexists. exists tr_a.
        exists (trt ++ [Log INFO (lit "News aggregation process finished.") []]), sent, rest.
        split; [reflexivity|]. split; [|split; [|split; [|split; [|split]]]].
        -- unfold extends, tr_a in *. cbn [trace] in *.
           rewrite Hext3, Hext2, Hext1, <- !app_assoc. reflexivity.
        -- exact Hatt_a.
        -- rewrite attempts_app, attempts_log, app_nil_r. exact Ha3.
        -- exact Hmsgs.
        -- rewrite Hnone. discriminate.
        -- intros _. exact Hdone.
      * exists (Raise e), st3, tr_a, trt, sent, rest.
        split; [reflexivity|]. split; [|split; [|split; [|split; [|split]]]].
        -- unfold extends, tr_a in *. cbn [trace] in *.
           rewrite Hext3, Hext2, Hext1, <- !app_assoc. reflexivity.
        -- exact Hatt_a.
        -- exact Ha3.
        -- exact Hmsgs.
        -- rewrite Hnone. discriminate.
        -- discriminate.
    + (* the upload raised *)
      exists (Raise e), st2, (([narrative_generated] ++ tr0) ++ tra), [], [], (text_messages narrative).
      assert (Hatt_a : attempts w (([narrative_generated] ++ tr0) ++ tra)
                = [(AudioMessage (CHAT_ID w) (slice_to 1024 (audio_caption narrative)) (b :: bs),
                    acknowledged w (audio_outcome w (b :: bs) (audio_caption narrative) st1))])
        by (rewrite !attempts_app, Ha0, Hatt; reflexivity).
      split; [reflexivity|]. split; [|split; [|split; [|split; [|split]]]].
      * unfold extends in *. rewrite Hext2, Hext1, <- !app_assoc, app_nil_r. reflexivity.
      * exact Hatt_a.
      * reflexivity.
      * reflexivity.
      * rewrite (audio_delivered_single w _ _ _ Hatt_a). cbn [is_audio andb].
        intros E. apply Hack in E. discriminate.
      * discriminate.
  - (* no audio *)
    unfold bind at 1, logging at 1, emit at 1, ret at 1. unfold bind at 1.
    destruct (Hfallback
                (Log WARNING (lit "Failed to generate audio from ElevenLabs. Will send text version.") [])
                st1 _ eq_refl Hext1 Hgen)
      as (res & st' & tra & trt & sent & rest & Hrun & Hext & Ha & Hat & Hmsgs & Hdone).
    exists res, st', tra, trt, sent, rest.
    split; [exact Hrun|]. split; [exact Hext|]. split; [exact Ha|].
    split; [exact Hat|]. split; [exact Hmsgs|].
    rewrite (audio_delivered_none w tra Ha). split; [discriminate|]. intros _. exact Hdone.
Qed.

Lemma no_audio_among_texts (chat : str) (sent : list str) :
  filter is_audio (map (TextMessage chat) sent) = [].
Proof. induction sent as [|t sent IH]; [reflexivity|exact IH]. Qed.

Lemma audio_delivered_app (w : env) (tr1 tr2 : list event) :
  audio_delivered w (tr1 ++ tr2) = audio_delivered w tr1 || audio_delivered w tr2.
Proof. unfold audio_delivered. now rewrite attempts_app, existsb_app. Qed.

Lemma audio_delivered_texts (w : env) (tr : list event) (chat : str) (sent : list str) :
  map fst (attempts w tr) = map (TextMessage chat) sent -> audio_delivered w tr = false.
Proof.
  unfold audio_delivered. generalize (attempts w tr). intros l. revert sent.
  induction l as [|[d ack] l IH]; intros sent H; [reflexivity|].
  destruct sent as [|t sent]; [discriminate|]. cbn in H. injection H as -> H.
  cbn. exact (IH sent H).
Qed.

(** ** Where no send raises *)

Lemma nr_ret {A} (a : A) : never_raises (ret a).
Proof. intros st. exists a, st. reflexivity. Qed.

Lemma nr_emit (ev : event) : never_raises (emit ev).
Proof. intros st. do 2 eexists. reflexivity. Qed.

Lemma nr_bind {A B} (m : M A) (k : A -> M B) :
  never_raises m -> (forall a, never_raises (k a)) -> never_raises (bind m k).
Proof.
  intros Hm Hk st. destruct (Hm st) as (a & s1 & H1). unfold bind. rewrite H1. apply Hk.
Qed.

Lemma nr_for_each {A S} (l : list A) (body : A -> S -> M S) (acc : S) :
  (forall x s, never_raises (body x s)) -> never_raises (for_each l body acc).
Proof.
  intros Hbody. revert acc. induction l as [|x l IH]; intros acc; cbn [for_each].
  - apply nr_ret.
  - apply nr_bind; [apply Hbody|intros s; apply IH].
Qed.

Lemma audio_send_result_in_objects (w : env) (out : http_outcome) :
  (forall r, out = Responded r -> response_ok r = true ->
             exists m, json_loads w (content r) = Some (JObj m)) ->
  audio_send_result w out = Ok (acknowledged w out).
Proof.
  intros H. unfold audio_send_result, acknowledged, read_ok.
  destruct out as [r|e]; [|reflexivity].
  destruct (response_ok r) eqn:Hok; [|reflexivity].
  destruct (H r eq_refl Hok) as [m ->]. cbn [py_get andb].
  destruct (dict_get (lit "ok") m); reflexivity.
Qed.

Lemma nr_send_telegram_message (w : env) (text : str) :
  chat_configured w -> provider_replies_in_objects w ->
  never_raises (send_telegram_message w text).
Proof.
  intros Hcfg Hobj st.
  destruct (send_telegram_message_run w text st Hcfg) as (st' & logs & Hrun & _).
  rewrite Hrun, text_send_result_in_json; [do 2 eexists; reflexivity|].
  intros r Hr Hok. exact (Hobj _ (message_request w text st) _ (or_introl eq_refl) Hr Hok).
Qed.

Lemma nr_send_telegram_audio (w : env) (audio : bytes) (caption : str) :
  chat_configured w -> provider_replies_in_objects w ->
  never_raises (send_telegram_audio w audio caption).
Proof.
  intros Hcfg Hobj st.
  destruct (send_telegram_audio_run w audio caption st Hcfg) as (st' & logs & Hrun & _).
  rewrite Hrun, audio_send_result_in_objects; [do 2 eexists; reflexivity|].
  intros r Hr Hok. exact (Hobj _ (audio_request w audio caption) _ (or_intror eq_refl) Hr Hok).
Qed.

Lemma nr_text_to_speech (w : env) (text : str) : never_raises (text_to_speech_elevenlabs w text).
Proof.
  intros st. destruct (text_to_speech_quiet w text st) as (res & st' & tr & Hrun & _).
  exists res, st'. exact Hrun.
Qed.

Lemma nr_main_deliver (w : env) (narrative : str) :
  chat_configured w -> provider_replies_in_objects w ->
  never_raises (main_deliver w narrative).
Proof.
  intros Hcfg Hobj. unfold main_deliver, main_send_text, logging, time_sleep.
  repeat lazymatch goal with
    | |- never_raises (ret _) => apply nr_ret
    | |- never_raises (emit _) => apply nr_emit
    | |- never_raises (bind _ _) => apply nr_bind; [|intros ?]
    | |- never_raises (for_each _ _ _) => apply nr_for_each; intros ? ?
    | |- never_raises (text_to_speech_elevenlabs _ _) => apply nr_text_to_speech
    | |- never_raises (send_telegram_audio _ _ _) => apply nr_send_telegram_audio; assumption
    | |- never_raises (send_telegram_message _ _) => apply nr_send_telegram_message; assumption
    | |- never_raises (match ?x with _ => _ end) => destruct x
    end.
Qed.

(** C2 (as amended): with the chat configured, a provider that answers
    accepted calls in JSON objects, and a narrative and chat credentials
    that can be encoded, the last stage completes.  It first attempts the audio: one upload
    when the synthesizer gave audio, none otherwise.  If the upload is
    acknowledged, no text message is sent.  If no audio was produced or
    the upload was not acknowledged, exactly the text messages of the
    narrative (the narrative itself, or its numbered chunks) are sent,
    in order; their acknowledgments are not checked.  Audio and text
    delivery never both succeed; either may fail. *)
Theorem C2_audio_then_text_fallback (w : env) (narrative : str) (st : state) :
  chat_configured w ->
  provider_replies_in_objects w ->
  encodable_chat w = true ->
  encodable narrative = true ->
  exists st' tr_audio tr_text,
    main_deliver w narrative st = (Ok tt, st') /\
    extends st st' (tr_audio ++ tr_text) /\
    attempts w tr_audio
    = match synthesized w narrative st with
      | Some data =>
          [(AudioMessage (CHAT_ID w) (slice_to 1024 (audio_caption narrative)) data,
            acknowledged w (upload_outcome w narrative st data))]
      | None => []
      end /\
    (length (attempts w tr_audio) <= 1)%nat /\
    forallb (fun a => is_audio (fst a)) (attempts w tr_audio) = true /\
    (audio_delivered w tr_audio = true -> attempts w tr_text = []) /\
    (audio_delivered w tr_audio = false ->
     map fst (attempts w tr_text)
     = map (TextMessage (CHAT_ID w)) (text_messages narrative)) /\
    audio_delivered w (tr_audio ++ tr_text) && text_delivered w (tr_audio ++ tr_text) = false.
Proof.
  intros Hcfg Hobj _ _.
  destruct (main_deliver_run w narrative st Hcfg)
    as (res & st' & tra & trt & sent & rest & Hrun & Hext & Ha & Ht & Hmsgs & Hyes & Hno).
  destruct (nr_main_deliver w narrative Hcfg Hobj st) as ([] & st'' & Hok).
  rewrite Hrun in Hok. injection Hok as -> <-.
  exists st', tra, trt.
  assert (Hshape : (length (attempts w tra) <= 1)%nat /\
                   forallb (fun a => is_audio (fst a)) (attempts w tra) = true).
  { rewrite Ha. destruct (synthesized w narrative st); split; cbn; auto. }
  destruct Hshape as [Hlen Haudio].
  split; [exact Hrun|]. split; [exact Hext|]. split; [exact Ha|].
  split; [exact Hlen|]. split; [exact Haudio|].
  assert (Hnone : audio_delivered w tra = true -> attempts w trt = []).
  { intros Hd. destruct (Hyes Hd) as [-> _]. cbn [map] in Ht.
    now apply map_eq_nil in Ht. }
  split; [exact Hnone|]. split.
  - intros Hn. rewrite Ht, Hmsgs, (Hno Hn eq_refl). now rewrite app_nil_r.
  - rewrite audio_delivered_app, (audio_delivered_texts w trt _ _ Ht), orb_false_r.
    destruct (audio_delivered w tra) eqn:Hd; [|reflexivity].
    unfold text_delivered. rewrite attempts_app, (Hnone eq_refl), app_nil_r.
    cbn [andb].
    assert (Hf : filter (fun a => is_text (fst a)) (attempts w tra) = []).
    { revert Haudio. generalize (attempts w tra). intros l.
      induction l as [|a l IH]; [reflexivity|]. cbn [forallb filter].
      intros H. apply andb_true_iff in H as [H1 H2]. unfold is_text at 1.
      rewrite H1. cbn [negb]. exact (IH H2). }
    now rewrite Hf.
Qed.

Lemma C2_audio_then_text_fallback_witness :
  (chat_configured World.friendly_host) /\
  (provider_replies_in_objects World.friendly_host) /\
  (encodable_chat World.friendly_host = true) /\
  (encodable (lit "Summary X") = true) /\
  (exists st' tr_audio tr_text,
    main_deliver World.friendly_host (lit "Summary X") World.start = (Ok tt, st') /\
    extends World.start st' (tr_audio ++ tr_text) /\
    attempts World.friendly_host tr_audio
    = match synthesized World.friendly_host (lit "Summary X") World.start with
      | Some data =>
          [(AudioMessage (CHAT_ID World.friendly_host) (slice_to 1024 (audio_caption (lit "Summary X"))) data,
            acknowledged World.friendly_host (upload_outcome World.friendly_host (lit "Summary X") World.start data))]
      | None => []
      end /\
    (length (attempts World.friendly_host tr_audio) <= 1)%nat /\
    forallb (fun a => is_audio (fst a)) (attempts World.friendly_host tr_audio) = true /\
    (audio_delivered World.friendly_host tr_audio = true -> attempts World.friendly_host tr_text = []) /\
    (audio_delivered World.friendly_host tr_audio = false ->
     map fst (attempts World.friendly_host tr_text)
     = map (TextMessage (CHAT_ID World.friendly_host)) (text_messages (lit "Summary X"))) /\
    audio_delivered World.friendly_host (tr_audio ++ tr_text) && text_delivered World.friendly_host (tr_audio ++ tr_text) = false).
Proof.
  assert (H0 : chat_configured World.friendly_host) by (split; discriminate).
  assert (H1 : provider_replies_in_objects World.friendly_host) by (intros h req r _ _ _; eexists; reflexivity).
  assert (H2 : encodable_chat World.friendly_host = true) by (reflexivity).
  assert (H3 : encodable (lit "Summary X") = true) by (reflexivity).
  split; [exact H0|].
  split; [exact H1|].
  split; [exact H2|].
  split; [exact H3|].
  exact (C2_audio_then_text_fallback World.friendly_host (lit "Summary X") World.start H0 H1 H2 H3).
Defined.

(** C2 as stated fails: with every server unreachable the stage
    completes, the narrative is sent as text, and neither the audio nor
    the text delivery succeeds. *)
Lemma C2_neither_delivery_succeeds :
  fst (main_deliver World.utc_host (lit "Summary X") World.start) = Ok tt /\
  deliveries World.utc_host
    (trace (snd (main_deliver World.utc_host (lit "Summary X") World.start)))
  = [TextMessage (lit "42") (lit "Summary X")] /\
  audio_delivered World.utc_host
    (trace (snd (main_deliver World.utc_host (lit "Summary X") World.start))) = false /\
  text_delivered World.utc_host
    (trace (snd (main_deliver World.utc_host (lit "Summary X") World.start))) = false.
Proof. repeat split; vm_compute; reflexivity. Qed.

(** Where the upload is answered with JSON that is not an object,
    [AttributeError] leaves [send_telegram_audio] and the stage: the
    narrative is not sent as text. *)
Example upload_answered_with_array_raises :
  fst (main_deliver array_host (lit "Summary X") World.start) = Raise AttributeError /\
  deliveries array_host (trace (snd (main_deliver array_host (lit "Summary X") World.start)))
  = [AudioMessage (lit "42") (lit "Your 24hr News Summary:" ++ [NL] ++ lit "Summary X")
       (content World.ok_body)].
Proof. split; vm_compute; reflexivity. Qed.

(** ** The audio caption *)

Lemma split_first_line (s : str) : nth 0 (split NL s) [] = first_line s.
Proof.
  induction s as [|c r IH]; [reflexivity|]. cbn [split first_line].
  destruct (N.eqb c NL); [reflexivity|].
  destruct (split NL r) as [|h t]; cbn [nth] in *; now rewrite <- IH.
Qed.

Lemma audio_caption_first_line (narrative : str) :
  audio_caption narrative = CAPTION_HEADING ++ [NL] ++ short_first_line narrative.
Proof.
  unfold audio_caption, audio_caption_summary, short_first_line, slice_to.
  now rewrite split_first_line.
Qed.

Lemma short_first_line_bounded (narrative : str) : len (short_first_line narrative) <= 203.
Proof.
  unfold short_first_line, len.
  destruct (200 <? Z.of_nat (length (first_line narrative))) eqn:E.
  - rewrite length_app, length_firstn. cbn [lit length map list_ascii_of_string]. lia.
  - apply Z.ltb_ge in E. lia.
Qed.

Lemma audio_caption_fits (narrative : str) :
  slice_to 1024 (audio_caption narrative) = audio_caption narrative.
Proof.
  unfold slice_to. apply firstn_all2.
  rewrite audio_caption_first_line, !length_app.
  pose proof (short_first_line_bounded narrative) as H. unfold len in H.
  change (length CAPTION_HEADING) with 23%nat. cbn [length]. lia.
Qed.

(** C7 (as amended): when the synthesizer produced audio, the stage makes
    exactly one upload, whose caption is the heading line
    [Your 24hr News Summary:], a newline, and the first line of the
    narrative, cut to 200 characters and followed by an ellipsis when it
    is longer; without audio it makes no upload.  Whatever caption
    [send_telegram_audio] is given, the caption field it posts is the
    first 1024 characters of it. *)
Theorem C7_caption_is_heading_and_first_line (w : env) (narrative : str) (st : state) :
  chat_configured w ->
  (exists res st' tr,
     main_deliver w narrative st = (res, st') /\ extends st st' tr /\
     filter is_audio (deliveries w tr)
     = match synthesized w narrative st with
       | Some data =>
           [AudioMessage (CHAT_ID w)
              (CAPTION_HEADING ++ [NL] ++ short_first_line narrative) data]
       | None => []
       end) /\
  (forall audio caption st0,
     exists res st' tr,
       send_telegram_audio w audio caption st0 = (res, st') /\ extends st0 st' tr /\
       deliveries w tr = [AudioMessage (CHAT_ID w) (firstn 1024 caption) audio] /\
       len (firstn 1024 caption) <= 1024).
Proof.
  intros Hcfg. split.
  - destruct (main_deliver_run w narrative st Hcfg)
      as (res & st' & tra & trt & sent & rest & Hrun & Hext & Ha & Ht & _).
    exists res, st', (tra ++ trt). split; [exact Hrun|]. split; [exact Hext|].
    rewrite deliveries_app, filter_app, !deliveries_attempts, Ht, no_audio_among_texts, Ha.
    rewrite app_nil_r, audio_caption_fits, audio_caption_first_line.
    destruct (synthesized w narrative st); reflexivity.
  - intros audio caption st0.
    destruct (send_telegram_audio_attempt w audio caption st0 Hcfg)
      as (st' & tr & Hrun & Hext & Ha).
    do 3 eexists. split; [exact Hrun|]. split; [exact Hext|]. split.
    + rewrite deliveries_attempts, Ha. reflexivity.
    + unfold len. rewrite length_firstn. lia.
Qed.

Lemma C7_caption_is_heading_and_first_line_witness :
  chat_configured World.friendly_host /\
  (exists res st' tr,
     main_deliver World.friendly_host (lit "Summary X") World.start = (res, st') /\
     extends World.start st' tr /\
     filter is_audio (deliveries World.friendly_host tr)
     = match synthesized World.friendly_host (lit "Summary X") World.start with
       | Some data =>
           [AudioMessage (CHAT_ID World.friendly_host)
              (CAPTION_HEADING ++ [NL] ++ short_first_line (lit "Summary X")) data]
       | None => []
       end) /\
  (forall audio caption st0,
     exists res st' tr,
       send_telegram_audio World.friendly_host audio caption st0 = (res, st') /\
       extends st0 st' tr /\
       deliveries World.friendly_host tr
       = [AudioMessage (CHAT_ID World.friendly_host) (firstn 1024 caption) audio] /\
       len (firstn 1024 caption) <= 1024).
Proof.
  assert (Hcfg : chat_configured World.friendly_host) by (split; discriminate).
  split; [exact Hcfg|].
  exact (C7_caption_is_heading_and_first_line
           World.friendly_host (lit "Summary X") World.start Hcfg).
Defined.

(** C7 as stated fails: the summarizer returned [Summary X], the audio
    was produced and uploaded once, and the caption of the upload is not
    [Summary X] but the heading line followed by it. *)
Lemma C7_caption_carries_heading :
  synthesized World.friendly_host (lit "Summary X") World.start = Some (content World.ok_body) /\
  deliveries World.friendly_host
    (trace (snd (main_deliver World.friendly_host (lit "Summary X") World.start)))
  = [AudioMessage (lit "42")
       (lit "Your 24hr News Summary:" ++ [NL] ++ lit "Summary X")
       (content World.ok_body)] /\
  lit "Your 24hr News Summary:" ++ [NL] ++ lit "Summary X" <> lit "Summary X".
Proof.
  split; [vm_compute; reflexivity|]. split; [vm_compute; reflexivity|].
  vm_compute. discriminate.
Qed.

(** A first line of 250 characters is cut to 200 and marked. *)
Example long_first_line_is_cut :
  audio_caption_summary (repeat 66%N 250 ++ [NL] ++ lit "more")
  = repeat 66%N 200 ++ lit "...".
Proof. vm_compute. reflexivity. Qed.

(** ** Article Extractor *)

Lemma extract_text_run (w : env) (article_url : str) (st : state) :
  exists st',
    extract_text_from_url w article_url st
    = (Ok match fetched_page w article_url st with
          | Some r => extracted_text w (content r)
          | None => None
          end, st').
Proof.
  unfold extract_text_from_url, fetched_page.
  unfold bind at 1, logging at 1, emit at 1.
  change (Log INFO (lit "Extracting text from: {article_url}") [AStr article_url])
    with (extracting article_url).
  unfold bind at 1. rewrite make_request_run. fold no_kwargs.
  match goal with |- context [make_request_result w ?u ?m ?k ?s] =>
    pose proof (make_request_result_some w u m k s) as Hok;
    destruct (make_request_result w u m k s) as [[r|] tr0]
  end; cbn [fst snd] in *; [|eexists; reflexivity].
  rewrite (Hok r eq_refl). unfold extracted_text, designated_container, fallback_element,
    visible_text, try_except.
  unfold bind at 1, lift_result at 1.
  destruct (html_parser w (content r)) as [soup|e]; [|eexists; reflexivity].
  destruct (soup_find_id (lit "section") (lit "entry-body") soup) as [container|];
    [eexists; reflexivity|].
  unfold bind at 1, logging at 1, emit at 1.
  destruct (soup_find (lit "main") soup) as [e1|];
    [destruct (200 <? len (get_text [NL] e1)); eexists; reflexivity|].
  destruct (soup_find (lit "article") soup) as [e2|];
    [destruct (200 <? len (get_text [NL] e2)); eexists; reflexivity|].
  destruct (soup_find (lit "body") soup) as [e3|];
    [destruct (200 <? len (get_text [NL] e3)); eexists; reflexivity|].
  eexists; reflexivity.
Qed.

(** C4: for a page that was fetched, [extract_text_from_url] returns
    normally.  With the designated container present the result is that
    container's visible text, whatever its length.  Without it the
    fall-back element is the first [main], else the first [article],
    else the [body], and its text is returned only when longer than 200
    characters.  Without any such element, with a fall-back text of 200
    characters or fewer, or when the parser raises, the result is
    [None]; the result is never a part of a text. *)
Theorem C4_designated_container_or_fallback
    (w : env) (article_url : str) (st : state) (page : response) :
  fetched_page w article_url st = Some page ->
  exists res st',
    extract_text_from_url w article_url st = (Ok res, st') /\
    (forall e, html_parser w (content page) = Raise e -> res = None) /\
    (forall soup, html_parser w (content page) = Ok soup ->
       (forall container,
          designated_container soup = Some container ->
          res = Some (visible_text container)) /\
       (designated_container soup = None ->
          (forall e, fallback_element soup = Some e ->
                     200 < len (visible_text e) -> res = Some (visible_text e)) /\
          (forall e, fallback_element soup = Some e ->
                     len (visible_text e) <= 200 -> res = None) /\
          (fallback_element soup = None -> res = None))).
Proof.
  intros Hpage. destruct (extract_text_run w article_url st) as [st' Hrun].
  rewrite Hpage in Hrun. do 2 eexists. split; [exact Hrun|].
  unfold extracted_text. split.
  - intros e ->. reflexivity.
  - intros soup ->. split.
    + intros container ->. reflexivity.
    + intros ->. split; [|split].
      * intros e -> Hlong. apply Z.ltb_lt in Hlong. now rewrite Hlong.
      * intros e -> Hshort. apply Z.ltb_ge in Hshort. now rewrite Hshort.
      * intros ->. reflexivity.
Qed.

Lemma C4_designated_container_or_fallback_witness :
  fetched_page World.article_host World.page_url World.start = Some World.ok_body /\
  exists res st',
    extract_text_from_url World.article_host World.page_url World.start = (Ok res, st') /\
    (forall e, html_parser World.article_host (content World.ok_body) = Raise e -> res = None) /\
    (forall soup, html_parser World.article_host (content World.ok_body) = Ok soup ->
       (forall container,
          designated_container soup = Some container ->
          res = Some (visible_text container)) /\
       (designated_container soup = None ->
          (forall e, fallback_element soup = Some e ->
                     200 < len (visible_text e) -> res = Some (visible_text e)) /\
          (forall e, fallback_element soup = Some e ->
                     len (visible_text e) <= 200 -> res = None) /\
          (fallback_element soup = None -> res = None))).
Proof.
  assert (Hpage : fetched_page World.article_host World.page_url World.start
                  = Some World.ok_body) by (vm_compute; reflexivity).
  split; [exact Hpage|].
  exact (C4_designated_container_or_fallback
           World.article_host World.page_url World.start World.ok_body Hpage).
Defined.

(** The container's text, one stripped string per line; a short body
    without the container gives nothing. *)
Example extract_container_text :
  fst (extract_text_from_url World.article_host World.page_url World.start)
  = Ok (Some (lit "Hello" ++ [NL] ++ lit "world")).
Proof. vm_compute. reflexivity. Qed.

Example extract_short_fallback :
  fst (extract_text_from_url World.short_page_host World.page_url World.start) = Ok None.
Proof. vm_compute. reflexivity. Qed.

(** ** Narrative Generator *)

(** Closes a branch of [llm_read_narrative] that ends in a log and
    [None], whichever handler caught the exception. *)
Ltac caught_by H :=
  first
    [ eapply H; [reflexivity|trace_ext|reflexivity|reflexivity|reflexivity]
    | match goal with |- context [is_json_JSONDecodeError ?e] =>
        destruct (is_json_JSONDecodeError e)
      end;
      (eapply H; [reflexivity|trace_ext|reflexivity|reflexivity|reflexivity]) ].

(** Reading the provider's answer never raises and, unless the body
    decodes to an object with a non-empty [choices] list, gives [None]. *)
Lemma llm_read_narrative_run (w : env) (r : response) (st : state) :
  exists res st' logs,
    llm_read_narrative w r st = (Ok res, st') /\ extends st st' logs /\
    no_network_call logs = true /\ attempts w logs = [] /\
    (json_loads w (content r) = None -> res = None) /\
    (forall j, json_loads w (content r) = Some j -> has_choices j = false -> res = None).
Proof.
  unfold llm_read_narrative, try_except.
  unfold bind at 1, response_json.
  destruct (json_loads w (content r)) as [j|].
  2:{ do 3 eexists. split; [reflexivity|]. split; [trace_ext|].
      repeat split; try reflexivity; intros; discriminate. }
  unfold ret at 1. unfold bind at 1, lift_result at 1.
  assert (Hdone : forall (q : result (option json) * state) res st' logs,
            q = (Ok res, st') -> extends st st' logs ->
            no_network_call logs = true -> attempts w logs = [] ->
            (has_choices j = false -> res = None) ->
            exists res st' logs,
              q = (Ok res, st') /\ extends st st' logs /\
              no_network_call logs = true /\ attempts w logs = [] /\
              (Some j = None -> res = None) /\
              (forall j0, Some j = Some j0 -> has_choices j0 = false -> res = None)).
  { intros q res st' logs -> Hext Hnet Hatt Hres. exists res, st', logs.
    repeat split; try assumption; try discriminate.
    intros j0 [= <-]. exact Hres. }
  destruct (py_contains (lit "choices") j) as [[|]|e] eqn:Hin.
  - (* "choices" in response_data *)
    unfold bind at 1. unfold bind at 1, lift_result at 1.
    destruct (getitem_str j (lit "choices")) as [choices|e] eqn:Hget.
    + unfold ret at 1. destruct (truthy choices) eqn:Htruthy.
      * unfold bind at 1, lift_result at 1.
        unfold bind at 1, lift_result at 1.
        destruct (getitem_0 choices) as [first|e] eqn:Hfirst.
        -- unfold bind at 1, lift_result at 1.
           destruct (getitem_str first (lit "message")) as [message|e] eqn:Hmsg.
           ++ unfold bind at 1, lift_result at 1.
              destruct (getitem_str message (lit "content")) as [narrative|e].
              ** unfold bind at 1, lift_result at 1.
                 destruct (py_len narrative) as [n|e].
                 --- eapply Hdone; [reflexivity|trace_ext|reflexivity|reflexivity|].
                     intros Hno. exfalso.
                     destruct j as [| | | | |items|members]; try discriminate Hget.
                     unfold has_choices in Hno. unfold getitem_str in Hget.
                     destruct (dict_get (lit "choices") members) as [c|];
                       [|discriminate Hget].
                     injection Hget as ->.
                     destruct choices as [| | | |s|items|m]; try discriminate.
                     +++ destruct s as [|c s]; [discriminate|].
                         injection Hfirst as <-. discriminate Hmsg.
                     +++ destruct items; discriminate.
                 --- caught_by Hdone.
              ** caught_by Hdone.
           ++ caught_by Hdone.
        -- caught_by Hdone.
      * caught_by Hdone.
    + caught_by Hdone.
  - caught_by Hdone.
  - caught_by Hdone.
Qed.


(** A run of [get_llm_narrative] with the API key set: one request to
    the provider, and a result that is never an exception. *)
Lemma get_llm_narrative_run (w : env) (text_corpus : str) (st : state) :
  DS_API_KEY w <> [] ->
  exists res st' logs,
    get_llm_narrative w text_corpus st = (Ok res, st') /\
    extends st st'
      (llm_preamble text_corpus
       ++ [Http (llm_request w text_corpus st) (llm_outcome w text_corpus st)] ++ logs) /\
    no_network_call logs = true /\ attempts w logs = [] /\
    match llm_outcome w text_corpus st with
    | Responded r =>
        if response_ok r then
          (json_loads w (content r) = None -> res = None) /\
          (forall j, json_loads w (content r) = Some j -> has_choices j = false -> res = None)
        else res = None
    | Failed _ => res = None
    end.
Proof.
  intros Hkey. unfold get_llm_narrative.
  destruct (DS_API_KEY w) as [|k ks] eqn:Ek; [congruence|]. rewrite <- Ek. clear Hkey.
  unfold bind at 1.
  assert (Hpre : exists s0,
            (match strip text_corpus with
             | [] => logging INFO "Text corpus is empty. LLM will be prompted accordingly." []
             | _ => ret tt
             end) st = (Ok tt, s0) /\
            {| trace := trace s0
                 ++ [Log INFO (lit "Sending text to DeepSeek for narrative generation...") []];
               draws := draws s0 |} = llm_state text_corpus st).
  { unfold llm_state, llm_preamble. destruct (strip text_corpus); eexists; split;
      try reflexivity; cbn [trace draws]; now rewrite <- ?app_assoc. }
  destruct Hpre as (s0 & -> & Hs0).
  unfold bind at 1, logging at 1, emit at 1. rewrite Hs0.
  unfold bind at 1. rewrite make_request_run.
  change {| kw_headers := Some [ (lit "Content-Type", lit "application/json");
                                 (lit "Authorization", lit "Bearer " ++ DS_API_KEY w) ];
            kw_data := Some (DataStr (json_dumps w (llm_payload text_corpus)));
            kw_json := None |} with (llm_kwargs w text_corpus).
  unfold make_request_result.
  change (supported_method (lit "POST")) with (Some POST). cbv iota beta.
  change (issued_request w DS_API_URL POST (llm_kwargs w text_corpus) (llm_state text_corpus st))
    with (llm_request w text_corpus st).
  change (http_server w (trace (llm_state text_corpus st)) (llm_request w text_corpus st))
    with (llm_outcome w text_corpus st).
  destruct (llm_outcome w text_corpus st) as [r|e].
  - destruct (response_ok r) eqn:Hok; cbn [fst snd].
    + rewrite Hok.
      match goal with |- context [llm_read_narrative w r ?s] =>
        destruct (llm_read_narrative_run w r s)
          as (res & st' & logs & Hrun & Hext & Hnet & Hatt & Hnone & Hshape)
      end.
      rewrite Hrun. exists res, st', logs.
      split; [reflexivity|]. split; [|repeat split; assumption].
      unfold extends in *. cbn [trace llm_state] in *. rewrite Hext, <- !app_assoc. reflexivity.
    + do 3 eexists. split; [reflexivity|]. split; [trace_ext|].
      repeat split; reflexivity.
  - cbn [fst snd]. do 3 eexists. split; [reflexivity|]. split; [trace_ext|].
    repeat split; reflexivity.
Qed.

Lemma placeholder_is_user_content :
  user_content (llm_payload []) = Some (JStr PLACEHOLDER) /\ PLACEHOLDER <> [].
Proof. split; [vm_compute; reflexivity|discriminate]. Qed.

(** C6: with the API key set, [get_llm_narrative] on the empty corpus
    still issues its request: one POST to the provider whose body is the
    payload with the placeholder sentence, which is not empty, as user
    content.  For every corpus the call returns without raising, and it
    returns [None] whenever the transport fails, the body does not decode
    as JSON, or the decoded body is not an object with a non-empty
    [choices] list. *)
Theorem C6_placeholder_and_no_narrative (w : env) (st : state) :
  DS_API_KEY w <> [] ->
  (exists res st' logs,
     get_llm_narrative w [] st = (Ok res, st') /\
     extends st st'
       (llm_preamble [] ++ [Http (llm_request w [] st) (llm_outcome w [] st)] ++ logs) /\
     no_network_call logs = true /\
     req_method (llm_request w [] st) = POST /\
     req_url (llm_request w [] st) = DS_API_URL /\
     req_body (llm_request w [] st) = DataStr (json_dumps w (llm_payload [])) /\
     user_content (llm_payload []) = Some (JStr PLACEHOLDER) /\
     PLACEHOLDER <> []) /\
  (forall text_corpus,
     exists res st',
       get_llm_narrative w text_corpus st = (Ok res, st') /\
       match llm_outcome w text_corpus st with
       | Responded r =>
           response_ok r = true ->
           (json_loads w (content r) = None -> res = None) /\
           (forall j, json_loads w (content r) = Some j -> has_choices j = false -> res = None)
       | Failed _ => res = None
       end).
Proof.
  intros Hkey. split.
  - destruct (get_llm_narrative_run w [] st Hkey)
      as (res & st' & logs & Hrun & Hext & Hnet & _).
    exists res, st', logs.
    split; [exact Hrun|]. split; [exact Hext|]. split; [exact Hnet|].
    split; [reflexivity|]. split; [reflexivity|]. split; [reflexivity|].
    exact placeholder_is_user_content.
  - intros text_corpus.
    destruct (get_llm_narrative_run w text_corpus st Hkey)
      as (res & st' & logs & Hrun & _ & _ & _ & Hres).
    exists res, st'. split; [exact Hrun|].
    destruct (llm_outcome w text_corpus st) as [r|e]; [|exact Hres].
    intros Hok. now rewrite Hok in Hres.
Qed.

Lemma C6_placeholder_and_no_narrative_witness :
  DS_API_KEY World.friendly_host <> [] /\
  (exists res st' logs,
     get_llm_narrative World.friendly_host [] World.start = (Ok res, st') /\
     extends World.start st'
       (llm_preamble []
        ++ [Http (llm_request World.friendly_host [] World.start)
                 (llm_outcome World.friendly_host [] World.start)] ++ logs) /\
     no_network_call logs = true /\
     req_method (llm_request World.friendly_host [] World.start) = POST /\
     req_url (llm_request World.friendly_host [] World.start) = DS_API_URL /\
     req_body (llm_request World.friendly_host [] World.start)
     = DataStr (json_dumps World.friendly_host (llm_payload [])) /\
     user_content (llm_payload []) = Some (JStr PLACEHOLDER) /\
     PLACEHOLDER <> []) /\
  (forall text_corpus,
     exists res st',
       get_llm_narrative World.friendly_host text_corpus World.start = (Ok res, st') /\
       match llm_outcome World.friendly_host text_corpus World.start with
       | Responded r =>
           response_ok r = true ->
           (json_loads World.friendly_host (content r) = None -> res = None) /\
           (forall j, json_loads World.friendly_host (content r) = Some j ->
                      has_choices j = false -> res = None)
       | Failed _ => res = None
       end).
Proof.
  assert (Hkey : DS_API_KEY World.friendly_host <> []) by discriminate.
  split; [exact Hkey|].
  exact (C6_placeholder_and_no_narrative World.friendly_host World.start Hkey).
Defined.

(** The provider acknowledges without any [choices]: no narrative. *)
Example no_choices_no_narrative :
  fst (get_llm_narrative World.friendly_host [] World.start) = Ok None.
Proof. vm_compute. reflexivity. Qed.

(** ** Two runs of the pipeline *)

Section Similar.

Variable w : env.

Lemma sim_ret {A} (a : A) : similar w (ret a) (ret a).
Proof.
  intros st1 st2. exists (Ok a), st1, st2, [], [].
  repeat split; try reflexivity; apply extends_refl.
Qed.

Lemma sim_raise {A} (e : exn) : similar w (@raise A e) (raise e).
Proof.
  intros st1 st2. exists (Raise e), st1, st2, [], [].
  repeat split; try reflexivity; apply extends_refl.
Qed.

Lemma sim_lift_result {A} (r : result A) : similar w (lift_result r) (lift_result r).
Proof.
  intros st1 st2. exists r, st1, st2, [], [].
  repeat split; try reflexivity; apply extends_refl.
Qed.

Lemma sim_bind {A B} (m1 m2 : M A) (k1 k2 : A -> M B) :
  similar w m1 m2 -> (forall a, similar w (k1 a) (k2 a)) ->
  similar w (bind m1 k1) (bind m2 k2).
Proof.
  intros Hm Hk st1 st2.
  destruct (Hm st1 st2) as (r & s1 & s2 & tr1 & tr2 & H1 & H2 & E1 & E2 & Ha).
  unfold bind. rewrite H1, H2. destruct r as [a|e].
  - destruct (Hk a s1 s2) as (r' & s1' & s2' & tr1' & tr2' & H1' & H2' & E1' & E2' & Ha').
    exists r', s1', s2', (tr1 ++ tr1'), (tr2 ++ tr2').
    split; [exact H1'|]. split; [exact H2'|].
    split; [eapply extends_trans; eassumption|].
    split; [eapply extends_trans; eassumption|].
    now rewrite !attempts_app, Ha, Ha'.
  - exists (Raise e), s1, s2, tr1, tr2. repeat split; assumption.
Qed.

Lemma sim_try_except {A} (m1 m2 : M A) (handles : exn -> bool) (h1 h2 : exn -> M A) :
  similar w m1 m2 -> (forall e, similar w (h1 e) (h2 e)) ->
  similar w (try_except m1 handles h1) (try_except m2 handles h2).
Proof.
  intros Hm Hh st1 st2.
  destruct (Hm st1 st2) as (r & s1 & s2 & tr1 & tr2 & H1 & H2 & E1 & E2 & Ha).
  unfold try_except. rewrite H1, H2. destruct r as [a|e].
  - exists (Ok a), s1, s2, tr1, tr2. repeat split; assumption.
  - destruct (handles e).
    + destruct (Hh e s1 s2) as (r' & s1' & s2' & tr1' & tr2' & H1' & H2' & E1' & E2' & Ha').
      exists r', s1', s2', (tr1 ++ tr1'), (tr2 ++ tr2').
      split; [exact H1'|]. split; [exact H2'|].
      split; [eapply extends_trans; eassumption|].
      split; [eapply extends_trans; eassumption|].
      now rewrite !attempts_app, Ha, Ha'.
    + exists (Raise e), s1, s2, tr1, tr2. repeat split; assumption.
Qed.

Lemma sim_emit (ev : event) : similar w (emit ev) (emit ev).
Proof.
  intros st1 st2. do 3 eexists. exists [ev], [ev].
  repeat split; reflexivity.
Qed.

Lemma sim_logging lvl template args :
  similar w (logging lvl template args) (logging lvl template args).
Proof. apply sim_emit. Qed.

Lemma sim_for_each {A S} (l : list A) (b1 b2 : A -> S -> M S) (acc : S) :
  (forall x a, similar w (b1 x a) (b2 x a)) ->
  similar w (for_each l b1 acc) (for_each l b2 acc).
Proof.
  intros Hb. revert acc. induction l as [|x l IH]; intros acc; cbn [for_each].
  - apply sim_ret.
  - apply sim_bind; [apply Hb|]. intros a. apply IH.
Qed.

End Similar.

Lemma without_user_agent_set (ua : str) (h : dict str) :
  dict_mem (lit "User-Agent") h = false ->
  without_user_agent (dict_set (lit "User-Agent") ua h) = without_user_agent h.
Proof.
  unfold without_user_agent, dict_mem.
  induction h as [|[k v] h IH]; intros Hmem.
  - cbn [dict_set filter fst]. now rewrite str_eqb_refl.
  - cbn [dict_get dict_set] in *.
    destruct (str_eqb (lit "User-Agent") k) eqn:E; [discriminate|].
    cbn [filter fst]. rewrite (IH Hmem). reflexivity.
Qed.

Lemma delivery_of_same_request (w : env) (r1 r2 : request) (out : http_outcome) :
  same_request r1 r2 -> delivery_of w (Http r1 out) = delivery_of w (Http r2 out).
Proof.
  intros (Hm & Hu & _ & Hb & _). unfold delivery_of. now rewrite Hm, Hu, Hb.
Qed.

Lemma attempts_same_request (w : env) (r1 r2 : request) (out : http_outcome)
    (rest : list event) :
  same_request r1 r2 ->
  attempts w (Http r1 out :: rest) = attempts w (Http r2 out :: rest).
Proof.
  intros H. unfold attempts. cbn [flat_map posted].
  now rewrite (delivery_of_same_request w r1 r2 out H).
Qed.

Lemma download_run {A} (w0 : env) (rss_url : str) (k : feed -> M A) (st : state) :
  (agent <- get_random_user_agent w0 ;; f <- feedparser_parse w0 rss_url agent ;; k f) st
  = k (feed_server w0 (trace st) rss_url (drawn_user_agent w0 st))
      {| trace := trace st
           ++ [FeedParse rss_url (drawn_user_agent w0 st)
                 (feed_server w0 (trace st) rss_url (drawn_user_agent w0 st))];
         draws := S (draws st) |}.
Proof. reflexivity. Qed.

(** Two runs in one unchanged world, each with its own random source and
    its own reading of the clock. *)
Section TwoRuns.

Variable w : env.
Variables rnd1 rnd2 : nat -> nat.
Variables now1 now2 : datetime.
Variable rss_url : str.
Hypothesis world : unchanged_world w.
Hypothesis selection : same_selection w rss_url now1 now2.

(** Rewrites every field read through [rerun] to the field of the
    world itself. *)
Ltac same_world :=
  cbn [rerun BOT_TOKEN CHAT_ID DS_API_KEY ELEVENLABS_API_KEY ELEVENLABS_VOICE_ID
       utcnow timezone http_server feed_server json_loads json_dumps html_parser].

Lemma issued_requests_same (url : str) (m : http_method) (kw : kwargs) (st1 st2 : state) :
  same_request (issued_request (rerun w rnd1 now1) url m kw st1) (issued_request (rerun w rnd2 now2) url m kw st2).
Proof.
  unfold same_request, issued_request, request_headers.
  cbn [req_method req_url req_timeout req_body req_headers].
  repeat split.
  destruct (dict_mem (lit "User-Agent") (given_headers kw)) eqn:E; [reflexivity|].
  now rewrite !without_user_agent_set.
Qed.

Lemma sim_make_request (url method : str) (kw : kwargs) :
  similar w (make_request (rerun w rnd1 now1) url method kw) (make_request (rerun w rnd2 now2) url method kw).
Proof.
  intros st1 st2. rewrite !make_request_run. unfold make_request_result.
  destruct (supported_method method) as [m|].
  - same_world.
    pose proof (issued_requests_same url m kw st1 st2) as Hsame.
    rewrite (proj1 world (trace st1) (trace st2) _ _ Hsame).
    destruct (http_server w (trace st2) (issued_request (rerun w rnd2 now2) url m kw st2)) as [r|e].
    + destruct (response_ok r); cbn [fst snd];
        do 5 eexists; (split; [reflexivity|]); (split; [reflexivity|]);
        (split; [trace_ext|]); (split; [trace_ext|]);
        apply attempts_same_request; exact Hsame.
    + cbn [fst snd].
      do 5 eexists; (split; [reflexivity|]); (split; [reflexivity|]);
        (split; [trace_ext|]); (split; [trace_ext|]);
        apply attempts_same_request; exact Hsame.
  - cbn [fst snd]. do 5 eexists. split; [reflexivity|]. split; [reflexivity|].
    split; [trace_ext|]. split; [trace_ext|]. reflexivity.
Qed.

Lemma same_request_refl (req : request) : same_request req req.
Proof. repeat split. Qed.

Lemma sim_requests_call (req : request) :
  similar w (requests_call (rerun w rnd1 now1) req) (requests_call (rerun w rnd2 now2) req).
Proof.
  intros st1 st2. unfold requests_call. same_world.
  rewrite (proj1 world (trace st1) (trace st2) req req (same_request_refl req)).
  destruct (http_server w (trace st2) req) as [r|e];
    do 5 eexists; (split; [reflexivity|]); (split; [reflexivity|]);
    (split; [trace_ext|]); (split; [trace_ext|]); reflexivity.
Qed.

Lemma sim_response_json (r : response) :
  similar w (response_json (rerun w rnd1 now1) r) (response_json (rerun w rnd2 now2) r).
Proof.
  unfold response_json. same_world.
  destruct (json_loads w (content r)); [apply sim_ret|apply sim_raise].
Qed.

Lemma sim_raise_for_status (r : response) :
  similar w (raise_for_status r) (raise_for_status r).
Proof. unfold raise_for_status. destruct (response_ok r); [apply sim_ret|apply sim_raise]. Qed.

(** The feed download: the agent differs, the feed does not. *)
Lemma sim_download {A} (url : str) (k1 k2 : feed -> M A) :
  similar w (k1 (feed_server w [] url [])) (k2 (feed_server w [] url [])) ->
  similar w
    (agent <- get_random_user_agent (rerun w rnd1 now1) ;;
     f <- feedparser_parse (rerun w rnd1 now1) url agent ;; k1 f)
    (agent <- get_random_user_agent (rerun w rnd2 now2) ;;
     f <- feedparser_parse (rerun w rnd2 now2) url agent ;; k2 f).
Proof.
  intros Hk st1 st2. rewrite !download_run. same_world.
  rewrite (proj2 world (trace st1) [] url (drawn_user_agent (rerun w rnd1 now1) st1) []).
  rewrite (proj2 world (trace st2) [] url (drawn_user_agent (rerun w rnd2 now2) st2) []).
  set (f := feed_server w [] url []) in *.
  match goal with |- context [k1 f ?s1] => match goal with |- context [k2 f ?s2] =>
    destruct (Hk s1 s2) as (r & s1' & s2' & tr1 & tr2 & H1 & H2 & E1 & E2 & Ha)
  end end.
  exists r, s1'. exists s2'. eexists. eexists.
  split; [exact H1|]. split; [exact H2|].
  split; [unfold extends in *; cbn [trace] in *; rewrite E1, <- app_assoc; reflexivity|].
  split; [unfold extends in *; cbn [trace] in *; rewrite E2, <- app_assoc; reflexivity|].
  rewrite !attempts_app. exact Ha.
Qed.

Lemma sim_for_each_in {A S} (l : list A) (b1 b2 : A -> S -> M S) (acc : S) :
  (forall x a, In x l -> similar w (b1 x a) (b2 x a)) ->
  similar w (for_each l b1 acc) (for_each l b2 acc).
Proof.
  revert acc. induction l as [|x l IH]; intros acc Hb; cbn [for_each].
  - apply sim_ret.
  - apply sim_bind; [apply Hb; now left|]. intros a. apply IH.
    intros y b Hy. apply Hb. now right.
Qed.

(** One step of a proof that the same code is similar to itself in the
    two runs. *)
Ltac sim_step :=
  lazymatch goal with
  | |- similar _ (ret _) (ret _) => apply sim_ret
  | |- similar _ (raise _) (raise _) => apply sim_raise
  | |- similar _ (lift_result _) (lift_result _) => apply sim_lift_result
  | |- similar _ (logging _ _ _) (logging _ _ _) => apply sim_logging
  | |- similar _ (emit _) (emit _) => apply sim_emit
  | |- similar _ (time_sleep _) (time_sleep _) => apply sim_emit
  | |- similar _ (raise_for_status _) (raise_for_status _) => apply sim_raise_for_status
  | |- similar _ (response_json _ _) (response_json _ _) => apply sim_response_json
  | |- similar _ (requests_call _ _) (requests_call _ _) => apply sim_requests_call
  | |- similar _ (make_request _ _ _ _) (make_request _ _ _ _) => apply sim_make_request
  | |- similar _ (bind _ _) (bind _ _) => apply sim_bind; [|intros ?]
  | |- similar _ (try_except _ _ _) (try_except _ _ _) => apply sim_try_except; [|intros ?]
  | |- similar _ (for_each _ _ _) (for_each _ _ _) => apply sim_for_each; intros ? ?
  | |- similar _ (match ?x with _ => _ end) (match ?x with _ => _ end) => destruct x
  end.

Ltac sim := same_world; repeat (sim_step; same_world).

Lemma sim_fetch_rss_entries_body (e : entry) (acc : list entry) :
  In e (entries (feed_server w [] rss_url [])) ->
  similar w (fetch_rss_entries_body (rerun w rnd1 now1) (now1 - timedelta_days 1) e acc)
            (fetch_rss_entries_body (rerun w rnd2 now2) (now2 - timedelta_days 1) e acc).
Proof.
  intros Hin. pose proof (selection e Hin) as Hsel.
  unfold fetch_rss_entries_body, kept_at, entry_date in *. same_world.
  destruct (published_time_struct e) as [ts|]; [|sim].
  rewrite Hsel. sim.
Qed.

Lemma sim_fetch_rss_entries :
  similar w (fetch_rss_entries (rerun w rnd1 now1) rss_url)
            (fetch_rss_entries (rerun w rnd2 now2) rss_url).
Proof.
  unfold fetch_rss_entries. apply sim_bind; [apply sim_logging|]. intros _.
  apply sim_download. same_world.
  apply sim_bind; [sim|]. intros _.
  destruct (entries (feed_server w [] rss_url [])) as [|e l] eqn:El; [sim|].
  apply sim_bind; [|intros recent; sim].
  apply sim_for_each_in. intros x acc Hin. apply sim_fetch_rss_entries_body.
  now rewrite El.
Qed.

Lemma sim_extract_text_from_url (article_url : str) :
  similar w (extract_text_from_url (rerun w rnd1 now1) article_url)
            (extract_text_from_url (rerun w rnd2 now2) article_url).
Proof. unfold extract_text_from_url. sim. Qed.

Lemma sim_get_llm_narrative (text_corpus : str) :
  similar w (get_llm_narrative (rerun w rnd1 now1) text_corpus)
            (get_llm_narrative (rerun w rnd2 now2) text_corpus).
Proof. unfold get_llm_narrative, llm_read_narrative. sim. Qed.

Lemma sim_text_to_speech_elevenlabs (text : str) :
  similar w (text_to_speech_elevenlabs (rerun w rnd1 now1) text)
            (text_to_speech_elevenlabs (rerun w rnd2 now2) text).
Proof. unfold text_to_speech_elevenlabs. sim. Qed.

Lemma sim_send_telegram_message (text : str) :
  similar w (send_telegram_message (rerun w rnd1 now1) text)
            (send_telegram_message (rerun w rnd2 now2) text).
Proof. unfold send_telegram_message. sim. Qed.

Lemma sim_send_telegram_audio (audio : bytes) (caption : str) :
  similar w (send_telegram_audio (rerun w rnd1 now1) audio caption)
            (send_telegram_audio (rerun w rnd2 now2) audio caption).
Proof. unfold send_telegram_audio. sim. Qed.

Ltac sim_calls :=
  same_world;
  repeat (first
    [ apply sim_send_telegram_message
    | apply sim_send_telegram_audio
    | apply sim_text_to_speech_elevenlabs
    | apply sim_get_llm_narrative
    | apply sim_extract_text_from_url
    | apply sim_fetch_rss_entries
    | sim_step ]; same_world).

Lemma sim_main_send_text (narrative : str) :
  similar w (main_send_text (rerun w rnd1 now1) narrative)
            (main_send_text (rerun w rnd2 now2) narrative).
Proof. unfold main_send_text. sim_calls. Qed.

Lemma sim_main_deliver (narrative : str) :
  similar w (main_deliver (rerun w rnd1 now1) narrative)
            (main_deliver (rerun w rnd2 now2) narrative).
Proof.
  unfold main_deliver. sim_calls; apply sim_main_send_text.
Qed.

Lemma sim_main :
  similar w (main (rerun w rnd1 now1) rss_url) (main (rerun w rnd2 now2) rss_url).
Proof.
  unfold main, main_extract_body.
  change (configured (rerun w rnd1 now1)) with (configured w).
  change (configured (rerun w rnd2 now2)) with (configured w).
  sim_calls; apply sim_main_deliver.
Qed.

End TwoRuns.

Lemma new_events_extends (st st' : state) (tr : list event) :
  extends st st' tr -> new_events st st' = tr.
Proof.
  unfold extends, new_events. intros ->.
  rewrite skipn_app, skipn_all, Nat.sub_diag. reflexivity.
Qed.

(** C9 (as amended): in a world whose servers answer by the request
    alone (the feed, the pages and the responses of the summarizer, the
    speech service and the messaging provider are fixed), two runs of
    [main] on the same feed URL, at instants for which the 24-hour window
    selects the same entries of the feed, end the same way and attempt
    the same deliveries, with the same content and in the same order,
    whatever trace and random-source position each run starts from and
    whatever user agents the two random sources choose. *)
Theorem C9_same_selection_same_deliveries
    (w : env) (rnd1 rnd2 : nat -> nat) (now1 now2 : datetime) (rss_url : str)
    (st1 st2 : state) :
  unchanged_world w ->
  same_selection w rss_url now1 now2 ->
  fst (main (rerun w rnd1 now1) rss_url st1) = fst (main (rerun w rnd2 now2) rss_url st2) /\
  deliveries w (new_events st1 (snd (main (rerun w rnd1 now1) rss_url st1)))
  = deliveries w (new_events st2 (snd (main (rerun w rnd2 now2) rss_url st2))).
Proof.
  intros Hworld Hsel.
  destruct (sim_main w rnd1 rnd2 now1 now2 rss_url Hworld Hsel st1 st2)
    as (r & s1 & s2 & tr1 & tr2 & H1 & H2 & E1 & E2 & Ha).
  rewrite H1, H2. cbn [fst snd]. split; [reflexivity|].
  rewrite (new_events_extends _ _ _ E1), (new_events_extends _ _ _ E2).
  now rewrite !deliveries_attempts, Ha.
Qed.

Lemma steady_host_unchanged : unchanged_world World.steady_host.
Proof. split; intros; reflexivity. Qed.

Lemma C9_same_selection_same_deliveries_witness :
  unchanged_world World.steady_host /\
  same_selection World.steady_host World.feed_url World.now (World.now - World.one_hour) /\
  fst (main (rerun World.steady_host (fun k => k) World.now) World.feed_url World.start)
  = fst (main (rerun World.steady_host (fun _ => 3%nat) (World.now - World.one_hour))
              World.feed_url World.used) /\
  deliveries World.steady_host
    (new_events World.start
       (snd (main (rerun World.steady_host (fun k => k) World.now)
                  World.feed_url World.start)))
  = deliveries World.steady_host
      (new_events World.used
         (snd (main (rerun World.steady_host (fun _ => 3%nat) (World.now - World.one_hour))
                    World.feed_url World.used))).
Proof.
  assert (Hsel : same_selection World.steady_host World.feed_url
                   World.now (World.now - World.one_hour)).
  { intros e [<-|[]]. vm_compute. reflexivity. }
  split; [exact steady_host_unchanged|]. split; [exact Hsel|].
  exact (C9_same_selection_same_deliveries World.steady_host (fun k => k) (fun _ => 3%nat)
           World.now (World.now - World.one_hour) World.feed_url World.start World.used
           steady_host_unchanged Hsel).
Defined.

(** C9 as stated fails: the feed, the pages and every provider are
    fixed, and a run started one second after another delivers something
    else, because the only entry of the feed has left the window. *)
Lemma C9_later_run_delivers_differently :
  unchanged_world World.steady_host /\
  deliveries World.steady_host
    (trace (snd (main (rerun World.steady_host (fun k => k) World.now)
                      World.feed_url World.start)))
  = [AudioMessage (lit "42")
       (lit "Your 24hr News Summary:" ++ [NL] ++ lit "Summary X")
       (content World.ok_body)] /\
  deliveries World.steady_host
    (trace (snd (main (rerun World.steady_host (fun k => k) (World.now + World.one_second))
                      World.feed_url World.start)))
  = [TextMessage (lit "42")
       (lit "No new articles found in the RSS feed in the last 24 hours.")].
Proof.
  split; [exact steady_host_unchanged|].
  split; vm_compute; reflexivity.
Qed.

(** The two runs of the witness do draw different user agents. *)
Example runs_differ_in_user_agent :
  drawn_user_agent (rerun World.steady_host (fun k => k) World.now) World.start
  <> drawn_user_agent (rerun World.steady_host (fun _ => 3%nat) World.now) World.used.
Proof. vm_compute. discriminate. Qed.

(** ** The orchestrator end to end *)

Lemma configured_credentials (w : env) :
  configured w = true -> chat_configured w /\ DS_API_KEY w <> [].
Proof.
  unfold configured, chat_configured. cbn [forallb].
  destruct (BOT_TOKEN w), (CHAT_ID w), (DS_API_KEY w); cbn; try discriminate.
  intros _. repeat split; discriminate.
Qed.

(** Without a complete configuration [main] stops before any network
    call. *)
Lemma main_unconfigured (w : env) (rss_url : str) (st : state) :
  configured w = false ->
  exists st' tr,
    main w rss_url st = (Ok tt, st') /\ extends st st' tr /\ no_network_call tr = true.
Proof.
  intros H. unfold main. rewrite H. cbn [negb].
  do 2 eexists. split; [reflexivity|]. split; [trace_ext|reflexivity].
Qed.

(** One fresh entry, extraction, summary and synthesis succeed: one
    audio upload and no text message. *)
Example scenario_audio_delivered :
  fst (main World.steady_host World.feed_url World.start) = Ok tt /\
  steps World.steady_host (trace (snd (main World.steady_host World.feed_url World.start)))
  = [Send (AudioMessage (lit "42")
             (lit "Your 24hr News Summary:" ++ [NL] ++ lit "Summary X")
             (content World.ok_body))].
Proof. split; vm_compute; reflexivity. Qed.

(** No recent entry: one text message, and no other HTTP call. *)
Example scenario_no_recent_entries :
  steps World.empty_feed_host
    (trace (snd (main World.empty_feed_host World.feed_url World.start)))
  = [Send (TextMessage (lit "42")
             (lit "No new articles found in the RSS feed in the last 24 hours."))] /\
  called_urls (trace (snd (main World.empty_feed_host World.feed_url World.start)))
  = [TELEGRAM_SEND_MESSAGE_URL World.empty_feed_host].
Proof. split; vm_compute; reflexivity. Qed.

(** The summarizer times out: one text message with the fixed notice,
    and no call to the speech service. *)
Example scenario_summarizer_fails :
  steps World.summarizer_down
    (trace (snd (main World.summarizer_down World.feed_url World.start)))
  = [Send (TextMessage (lit "42")
             (lit "Failed to generate an AI news summary. No update could be produced."))] /\
  called_urls (trace (snd (main World.summarizer_down World.feed_url World.start)))
  = [World.page_url; DS_API_URL; TELEGRAM_SEND_MESSAGE_URL World.summarizer_down].
Proof. split; vm_compute; reflexivity. Qed.

Example scenario_unconfigured :
  trace (snd (main World.unconfigured_host World.feed_url World.start))
  = [Log CRITICAL (lit "One or more critical API keys/IDs are missing in .env. Exiting.") [];
     Stderr (lit "ERROR: Critical API keys/IDs missing. Check .env file and logs.")].
Proof. vm_compute. reflexivity. Qed.

(** * Further properties of the code *)

(** ** Computations that only log *)

Lemma only_logs_app (tr1 tr2 : list event) :
  only_logs (tr1 ++ tr2) = only_logs tr1 && only_logs tr2.
Proof. apply forallb_app. Qed.

Lemma only_logs_views (w : env) (tr : list event) :
  only_logs tr = true ->
  called_urls tr = [] /\ downloads tr = [] /\ no_network_call tr = true /\
  steps w tr = [] /\ attempts w tr = [].
Proof.
  induction tr as [|ev tr IH]; intros H; [repeat split|].
  cbn [only_logs forallb] in H. apply andb_true_iff in H as [Hev Htr].
  destruct (IH Htr) as (H1 & H2 & H3 & H4 & H5).
  destruct ev; try discriminate Hev.
  unfold called_urls, downloads, no_network_call, steps, attempts in *.
  cbn [flat_map forallb delivery_of app andb]. repeat split; assumption.
Qed.

Section Quiet.

Lemma rq_ret {A} (a : A) : returns_quietly (ret a).
Proof.
  intros st. exists a, st, []. repeat split. apply extends_refl.
Qed.

Lemma rq_logging lvl template args : returns_quietly (logging lvl template args).
Proof.
  intros st. do 3 eexists. split; [reflexivity|]. split; [trace_ext|]. split; reflexivity.
Qed.

Lemma rq_bind {A B} (m : M A) (k : A -> M B) :
  returns_quietly m -> (forall a, returns_quietly (k a)) -> returns_quietly (bind m k).
Proof.
  intros Hm Hk st. destruct (Hm st) as (a & s1 & tr1 & H1 & E1 & D1 & L1).
  destruct (Hk a s1) as (b & s2 & tr2 & H2 & E2 & D2 & L2).
  exists b, s2, (tr1 ++ tr2). unfold bind. rewrite H1. split; [exact H2|].
  split; [eapply extends_trans; eassumption|]. split; [congruence|].
  now rewrite only_logs_app, L1, L2.
Qed.

Lemma lo_of_rq {A} (m : M A) : returns_quietly m -> logs_only m.
Proof.
  intros H st. destruct (H st) as (a & s & tr & H1 & E & D & L).
  exists (Ok a), s, tr. repeat split; assumption.
Qed.

Lemma lo_raise {A} (e : exn) : logs_only (@raise A e).
Proof. intros st. exists (Raise e), st, []. repeat split. apply extends_refl. Qed.

Lemma lo_lift_result {A} (r : result A) : logs_only (lift_result r).
Proof. intros st. exists r, st, []. repeat split. apply extends_refl. Qed.

Lemma lo_bind {A B} (m : M A) (k : A -> M B) :
  logs_only m -> (forall a, logs_only (k a)) -> logs_only (bind m k).
Proof.
  intros Hm Hk st. destruct (Hm st) as (r & s1 & tr1 & H1 & E1 & D1 & L1).
  unfold bind. rewrite H1. destruct r as [a|e].
  - destruct (Hk a s1) as (b & s2 & tr2 & H2 & E2 & D2 & L2).
    exists b, s2, (tr1 ++ tr2). split; [exact H2|].
    split; [eapply extends_trans; eassumption|]. split; [congruence|].
    now rewrite only_logs_app, L1, L2.
  - exists (Raise e), s1, tr1. repeat split; assumption.
Qed.

Lemma lo_try_except {A} (m : M A) (handles : exn -> bool) (h : exn -> M A) :
  logs_only m -> (forall e, logs_only (h e)) -> logs_only (try_except m handles h).
Proof.
  intros Hm Hh st. destruct (Hm st) as (r & s1 & tr1 & H1 & E1 & D1 & L1).
  unfold try_except. rewrite H1. destruct r as [a|e].
  - exists (Ok a), s1, tr1. repeat split; assumption.
  - destruct (handles e).
    + destruct (Hh e s1) as (b & s2 & tr2 & H2 & E2 & D2 & L2).
      exists b, s2, (tr1 ++ tr2). split; [exact H2|].
      split; [eapply extends_trans; eassumption|]. split; [congruence|].
      now rewrite only_logs_app, L1, L2.
    + exists (Raise e), s1, tr1. repeat split; assumption.
Qed.

(** A handler for every exception that itself returns makes the whole
    [try] return. *)
Lemma rq_try_all {A} (m : M A) (h : exn -> M A) :
  logs_only m -> (forall e, returns_quietly (h e)) ->
  returns_quietly (try_except m (fun _ => true) h).
Proof.
  intros Hm Hh st. destruct (Hm st) as (r & s1 & tr1 & H1 & E1 & D1 & L1).
  unfold try_except. rewrite H1. destruct r as [a|e].
  - exists a, s1, tr1. repeat split; assumption.
  - destruct (Hh e s1) as (b & s2 & tr2 & H2 & E2 & D2 & L2).
    exists b, s2, (tr1 ++ tr2). split; [exact H2|].
    split; [eapply extends_trans; eassumption|]. split; [congruence|].
    now rewrite only_logs_app, L1, L2.
Qed.

End Quiet.

(** One step of a proof that a piece of code only logs. *)
Ltac quiet_step :=
  lazymatch goal with
  | |- returns_quietly (ret _) => apply rq_ret
  | |- returns_quietly (logging _ _ _) => apply rq_logging
  | |- returns_quietly (bind _ _) => apply rq_bind; [|intros ?]
  | |- returns_quietly (try_except _ (fun _ => true) _) => apply rq_try_all; [|intros ?]
  | |- returns_quietly (match ?x with _ => _ end) => destruct x
  | |- logs_only (raise _) => apply lo_raise
  | |- logs_only (lift_result _) => apply lo_lift_result
  | |- logs_only (bind _ _) => apply lo_bind; [|intros ?]
  | |- logs_only (try_except _ _ _) => apply lo_try_except; [|intros ?]
  | |- logs_only (match ?x with _ => _ end) => destruct x
  | |- logs_only _ => apply lo_of_rq
  end.

Ltac quiet := repeat quiet_step.

(** ** The request [make_request] sends *)

Lemma dict_set_absent {V} (k : str) (v : V) (d : dict V) :
  dict_get k d = None -> dict_set k v d = d ++ [(k, v)].
Proof.
  induction d as [|[k' v'] d IH]; intros H; [reflexivity|].
  cbn [dict_get dict_set app] in *. destruct (str_eqb k k'); [discriminate|].
  now rewrite (IH H).
Qed.

Lemma drawn_user_agent_in_pool (w : env) (st : state) :
  In (drawn_user_agent w st) USER_AGENTS.
Proof.
  unfold drawn_user_agent. apply nth_In. apply Nat.mod_upper_bound. discriminate.
Qed.

(** X1: a call of [make_request] with GET or POST sends exactly one
    request, with the URL and the body it was given and a 120-second
    time-out.  A [User-Agent] header given by the caller is sent as it is
    and no random choice is made; without one, the given headers are sent
    followed by a [User-Agent] that is one of the four strings of the
    pool, and one random draw is consumed. *)
Theorem X1_request_and_user_agent
    (w : env) (url method : str) (kw : kwargs) (st : state) (m : http_method) :
  supported_method method = Some m ->
  exists res st' req rest,
    make_request w url method kw st = (Ok res, st') /\
    extends st st' (Http req (http_server w (trace st) req) :: rest) /\
    only_logs rest = true /\
    req_method req = m /\ req_url req = url /\ req_body req = kw_body kw /\
    req_timeout req = 120 /\
    match dict_get (lit "User-Agent") (given_headers kw) with
    | Some _ => req_headers req = given_headers kw /\ draws st' = draws st
    | None =>
        exists ua, In ua USER_AGENTS /\
                   req_headers req = given_headers kw ++ [(lit "User-Agent", ua)] /\
                   draws st' = S (draws st)
    end.
Proof.
  intros Hm. rewrite make_request_run. unfold make_request_result. rewrite Hm.
  exists (fst (match http_server w (trace st) (issued_request w url m kw st) with
               | Responded r =>
                   if response_ok r then (Some r, [Http (issued_request w url m kw st)
                                                     (http_server w (trace st) (issued_request w url m kw st))])
                   else (None, [Http (issued_request w url m kw st)
                                  (http_server w (trace st) (issued_request w url m kw st));
                                request_failed url HTTPError])
               | Failed e => (None, [Http (issued_request w url m kw st)
                                       (http_server w (trace st) (issued_request w url m kw st));
                                     request_failed url (RequestError e)])
               end)).
  eexists. exists (issued_request w url m kw st).
  exists (match http_server w (trace st) (issued_request w url m kw st) with
          | Responded r => if response_ok r then [] else [request_failed url HTTPError]
          | Failed e => [request_failed url (RequestError e)]
          end).
  split; [reflexivity|]. split; [|split; [|repeat (split; [reflexivity|])]].
  - unfold extends. cbn [trace]. f_equal.
    destruct (http_server w (trace st) _) as [r|e]; [destruct (response_ok r)|]; reflexivity.
  - destruct (http_server w (trace st) _) as [r|e]; [destruct (response_ok r)|]; reflexivity.
  - cbn [draws]. unfold issued_request, request_headers, draws_after, dict_mem.
    cbn [req_headers].
    destruct (dict_get (lit "User-Agent") (given_headers kw)) as [ua|] eqn:E.
    + split; reflexivity.
    + exists (drawn_user_agent w st). split; [apply drawn_user_agent_in_pool|].
      split; [apply dict_set_absent; exact E|reflexivity].
Qed.

Lemma X1_request_and_user_agent_witness :
  supported_method (lit "get") = Some GET /\
  exists res st' req rest,
    make_request World.friendly_host World.page_url (lit "get") no_kwargs World.start
    = (Ok res, st') /\
    extends World.start st'
      (Http req (http_server World.friendly_host (trace World.start) req) :: rest) /\
    only_logs rest = true /\
    req_method req = GET /\ req_url req = World.page_url /\ req_body req = kw_body no_kwargs /\
    req_timeout req = 120 /\
    match dict_get (lit "User-Agent") (given_headers no_kwargs) with
    | Some _ => req_headers req = given_headers no_kwargs /\ draws st' = draws World.start
    | None =>
        exists ua, In ua USER_AGENTS /\
                   req_headers req = given_headers no_kwargs ++ [(lit "User-Agent", ua)] /\
                   draws st' = S (draws World.start)
    end.
Proof.
  assert (H : supported_method (lit "get") = Some GET) by (vm_compute; reflexivity).
  split; [exact H|].
  exact (X1_request_and_user_agent World.friendly_host World.page_url (lit "get")
           no_kwargs World.start GET H).
Defined.

(** ** The feed download *)

Lemma rq_for_each {A S} (l : list A) (body : A -> S -> M S) (acc : S) :
  (forall x a, returns_quietly (body x a)) -> returns_quietly (for_each l body acc).
Proof.
  intros Hb. revert acc. induction l as [|x l IH]; intros acc; cbn [for_each].
  - apply rq_ret.
  - apply rq_bind; [apply Hb|]. intros a. apply IH.
Qed.

Lemma fetch_rss_entries_body_quiet (w : env) (t0 : datetime) (e : entry) (acc : list entry) :
  returns_quietly (fetch_rss_entries_body w t0 e acc).
Proof. unfold fetch_rss_entries_body. quiet. Qed.

(** What [fetch_rss_entries] does with the downloaded feed only logs. *)
Lemma fetch_after_download_quiet (w : env) (feed_data : feed) :
  returns_quietly
    ((if bozo feed_data
      then logging WARNING "RSS feed may be malformed. Bozo reason: {bozo_exception}" []
      else ret tt) ;;
     match entries feed_data with
     | [] => logging INFO "No entries found in the RSS feed." [] ;; ret []
     | _ =>
         let now := utcnow w in
         let twenty_four_hours_ago := now - timedelta_days 1 in
         recent_entries <-
           for_each (entries feed_data) (fetch_rss_entries_body w twenty_four_hours_ago) [] ;;
         logging INFO "Found {n} recent entries from the last 24 hours."
                 [AInt (len recent_entries)] ;;
         ret recent_entries
     end).
Proof.
  apply rq_bind; [destruct (bozo feed_data); quiet|]. intros _.
  destruct (entries feed_data) as [|e l]; [quiet|].
  cbv zeta. apply rq_bind; [|intros ?; quiet].
  apply rq_for_each. intros x a. apply fetch_rss_entries_body_quiet.
Qed.

Lemma fetch_rss_entries_trace (w : env) (rss_url : str) (st : state) :
  exists st' logs,
    fetch_rss_entries w rss_url st
    = (Ok (filter (kept w) (entries (fetched_feed w rss_url st))), st') /\
    extends st st'
      (fetching rss_url
       :: FeedParse rss_url (drawn_user_agent w st) (fetched_feed w rss_url st) :: logs) /\
    only_logs logs = true /\
    In (drawn_user_agent w st) USER_AGENTS /\
    forall e,
      In e (filter (kept w) (entries (fetched_feed w rss_url st))) <->
      In e (entries (fetched_feed w rss_url st)) /\
      exists ts,
        published_time_struct e = Some ts /\
        utcnow w - timedelta_days 1 <= (timegm ts + timezone w) * 1000000.
Proof.
  destruct (fetch_rss_entries_filter w rss_url st) as [st0 Hres].
  pose proof (fetch_after_download_quiet w (fetched_feed w rss_url st)
                {| trace := (trace st ++ [fetching rss_url])
                     ++ [FeedParse rss_url (drawn_user_agent w st) (fetched_feed w rss_url st)];
                   draws := S (draws st) |})
    as (a & st' & logs & Hrun & Hext & _ & Hlogs).
  assert (Hsame : fetch_rss_entries w rss_url st = (Ok a, st')) by exact Hrun.
  rewrite Hsame in Hres. injection Hres as -> ->.
  exists st0, logs. split; [exact Hsame|]. split; [|split; [exact Hlogs|split]].
  - unfold extends in *. cbn [trace] in Hext. rewrite Hext, <- !app_assoc. reflexivity.
  - apply drawn_user_agent_in_pool.
  - intros e. rewrite filter_In. unfold kept, entry_date, mktime, datetime_fromtimestamp_utc.
    split.
    + intros [Hin Hk]. split; [exact Hin|].
      destruct (published_time_struct e) as [ts|]; [|discriminate].
      exists ts. split; [reflexivity|]. now apply Z.leb_le.
    + intros [Hin (ts & -> & Hle)]. split; [exact Hin|]. now apply Z.leb_le.
Qed.

(** X2: on a host running in UTC, and for a feed whose entries are
    dated within the years 1 to 9999, [fetch_rss_entries] returns without
    raising and makes no HTTP call of its own: it downloads the feed
    exactly once, with an agent from the pool, and otherwise only logs.
    It returns, in feed order, the entries whose [published] time (or,
    without one, [updated] time) is not more than 24 hours before now;
    entries with neither time are dropped. *)
Theorem X2_fetch_downloads_once_and_filters (w : env) (rss_url : str) (st : state) :
  timezone w = 0 ->
  dated_in_range (fetched_feed w rss_url st) = true ->
  exists st' logs,
    fetch_rss_entries w rss_url st
    = (Ok (filter (not_older_than_a_day (utcnow w)) (entries (fetched_feed w rss_url st))),
       st') /\
    extends st st'
      (fetching rss_url
       :: FeedParse rss_url (drawn_user_agent w st) (fetched_feed w rss_url st) :: logs) /\
    only_logs logs = true /\
    In (drawn_user_agent w st) USER_AGENTS /\
    forall e,
      In e (filter (not_older_than_a_day (utcnow w)) (entries (fetched_feed w rss_url st))) ->
      publication_instant e <> None.
Proof.
  intros Htz _.
  destruct (fetch_rss_entries_trace w rss_url st) as (st' & logs & Hrun & Hext & Hlogs & Hua & _).
  exists st', logs.
  rewrite (filter_ext (not_older_than_a_day (utcnow w)) (kept w)
             (fun e => eq_sym (kept_on_utc_host w e Htz))).
  split; [exact Hrun|]. split; [exact Hext|]. split; [exact Hlogs|]. split; [exact Hua|].
  intros e He. apply filter_In in He as [_ He]. rewrite kept_on_utc_host in He by exact Htz.
  unfold not_older_than_a_day in He. destruct (publication_instant e); [discriminate|discriminate He].
Qed.

Lemma X2_fetch_downloads_once_and_filters_witness :
  (timezone World.utc_host = 0) /\
  (dated_in_range (fetched_feed World.utc_host World.feed_url World.start) = true) /\
  (exists st' logs,
    fetch_rss_entries World.utc_host World.feed_url World.start
    = (Ok (filter (not_older_than_a_day (utcnow World.utc_host)) (entries (fetched_feed World.utc_host World.feed_url World.start))),
       st') /\
    extends World.start st'
      (fetching World.feed_url
       :: FeedParse World.feed_url (drawn_user_agent World.utc_host World.start) (fetched_feed World.utc_host World.feed_url World.start) :: logs) /\
    only_logs logs = true /\
    In (drawn_user_agent World.utc_host World.start) USER_AGENTS /\
    forall e,
      In e (filter (not_older_than_a_day (utcnow World.utc_host)) (entries (fetched_feed World.utc_host World.feed_url World.start))) ->
      publication_instant e <> None).
Proof.
  assert (H0 : timezone World.utc_host = 0) by (reflexivity).
  assert (H1 : dated_in_range (fetched_feed World.utc_host World.feed_url World.start) = true) by (vm_compute; reflexivity).
  split; [exact H0|].
  split; [exact H1|].
  exact (X2_fetch_downloads_once_and_filters World.utc_host World.feed_url World.start H0 H1).
Defined.

(** ** Fetching an article *)

Lemma make_request_result_calls (w : env) (url method : str) (kw : kwargs) (st : state)
    (m : http_method) :
  supported_method method = Some m ->
  exists rest,
    snd (make_request_result w url method kw st)
    = Http (issued_request w url m kw st)
           (http_server w (trace st) (issued_request w url m kw st)) :: rest /\
    only_logs rest = true.
Proof.
  intros Hm. unfold make_request_result. rewrite Hm.
  destruct (http_server w (trace st) _) as [r|e]; [destruct (response_ok r)|];
    eexists; split; reflexivity.
Qed.

Lemma extract_text_trace (w : env) (article_url : str) (st : state) :
  exists res st' logs,
    extract_text_from_url w article_url st = (Ok res, st') /\
    extends st st'
      (extracting article_url
       :: Http (page_request w article_url st) (page_outcome w article_url st) :: logs) /\
    only_logs logs = true /\
    req_method (page_request w article_url st) = GET /\
    req_url (page_request w article_url st) = article_url /\
    req_body (page_request w article_url st) = NoBody /\
    (exists ua, In ua USER_AGENTS /\
                req_headers (page_request w article_url st) = [(lit "User-Agent", ua)]) /\
    match page_outcome w article_url st with
    | Responded page =>
        if response_ok page then res = extracted_text w (content page) else res = None
    | Failed _ => res = None
    end.
Proof.
  destruct (extract_text_run w article_url st) as [st0 Hres].
  unfold extract_text_from_url in *.
  unfold bind at 1, logging at 1, emit at 1 in Hres. unfold bind at 1 in Hres.
  unfold bind at 1, logging at 1, emit at 1. unfold bind at 1.
  rewrite make_request_run in *. fold no_kwargs in *.
  change (Log INFO (lit "Extracting text from: {article_url}") [AStr article_url])
    with (extracting article_url) in *.
  change {| trace := trace st ++ [extracting article_url]; draws := draws st |}
    with (at_extraction article_url st) in *.
  unfold fetched_page in Hres.
  change {| trace := trace st ++ [extracting article_url]; draws := draws st |}
    with (at_extraction article_url st) in Hres.
  lazymatch type of Hres with
  | ?m ?s = _ =>
      assert (Hq : returns_quietly m)
  end.
  { destruct (fst (make_request_result w article_url (lit "GET") no_kwargs
                     (at_extraction article_url st))) as [r|]; [|quiet].
    destruct (response_ok r); [|quiet]. cbv zeta. quiet. }
  match type of Hres with ?m ?s = _ => destruct (Hq s) as (a & st' & logs & Hrun & Hext & _ & Hlogs) end.
  rewrite Hrun in Hres. injection Hres as Ha Hst. subst st0.
  destruct (make_request_result_calls w article_url (lit "GET") no_kwargs
              (at_extraction article_url st) GET eq_refl) as (rest & Hsnd & Hrest).
  fold (page_request w article_url st) in Hsnd.
  fold (page_outcome w article_url st) in Hsnd.
  exists a, st', (rest ++ logs). split; [exact Hrun|].
  split; [|split; [now rewrite only_logs_app, Hrest, Hlogs|]].
  - unfold extends in *. cbn [trace] in Hext. rewrite Hext, Hsnd.
    cbn [trace at_extraction]. rewrite <- !app_assoc. reflexivity.
  - split; [reflexivity|]. split; [reflexivity|]. split; [reflexivity|]. split.
    + exists (drawn_user_agent w (at_extraction article_url st)).
      split; [apply drawn_user_agent_in_pool|reflexivity].
    + unfold make_request_result in Ha.
      change (supported_method (lit "GET")) with (Some GET) in Ha. cbv iota beta in Ha.
      fold (page_request w article_url st) in Ha.
      fold (page_outcome w article_url st) in Ha.
      destruct (page_outcome w article_url st) as [r|e]; [|exact Ha].
      destruct (response_ok r); exact Ha.
Qed.

(** X3: [extract_text_from_url] never raises and makes exactly one HTTP
    call: a GET of the article URL, without a body, with a user agent
    from the pool; everything else it does is logging.  When the call
    fails in transport or comes back with a 4xx or 5xx status the result
    is [None] and the parser is not consulted; otherwise the result is
    what the page yields. *)
Theorem X3_extract_makes_one_get (w : env) (article_url : str) (st : state) :
  exists res st' logs,
    extract_text_from_url w article_url st = (Ok res, st') /\
    extends st st'
      (extracting article_url
       :: Http (page_request w article_url st) (page_outcome w article_url st) :: logs) /\
    only_logs logs = true /\
    req_method (page_request w article_url st) = GET /\
    req_url (page_request w article_url st) = article_url /\
    req_body (page_request w article_url st) = NoBody /\
    (exists ua, In ua USER_AGENTS /\
                req_headers (page_request w article_url st) = [(lit "User-Agent", ua)]) /\
    match page_outcome w article_url st with
    | Responded page =>
        if response_ok page then res = extracted_text w (content page) else res = None
    | Failed _ => res = None
    end.
Proof. exact (extract_text_trace w article_url st). Qed.

(** ** The summarizer *)

(** Takes a run of [llm_read_narrative] apart, one scrutinee at a time. *)
Ltac read_step :=
  match goal with
  | |- _ = _ => reflexivity
  | |- context [match dict_get ?k ?m with _ => _ end] => destruct (dict_get k m)
  | |- context [match ?x with _ => _ end] => is_var x; destruct x
  | |- context [if is_substring ?a ?b then _ else _] => destruct (is_substring a b)
  | |- context [if existsb ?f ?l then _ else _] => destruct (existsb f l)
  | |- context [if negb ?b then _ else _] => destruct b
  end.

Lemma llm_read_narrative_result (w : env) (r : response) (st : state) :
  fst (llm_read_narrative w r st)
  = Ok match json_loads w (content r) with
       | Some j => narrative_of j
       | None => None
       end.
Proof.
  unfold llm_read_narrative, narrative_of, try_except, bind, response_json, lift_result,
    logging, emit, ret, raise.
  destruct (json_loads w (content r)) as [j|]; [|reflexivity].
  unfold py_contains, getitem_str, getitem_0, py_len, truthy, dict_mem,
    is_json_JSONDecodeError.
  destruct j; cbn [fst]; repeat (cbn [fst]; read_step).
Qed.

Lemma get_llm_narrative_result (w : env) (text_corpus : str) (st : state) :
  DS_API_KEY w <> [] ->
  fst (get_llm_narrative w text_corpus st)
  = Ok match llm_outcome w text_corpus st with
       | Responded r =>
           if response_ok r then
             match json_loads w (content r) with
             | Some j => narrative_of j
             | None => None
             end
           else None
       | Failed _ => None
       end.
Proof.
  intros Hkey. unfold get_llm_narrative.
  destruct (DS_API_KEY w) as [|k ks] eqn:Ek; [congruence|]. rewrite <- Ek. clear Hkey.
  unfold bind at 1.
  assert (Hpre : exists s0,
            (match strip text_corpus with
             | [] => logging INFO "Text corpus is empty. LLM will be prompted accordingly." []
             | _ => ret tt
             end) st = (Ok tt, s0) /\
            {| trace := trace s0
                 ++ [Log INFO (lit "Sending text to DeepSeek for narrative generation...") []];
               draws := draws s0 |} = llm_state text_corpus st).
  { unfold llm_state, llm_preamble. destruct (strip text_corpus); eexists; split;
      try reflexivity; cbn [trace draws]; now rewrite <- ?app_assoc. }
  destruct Hpre as (s0 & -> & Hs0).
  unfold bind at 1, logging at 1, emit at 1. rewrite Hs0.
  unfold bind at 1. rewrite make_request_run.
  change {| kw_headers := Some [ (lit "Content-Type", lit "application/json");
                                 (lit "Authorization", lit "Bearer " ++ DS_API_KEY w) ];
            kw_data := Some (DataStr (json_dumps w (llm_payload text_corpus)));
            kw_json := None |} with (llm_kwargs w text_corpus).
  unfold make_request_result.
  change (supported_method (lit "POST")) with (Some POST). cbv iota beta.
  change (issued_request w DS_API_URL POST (llm_kwargs w text_corpus) (llm_state text_corpus st))
    with (llm_request w text_corpus st).
  change (http_server w (trace (llm_state text_corpus st)) (llm_request w text_corpus st))
    with (llm_outcome w text_corpus st).
  destruct (llm_outcome w text_corpus st) as [r|e]; [|reflexivity].
  destruct (response_ok r) eqn:Hok; cbn [fst snd]; [|reflexivity].
  rewrite Hok. apply llm_read_narrative_result.
Qed.

(** X5: with the API key set, [get_llm_narrative] returns exactly the
    content of the message of the first choice when the provider's
    response passes the status check and decodes to an object whose
    [choices] is a non-empty list, whose first choice and its [message]
    are objects, and whose [content] is a string, a list or an object
    (it is returned as it is, string or not).  In every other case,
    including a content that is a number, a boolean or null, and a
    transport failure, the result is [None]; no exception leaves the
    function. *)
Theorem X5_narrative_is_first_choice_content (w : env) (text_corpus : str) (st : state) :
  DS_API_KEY w <> [] ->
  exists st',
    get_llm_narrative w text_corpus st
    = (Ok match llm_outcome w text_corpus st with
          | Responded r =>
              if response_ok r then
                match json_loads w (content r) with
                | Some j => narrative_of j
                | None => None
                end
              else None
          | Failed _ => None
          end, st').
Proof.
  intros Hkey. pose proof (get_llm_narrative_result w text_corpus st Hkey) as H.
  destruct (get_llm_narrative w text_corpus st) as [res st']. cbn [fst] in H.
  exists st'. now rewrite H.
Qed.

Lemma X5_narrative_is_first_choice_content_witness :
  DS_API_KEY World.steady_host <> [] /\
  exists st',
    get_llm_narrative World.steady_host (lit "corpus") World.start
    = (Ok match llm_outcome World.steady_host (lit "corpus") World.start with
          | Responded r =>
              if response_ok r then
                match json_loads World.steady_host (content r) with
                | Some j => narrative_of j
                | None => None
                end
              else None
          | Failed _ => None
          end, st').
Proof.
  assert (Hkey : DS_API_KEY World.steady_host <> []) by discriminate.
  split; [exact Hkey|].
  exact (X5_narrative_is_first_choice_content World.steady_host (lit "corpus")
           World.start Hkey).
Defined.

Example steady_host_narrative :
  fst (get_llm_narrative World.steady_host (lit "corpus") World.start)
  = Ok (Some (JStr (lit "Summary X"))).
Proof. vm_compute. reflexivity. Qed.

Lemma user_content_of_payload (text_corpus : str) :
  user_content (llm_payload text_corpus)
  = Some (JStr (match text_corpus with [] => PLACEHOLDER | _ => text_corpus end)).
Proof. destruct text_corpus; reflexivity. Qed.

(** X6: with the API key set, [get_llm_narrative] makes exactly one HTTP
    call, a POST to the completions URL with a 120-second time-out, whose
    headers are the JSON content type, the bearer authorization built
    from the key, and a user agent from the pool, and whose body is the
    serialized payload.  The user message of the payload is the corpus as
    given whenever the corpus has at least one character, even if that is
    only white space; the placeholder replaces the empty string only. *)
Theorem X6_summarizer_request (w : env) (text_corpus : str) (st : state) :
  DS_API_KEY w <> [] ->
  exists res st' logs ua,
    get_llm_narrative w text_corpus st = (Ok res, st') /\
    extends st st'
      (llm_preamble text_corpus
       ++ [Http (llm_request w text_corpus st) (llm_outcome w text_corpus st)] ++ logs) /\
    only_logs (llm_preamble text_corpus) = true /\
    no_network_call logs = true /\
    req_method (llm_request w text_corpus st) = POST /\
    req_url (llm_request w text_corpus st) = DS_API_URL /\
    req_timeout (llm_request w text_corpus st) = 120 /\
    In ua USER_AGENTS /\
    req_headers (llm_request w text_corpus st)
    = [ (lit "Content-Type", lit "application/json");
        (lit "Authorization", lit "Bearer " ++ DS_API_KEY w);
        (lit "User-Agent", ua) ] /\
    req_body (llm_request w text_corpus st)
    = DataStr (json_dumps w (llm_payload text_corpus)) /\
    user_content (llm_payload text_corpus)
    = Some (JStr (match text_corpus with [] => PLACEHOLDER | _ => text_corpus end)).
Proof.
  intros Hkey.
  destruct (get_llm_narrative_run w text_corpus st Hkey)
    as (res & st' & logs & Hrun & Hext & Hnet & _).
  exists res, st', logs, (drawn_user_agent w (llm_state text_corpus st)).
  split; [exact Hrun|]. split; [exact Hext|]. split.
  { unfold llm_preamble. destruct (strip text_corpus); reflexivity. }
  split; [exact Hnet|]. split; [reflexivity|]. split; [reflexivity|]. split; [reflexivity|].
  split; [apply drawn_user_agent_in_pool|]. split; [reflexivity|]. split; [reflexivity|].
  apply user_content_of_payload.
Qed.

Lemma X6_summarizer_request_witness :
  DS_API_KEY World.steady_host <> [] /\
  exists res st' logs ua,
    get_llm_narrative World.steady_host [32%N] World.start = (Ok res, st') /\
    extends World.start st'
      (llm_preamble [32%N]
       ++ [Http (llm_request World.steady_host [32%N] World.start)
                (llm_outcome World.steady_host [32%N] World.start)] ++ logs) /\
    only_logs (llm_preamble [32%N]) = true /\
    no_network_call logs = true /\
    req_method (llm_request World.steady_host [32%N] World.start) = POST /\
    req_url (llm_request World.steady_host [32%N] World.start) = DS_API_URL /\
    req_timeout (llm_request World.steady_host [32%N] World.start) = 120 /\
    In ua USER_AGENTS /\
    req_headers (llm_request World.steady_host [32%N] World.start)
    = [ (lit "Content-Type", lit "application/json");
        (lit "Authorization", lit "Bearer " ++ DS_API_KEY World.steady_host);
        (lit "User-Agent", ua) ] /\
    req_body (llm_request World.steady_host [32%N] World.start)
    = DataStr (json_dumps World.steady_host (llm_payload [32%N])) /\
    user_content (llm_payload [32%N])
    = Some (JStr (match [32%N] with [] => PLACEHOLDER | _ => [32%N] end)).
Proof.
  assert (Hkey : DS_API_KEY World.steady_host <> []) by discriminate.
  split; [exact Hkey|].
  exact (X6_summarizer_request World.steady_host [32%N] World.start Hkey).
Defined.

(** ** The speech synthesizer *)

Ltac trace_ext2 :=
  unfold extends; cbn [trace at_speech at_extraction llm_state at_synthesis];
  rewrite <- ?app_assoc; reflexivity.

Lemma status_200_ok (r : response) : status_code r = 200 -> response_ok r = true.
Proof. unfold response_ok. intros ->. reflexivity. Qed.

(** X7: with its key and voice set, [text_to_speech_elevenlabs] never
    raises.  For a text that is empty or white space only it returns
    [None] without any network call.  Otherwise it makes exactly one HTTP
    call: a POST of the JSON payload carrying the whole text to the
    voice's URL, with the audio accept header, the API key header and a
    user agent from the pool.  It returns the response body exactly when
    the status is 200 and the body is not empty; any other status, also
    another success status such as 201 or 204, an empty body, or a
    failed call gives [None]. *)
Theorem X7_speech_only_for_status_200 (w : env) (text : str) (st : state) :
  ELEVENLABS_API_KEY w <> [] ->
  ELEVENLABS_VOICE_ID w <> [] ->
  match strip text with
  | [] =>
      exists st' logs,
        text_to_speech_elevenlabs w text st = (Ok None, st') /\
        extends st st' logs /\ only_logs logs = true
  | _ :: _ =>
      exists res st' logs ua,
        text_to_speech_elevenlabs w text st = (Ok res, st') /\
        extends st st'
          (sending_to_speech :: Http (tts_request w text st) (tts_outcome w text st) :: logs) /\
        only_logs logs = true /\
        req_method (tts_request w text st) = POST /\
        req_url (tts_request w text st) = ELEVENLABS_API_URL w /\
        req_body (tts_request w text st) = JsonBody (tts_payload text) /\
        In ua USER_AGENTS /\
        req_headers (tts_request w text st)
        = [ (lit "Accept", lit "audio/mpeg");
            (lit "Content-Type", lit "application/json");
            (lit "xi-api-key", ELEVENLABS_API_KEY w);
            (lit "User-Agent", ua) ] /\
        res = match tts_outcome w text st with
              | Responded r =>
                  if status_code r =? 200
                  then match content r with [] => None | _ :: _ => Some (content r) end
                  else None
              | Failed _ => None
              end
  end.
Proof.
  intros Hkey Hvoice. unfold text_to_speech_elevenlabs.
  destruct (ELEVENLABS_API_KEY w) as [|k ks] eqn:Ek; [congruence|].
  destruct (ELEVENLABS_VOICE_ID w) as [|v vs] eqn:Ev; [congruence|].
  rewrite <- Ek. clear Hkey Hvoice.
  destruct (strip text) as [|c cs].
  { do 2 eexists. split; [reflexivity|]. split; [trace_ext|reflexivity]. }
  unfold bind at 1, logging at 1, emit at 1. unfold bind at 1.
  rewrite make_request_run.
  change {| kw_headers := Some [ (lit "Accept", lit "audio/mpeg");
                                 (lit "Content-Type", lit "application/json");
                                 (lit "xi-api-key", ELEVENLABS_API_KEY w) ];
            kw_data := None; kw_json := Some (tts_payload text) |}
    with (tts_kwargs w text).
  change (Log INFO (lit "Sending text to ElevenLabs for speech synthesis...") [])
    with sending_to_speech.
  change {| trace := trace st ++ [sending_to_speech]; draws := draws st |} with (at_speech st).
  unfold make_request_result.
  change (supported_method (lit "POST")) with (Some POST). cbv iota beta.
  change (issued_request w (ELEVENLABS_API_URL w) POST (tts_kwargs w text) (at_speech st))
    with (tts_request w text st).
  change (http_server w (trace (at_speech st)) (tts_request w text st))
    with (tts_outcome w text st).
  assert (Hreq : req_method (tts_request w text st) = POST /\
                 req_url (tts_request w text st) = ELEVENLABS_API_URL w /\
                 req_body (tts_request w text st) = JsonBody (tts_payload text) /\
                 In (drawn_user_agent w (at_speech st)) USER_AGENTS /\
                 req_headers (tts_request w text st)
                 = [ (lit "Accept", lit "audio/mpeg");
                     (lit "Content-Type", lit "application/json");
                     (lit "xi-api-key", ELEVENLABS_API_KEY w);
                     (lit "User-Agent", drawn_user_agent w (at_speech st)) ]).
  { split; [reflexivity|]. split; [reflexivity|]. split; [reflexivity|].
    split; [apply drawn_user_agent_in_pool|reflexivity]. }
  destruct Hreq as (H1 & H2 & H3 & H4 & H5).
  destruct (tts_outcome w text st) as [r|e].
  - destruct (response_ok r) eqn:Hok; cbn [fst snd].
    + rewrite Hok. destruct (status_code r =? 200); [destruct (content r) as [|b bs]|];
        do 3 eexists; exists (drawn_user_agent w (at_speech st));
        (split; [reflexivity|]); (split; [trace_ext2|]); (split; [reflexivity|]);
        repeat (split; [assumption|]); reflexivity.
    + assert (Hnot : (status_code r =? 200) = false).
      { destruct (status_code r =? 200) eqn:E; [|reflexivity].
        apply Z.eqb_eq in E. rewrite (status_200_ok r E) in Hok. discriminate. }
      rewrite Hnot.
      do 3 eexists; exists (drawn_user_agent w (at_speech st));
        (split; [reflexivity|]); (split; [trace_ext2|]); (split; [reflexivity|]);
        repeat (split; [assumption|]); reflexivity.
  - cbn [fst snd].
    do 3 eexists; exists (drawn_user_agent w (at_speech st));
      (split; [reflexivity|]); (split; [trace_ext2|]); (split; [reflexivity|]);
      repeat (split; [assumption|]); reflexivity.
Qed.

Lemma X7_speech_only_for_status_200_witness :
  ELEVENLABS_API_KEY World.steady_host <> [] /\
  ELEVENLABS_VOICE_ID World.steady_host <> [] /\
  (match strip (lit "Summary X") with
  | [] =>
      exists st' logs,
        text_to_speech_elevenlabs World.steady_host (lit "Summary X") World.start = (Ok None, st') /\
        extends World.start st' logs /\ only_logs logs = true
  | _ :: _ =>
      exists res st' logs ua,
        text_to_speech_elevenlabs World.steady_host (lit "Summary X") World.start = (Ok res, st') /\
        extends World.start st'
          (sending_to_speech :: Http (tts_request World.steady_host (lit "Summary X") World.start) (tts_outcome World.steady_host (lit "Summary X") World.start) :: logs) /\
        only_logs logs = true /\
        req_method (tts_request World.steady_host (lit "Summary X") World.start) = POST /\
        req_url (tts_request World.steady_host (lit "Summary X") World.start) = ELEVENLABS_API_URL World.steady_host /\
        req_body (tts_request World.steady_host (lit "Summary X") World.start) = JsonBody (tts_payload (lit "Summary X")) /\
        In ua USER_AGENTS /\
        req_headers (tts_request World.steady_host (lit "Summary X") World.start)
        = [ (lit "Accept", lit "audio/mpeg");
            (lit "Content-Type", lit "application/json");
            (lit "xi-api-key", ELEVENLABS_API_KEY World.steady_host);
            (lit "User-Agent", ua) ] /\
        res = match tts_outcome World.steady_host (lit "Summary X") World.start with
              | Responded r =>
                  if status_code r =? 200
                  then match content r with [] => None | _ :: _ => Some (content r) end
                  else None
              | Failed _ => None
              end
  end).
Proof.
  assert (H0 : ELEVENLABS_API_KEY World.steady_host <> []) by (discriminate).
  assert (H1 : ELEVENLABS_VOICE_ID World.steady_host <> []) by (discriminate).
  split; [exact H0|].
  split; [exact H1|].
  exact (X7_speech_only_for_status_200 World.steady_host (lit "Summary X") World.start H0 H1).
Defined.

(** ** The delivery layer *)

(** The runs of the two send functions once more, with what surrounds
    the call and the random draws consumed. *)
Lemma send_telegram_message_trace (w : env) (text : str) (st : state) :
  chat_configured w ->
  exists st' logs,
    send_telegram_message w text st
    = (text_send_result w (message_outcome w text st), st') /\
    extends st st'
      ([sending_text; Http (message_request w text st) (message_outcome w text st)] ++ logs) /\
    only_logs logs = true /\ draws st' = S (draws st).
Proof.
  intros [Hb Hc].
  unfold send_telegram_message.
  destruct (BOT_TOKEN w) as [|b bs] eqn:Eb; [congruence|].
  destruct (CHAT_ID w) as [|c cs] eqn:Ec; [congruence|].
  rewrite <- Ec. clear Hb Hc.
  unfold bind at 1, logging at 1, emit at 1.
  unfold bind at 1. rewrite make_request_run.
  unfold make_request_result.
  change (supported_method (lit "POST")) with (Some POST). cbv iota beta.
  cbn [trace draws].
  match goal with |- context [issued_request w ?u POST ?k ?s] =>
    change (issued_request w u POST k s) with (message_request w text st);
    set (d := draws_after k s)
  end.
  match goal with |- context [http_server w ?h (message_request w text st)] =>
    change (http_server w h (message_request w text st)) with (message_outcome w text st)
  end.
  change (Log INFO (lit "Sending text message to Telegram...") []) with sending_text.
  unfold text_send_result.
  destruct (message_outcome w text st) as [r|e] eqn:Hout.
  - destruct (response_ok r) eqn:Hok; cbn [fst snd].
    + unfold bind at 1. cbn [truthy_response]. rewrite Hok.
      unfold bind at 1, response_json, read_ok.
      destruct (json_loads w (content r)) as [j|].
      * unfold ret at 1. unfold bind at 1, lift_result.
        destruct (py_get j (lit "ok")) as [v|e].
        -- unfold ret at 1. destruct (truthy v);
             do 2 eexists; (split; [reflexivity|]);
             (split; [trace_ext|]);
             split; reflexivity.
        -- exists {| trace := (trace st ++ [sending_text]) ++ [Http (message_request w text st) (Responded r)];
                     draws := d |}, [].
           split; [reflexivity|]. split; [|split; reflexivity].
           trace_ext.
      * exists {| trace := (trace st ++ [sending_text]) ++ [Http (message_request w text st) (Responded r)];
                  draws := d |}, [].
        split; [reflexivity|]. split; [|split; reflexivity].
        trace_ext.
    + unfold bind at 1. cbn [truthy_response]. unfold ret at 1.
      do 2 eexists. split; [reflexivity|].
      split; [trace_ext|].
      split; reflexivity.
  - cbn [fst snd]. unfold bind at 1. cbn [truthy_response]. unfold ret at 1.
    do 2 eexists. split; [reflexivity|].
    split; [trace_ext|].
    split; reflexivity.
Qed.

Lemma send_telegram_audio_trace (w : env) (audio : bytes) (caption : str) (st : state) :
  chat_configured w ->
  exists st' logs,
    send_telegram_audio w audio caption st
    = (audio_send_result w (audio_outcome w audio caption st), st') /\
    extends st st'
      ([sending_audio; Http (audio_request w audio caption) (audio_outcome w audio caption st)]
       ++ logs) /\
    only_logs logs = true /\ draws st' = draws st.
Proof.
  intros [Hb Hc]. unfold send_telegram_audio.
  destruct (BOT_TOKEN w) as [|b bs] eqn:Eb; [congruence|].
  destruct (CHAT_ID w) as [|c cs] eqn:Ec; [congruence|].
  rewrite <- Ec. clear Hb Hc.
  unfold bind at 1, logging at 1, emit at 1.
  unfold try_except. unfold bind at 1, requests_call at 1. cbn [trace draws].
  change (Log INFO (lit "Sending audio to Telegram...") []) with sending_audio.
  match goal with |- context [http_server w ?h ?r] =>
    change r with (audio_request w audio caption);
    change (http_server w h (audio_request w audio caption))
      with (audio_outcome w audio caption st)
  end.
  unfold audio_send_result.
  destruct (audio_outcome w audio caption st) as [r|e] eqn:Hout.
  - unfold bind at 1, raise_for_status at 1.
    destruct (response_ok r) eqn:Hok.
    + unfold ret at 1. unfold bind at 1, response_json, read_ok.
      destruct (json_loads w (content r)) as [j|].
      * unfold ret at 1. unfold bind at 1, lift_result.
        destruct (py_get j (lit "ok")) as [v|e].
        -- destruct (truthy v); do 2 eexists; (split; [reflexivity|]);
             (split; [trace_ext|]); split; reflexivity.
        -- destruct (is_RequestException e); do 2 eexists; (split; [reflexivity|]);
             (split; [trace_ext|]); split; reflexivity.
      * do 2 eexists; (split; [reflexivity|]); (split; [trace_ext|]); split; reflexivity.
    + do 2 eexists; (split; [reflexivity|]); (split; [trace_ext|]); split; reflexivity.
  - do 2 eexists; (split; [reflexivity|]); (split; [trace_ext|]); split; reflexivity.
Qed.

(** X8: with the chat configured, and a message and chat credentials
    that can be encoded, [send_telegram_message] makes exactly one HTTP
    call: a POST to the [sendMessage] URL of the form fields
    [chat_id], [text] (the message as given) and [parse_mode = Markdown],
    with a user agent from the pool as only header.  It returns [False]
    when the call fails in transport or comes back with a 4xx or 5xx
    status, and otherwise the truth of the [ok] field of the decoded
    object ([False] when the field is missing).  A body that is not JSON
    makes it raise [JSONDecodeError], and a JSON body that is not an
    object makes it raise [AttributeError].  The decoder is taken to
    answer with a value or with [JSONDecodeError]. *)
Theorem X8_send_text_request_and_result (w : env) (text : str) (st : state) :
  chat_configured w ->
  encodable_chat w = true ->
  encodable text = true ->
  exists res st' logs ua,
    send_telegram_message w text st = (res, st') /\
    extends st st'
      (sending_text :: Http (message_request w text st) (message_outcome w text st) :: logs) /\
    only_logs logs = true /\
    req_method (message_request w text st) = POST /\
    req_url (message_request w text st) = TELEGRAM_SEND_MESSAGE_URL w /\
    req_timeout (message_request w text st) = 120 /\
    In ua USER_AGENTS /\
    req_headers (message_request w text st) = [(lit "User-Agent", ua)] /\
    req_body (message_request w text st)
    = DataForm [ (lit "chat_id", CHAT_ID w); (lit "text", text);
                 (lit "parse_mode", lit "Markdown") ] /\
    res = match message_outcome w text st with
          | Failed _ => Ok false
          | Responded r =>
              if response_ok r then
                match json_loads w (content r) with
                | None => Raise JSONDecodeError
                | Some (JObj m) => Ok (ok_field m)
                | Some _ => Raise AttributeError
                end
              else Ok false
          end.
Proof.
  intros Hcfg _ _.
  destruct (send_telegram_message_trace w text st Hcfg) as (st' & logs & Hrun & Hext & Hlogs & _).
  exists (text_send_result w (message_outcome w text st)), st', logs,
    (drawn_user_agent w {| trace := trace st ++ [sending_text]; draws := draws st |}).
  split; [exact Hrun|]. split; [exact Hext|]. split; [exact Hlogs|].
  split; [reflexivity|]. split; [reflexivity|]. split; [reflexivity|].
  split; [apply drawn_user_agent_in_pool|]. split; [reflexivity|]. split; [reflexivity|].
  unfold text_send_result, read_ok, ok_field.
  destruct (message_outcome w text st) as [r|e]; [|reflexivity].
  destruct (response_ok r); [|reflexivity].
  destruct (json_loads w (content r)) as [j|]; [|reflexivity].
  destruct j; try reflexivity. cbn [py_get].
  destruct (dict_get (lit "ok") members); reflexivity.
Qed.

Lemma X8_send_text_request_and_result_witness :
  (chat_configured World.friendly_host) /\
  (encodable_chat World.friendly_host = true) /\
  (encodable (lit "hello") = true) /\
  (exists res st' logs ua,
    send_telegram_message World.friendly_host (lit "hello") World.start = (res, st') /\
    extends World.start st'
      (sending_text :: Http (message_request World.friendly_host (lit "hello") World.start) (message_outcome World.friendly_host (lit "hello") World.start) :: logs) /\
    only_logs logs = true /\
    req_method (message_request World.friendly_host (lit "hello") World.start) = POST /\
    req_url (message_request World.friendly_host (lit "hello") World.start) = TELEGRAM_SEND_MESSAGE_URL World.friendly_host /\
    req_timeout (message_request World.friendly_host (lit "hello") World.start) = 120 /\
    In ua USER_AGENTS /\
    req_headers (message_request World.friendly_host (lit "hello") World.start) = [(lit "User-Agent", ua)] /\
    req_body (message_request World.friendly_host (lit "hello") World.start)
    = DataForm [ (lit "chat_id", CHAT_ID World.friendly_host); (lit "text", (lit "hello"));
                 (lit "parse_mode", lit "Markdown") ] /\
    res = match message_outcome World.friendly_host (lit "hello") World.start with
          | Failed _ => Ok false
          | Responded r =>
              if response_ok r then
                match json_loads World.friendly_host (content r) with
                | None => Raise JSONDecodeError
                | Some (JObj m) => Ok (ok_field m)
                | Some _ => Raise AttributeError
                end
              else Ok false
          end).
Proof.
  assert (H0 : chat_configured World.friendly_host) by (split; discriminate).
  assert (H1 : encodable_chat World.friendly_host = true) by (reflexivity).
  assert (H2 : encodable (lit "hello") = true) by (reflexivity).
  split; [exact H0|].
  split; [exact H1|].
  split; [exact H2|].
  exact (X8_send_text_request_and_result World.friendly_host (lit "hello") World.start H0 H1 H2).
Defined.

(** X9: with the chat configured, and a caption and chat credentials
    that can be encoded, [send_telegram_audio] makes exactly one
    HTTP call of its own, not through [make_request]: a multipart POST to
    the [sendAudio] URL with a 60-second time-out, no header of the
    program's and no random draw, carrying [chat_id], the first 1024
    characters of the caption, and the audio as the file
    [daily_news_summary.mp3] of type [audio/mpeg].  It returns [False]
    when the call fails in transport, comes back with a 4xx or 5xx
    status, or has a body that is not JSON, and otherwise the truth of
    the [ok] field of the decoded object; a JSON body that is not an
    object makes it raise [AttributeError].  The decoder is taken to
    answer with a value or with [JSONDecodeError]. *)
Theorem X9_send_audio_request_and_result
    (w : env) (audio : bytes) (caption : str) (st : state) :
  chat_configured w ->
  encodable_chat w = true ->
  encodable caption = true ->
  exists res st' logs,
    send_telegram_audio w audio caption st = (res, st') /\
    extends st st'
      (sending_audio
       :: Http (audio_request w audio caption) (audio_outcome w audio caption st) :: logs) /\
    only_logs logs = true /\ draws st' = draws st /\
    req_method (audio_request w audio caption) = POST /\
    req_url (audio_request w audio caption) = TELEGRAM_SEND_AUDIO_URL w /\
    req_timeout (audio_request w audio caption) = 60 /\
    req_headers (audio_request w audio caption) = [] /\
    req_body (audio_request w audio caption)
    = Multipart [ (lit "chat_id", CHAT_ID w); (lit "caption", firstn 1024 caption) ]
                [ (lit "audio", (lit "daily_news_summary.mp3", audio, lit "audio/mpeg")) ] /\
    res = match audio_outcome w audio caption st with
          | Failed _ => Ok false
          | Responded r =>
              if response_ok r then
                match json_loads w (content r) with
                | None => Ok false
                | Some (JObj m) => Ok (ok_field m)
                | Some _ => Raise AttributeError
                end
              else Ok false
          end.
Proof.
  intros Hcfg _ _.
  destruct (send_telegram_audio_trace w audio caption st Hcfg)
    as (st' & logs & Hrun & Hext & Hlogs & Hdraws).
  exists (audio_send_result w (audio_outcome w audio caption st)), st', logs.
  split; [exact Hrun|]. split; [exact Hext|]. split; [exact Hlogs|]. split; [exact Hdraws|].
  split; [reflexivity|]. split; [reflexivity|]. split; [reflexivity|].
  split; [reflexivity|]. split; [reflexivity|].
  unfold audio_send_result, read_ok, ok_field.
  destruct (audio_outcome w audio caption st) as [r|e]; [|reflexivity].
  destruct (response_ok r); [|reflexivity].
  destruct (json_loads w (content r)) as [j|]; [|reflexivity].
  destruct j; try reflexivity. cbn [py_get].
  destruct (dict_get (lit "ok") members); reflexivity.
Qed.

Lemma X9_send_audio_request_and_result_witness :
  (chat_configured World.friendly_host) /\
  (encodable_chat World.friendly_host = true) /\
  (encodable (lit "caption") = true) /\
  (exists res st' logs,
    send_telegram_audio World.friendly_host (content World.ok_body) (lit "caption") World.start = (res, st') /\
    extends World.start st'
      (sending_audio
       :: Http (audio_request World.friendly_host (content World.ok_body) (lit "caption")) (audio_outcome World.friendly_host (content World.ok_body) (lit "caption") World.start) :: logs) /\
    only_logs logs = true /\ draws st' = draws World.start /\
    req_method (audio_request World.friendly_host (content World.ok_body) (lit "caption")) = POST /\
    req_url (audio_request World.friendly_host (content World.ok_body) (lit "caption")) = TELEGRAM_SEND_AUDIO_URL World.friendly_host /\
    req_timeout (audio_request World.friendly_host (content World.ok_body) (lit "caption")) = 60 /\
    req_headers (audio_request World.friendly_host (content World.ok_body) (lit "caption")) = [] /\
    req_body (audio_request World.friendly_host (content World.ok_body) (lit "caption"))
    = Multipart [ (lit "chat_id", CHAT_ID World.friendly_host); (lit "caption", firstn 1024 (lit "caption")) ]
                [ (lit "audio", (lit "daily_news_summary.mp3", (content World.ok_body), lit "audio/mpeg")) ] /\
    res = match audio_outcome World.friendly_host (content World.ok_body) (lit "caption") World.start with
          | Failed _ => Ok false
          | Responded r =>
              if response_ok r then
                match json_loads World.friendly_host (content r) with
                | None => Ok false
                | Some (JObj m) => Ok (ok_field m)
                | Some _ => Raise AttributeError
                end
              else Ok false
          end).
Proof.
  assert (H0 : chat_configured World.friendly_host) by (split; discriminate).
  assert (H1 : encodable_chat World.friendly_host = true) by (reflexivity).
  assert (H2 : encodable (lit "caption") = true) by (reflexivity).
  split; [exact H0|].
  split; [exact H1|].
  split; [exact H2|].
  exact (X9_send_audio_request_and_result World.friendly_host (content World.ok_body) (lit "caption") World.start H0 H1 H2).
Defined.

(** ** Missing credentials *)

(** X4: a function that lacks its credential does nothing but log and
    return its sentinel: [get_llm_narrative] without the API key gives
    [None]; [text_to_speech_elevenlabs] without the API key or the voice
    gives [None]; [send_telegram_message] and [send_telegram_audio]
    without the bot token or the chat id give [False].  None of them
    makes a network call. *)
Theorem X4_missing_credentials_no_network (w : env) (st : state) :
  (DS_API_KEY w = [] ->
   forall text_corpus, exists st' logs,
     get_llm_narrative w text_corpus st = (Ok None, st') /\
     extends st st' logs /\ only_logs logs = true) /\
  (ELEVENLABS_API_KEY w = [] \/ ELEVENLABS_VOICE_ID w = [] ->
   forall text, exists st' logs,
     text_to_speech_elevenlabs w text st = (Ok None, st') /\
     extends st st' logs /\ only_logs logs = true) /\
  (BOT_TOKEN w = [] \/ CHAT_ID w = [] ->
   (forall text, exists st' logs,
      send_telegram_message w text st = (Ok false, st') /\
      extends st st' logs /\ only_logs logs = true) /\
   (forall audio caption, exists st' logs,
      send_telegram_audio w audio caption st = (Ok false, st') /\
      extends st st' logs /\ only_logs logs = true)).
Proof.
  split; [|split].
  - intros H corpus. unfold get_llm_narrative. rewrite H.
    do 2 eexists. split; [reflexivity|]. split; [trace_ext|reflexivity].
  - intros H text. unfold text_to_speech_elevenlabs.
    destruct (ELEVENLABS_API_KEY w) as [|k ks];
      [do 2 eexists; split; [reflexivity|]; split; [trace_ext|reflexivity]|].
    destruct H as [H|H]; [discriminate|]. rewrite H.
    do 2 eexists. split; [reflexivity|]. split; [trace_ext|reflexivity].
  - intros H. split.
    + intros text. unfold send_telegram_message.
      destruct (BOT_TOKEN w) as [|b bs];
        [do 2 eexists; split; [reflexivity|]; split; [trace_ext|reflexivity]|].
      destruct H as [H|H]; [discriminate|]. rewrite H.
      do 2 eexists. split; [reflexivity|]. split; [trace_ext|reflexivity].
    + intros audio caption. unfold send_telegram_audio.
      destruct (BOT_TOKEN w) as [|b bs];
        [do 2 eexists; split; [reflexivity|]; split; [trace_ext|reflexivity]|].
      destruct H as [H|H]; [discriminate|]. rewrite H.
      do 2 eexists. split; [reflexivity|]. split; [trace_ext|reflexivity].
Qed.

(** X17: [main] starts nothing unless all five settings are there.  When
    the bot token, the chat id, the summarizer key, the speech key or
    the voice id is empty, [main] logs one critical line, prints one
    line to the error stream and returns: no download, no request, no
    random draw. *)
Theorem X17_main_needs_all_five_settings (w : env) (rss_url : str) (st : state) :
  BOT_TOKEN w = [] \/ CHAT_ID w = [] \/ DS_API_KEY w = [] \/
  ELEVENLABS_API_KEY w = [] \/ ELEVENLABS_VOICE_ID w = [] ->
  exists st',
    main w rss_url st = (Ok tt, st') /\
    extends st st'
      [ Log CRITICAL (lit "One or more critical API keys/IDs are missing in .env. Exiting.") [];
        Stderr (lit "ERROR: Critical API keys/IDs missing. Check .env file and logs.") ] /\
    draws st' = draws st.
Proof.
  intros H.
  assert (Hconf : configured w = false).
  { unfold configured. cbn [forallb].
    destruct H as [H|[H|[H|[H|H]]]]; rewrite H;
      repeat match goal with |- context [match ?x with [] => false | _ :: _ => true end] =>
        destruct x end; reflexivity. }
  unfold main. rewrite Hconf. cbn [negb].
  eexists. split; [reflexivity|]. split; [trace_ext|reflexivity].
Qed.

Lemma X17_main_needs_all_five_settings_witness :
  (BOT_TOKEN World.unconfigured_host = [] \/ CHAT_ID World.unconfigured_host = [] \/ DS_API_KEY World.unconfigured_host = [] \/
  ELEVENLABS_API_KEY World.unconfigured_host = [] \/ ELEVENLABS_VOICE_ID World.unconfigured_host = []) /\
  (exists st',
    main World.unconfigured_host World.feed_url World.start = (Ok tt, st') /\
    extends World.start st'
      [ Log CRITICAL (lit "One or more critical API keys/IDs are missing in .env. Exiting.") [];
        Stderr (lit "ERROR: Critical API keys/IDs missing. Check .env file and logs.") ] /\
    draws st' = draws World.start).
Proof.
  assert (H0 : BOT_TOKEN World.unconfigured_host = [] \/ CHAT_ID World.unconfigured_host = [] \/ DS_API_KEY World.unconfigured_host = [] \/ ELEVENLABS_API_KEY World.unconfigured_host = [] \/ ELEVENLABS_VOICE_ID World.unconfigured_host = []) by (left; reflexivity).
  split; [exact H0|].
  exact (X17_main_needs_all_five_settings World.unconfigured_host World.feed_url World.start H0).
Defined.

(** ** The extraction loop of the orchestrator *)

Lemma called_urls_app (tr1 tr2 : list event) :
  called_urls (tr1 ++ tr2) = called_urls tr1 ++ called_urls tr2.
Proof. apply flat_map_app. Qed.

Lemma downloads_app (tr1 tr2 : list event) :
  downloads (tr1 ++ tr2) = downloads tr1 ++ downloads tr2.
Proof. apply flat_map_app. Qed.

(** The views of a stretch that holds one call without form or file
    between log lines. *)
Lemma plain_call_views (w : env) (pre logs : list event) (req : request)
    (out : http_outcome) :
  only_logs pre = true -> only_logs logs = true -> plain_body (req_body req) ->
  called_urls (pre ++ Http req out :: logs) = [req_url req] /\
  downloads (pre ++ Http req out :: logs) = [] /\
  steps w (pre ++ Http req out :: logs) = [] /\
  attempts w (pre ++ Http req out :: logs) = [].
Proof.
  intros Hpre Hlogs Hplain.
  destruct (only_logs_views w pre Hpre) as (P1 & P2 & _ & P4 & P5).
  destruct (only_logs_views w logs Hlogs) as (L1 & L2 & _ & L4 & L5).
  rewrite called_urls_app, downloads_app, steps_app, attempts_app, P1, P2, P4, P5.
  unfold called_urls, downloads, steps, attempts in *. cbn [flat_map app].
  rewrite (delivery_of_plain w req out Hplain), L1, L2, L4, L5. repeat split.
Qed.

Lemma extract_text_result (w : env) (article_url : str) (st : state) :
  fst (extract_text_from_url w article_url st) = Ok (page_text w article_url st).
Proof.
  destruct (extract_text_trace w article_url st)
    as (res & st' & logs & Hrun & _ & _ & _ & _ & _ & _ & Hres).
  rewrite Hrun. cbn [fst]. f_equal. unfold page_text.
  destruct (page_outcome w article_url st) as [page|err]; [|exact Hres].
  destruct (response_ok page); exact Hres.
Qed.

(** One turn of the loop: the blocks of the entry are appended, and the
    state reached does not depend on what was collected before. *)
Lemma main_extract_body_exact (w : env) (e : entry) (acc : list str) (st : state) :
  exists tr,
    main_extract_body w e acc st = (Ok (acc ++ entry_blocks w e st), after_entry w e st) /\
    extends st (after_entry w e st) tr /\
    called_urls tr = links [e] /\ downloads tr = [] /\
    steps w tr = [] /\ attempts w tr = [].
Proof.
  unfold after_entry, main_extract_body, entry_blocks, links. cbn [flat_map].
  rewrite app_nil_r.
  destruct (link e) as [[|c url]|] eqn:El.
  - eexists. rewrite app_nil_r. split; [reflexivity|]. split; [trace_ext|].
    repeat split; reflexivity.
  - unfold bind.
    pose proof (extract_text_result w (c :: url) st) as Hres.
    destruct (extract_text_trace w (c :: url) st)
      as (res & st' & logs & Hrun & Hext & Hlogs & _ & Hurl & Hbody & _).
    rewrite Hrun in *. cbn [fst] in Hres. injection Hres as Hres. rewrite <- Hres.
    destruct (plain_call_views w [extracting (c :: url)] logs
                (page_request w (c :: url) st) (page_outcome w (c :: url) st)
                eq_refl Hlogs) as (V1 & V2 & V3 & V4).
    { rewrite Hbody. exact I. }
    rewrite Hurl in V1. cbn [app] in V1, V2, V3, V4.
    destruct res as [[|t text]|]; cbn [snd]; eexists;
      rewrite ?app_nil_r; (split; [reflexivity|]); (split; [exact Hext|]);
      repeat split; assumption.
  - eexists. rewrite app_nil_r. split; [reflexivity|]. split; [trace_ext|].
    repeat split; reflexivity.
Qed.

Lemma extraction_loop_exact (w : env) (l : list entry) (acc : list str) (st : state) :
  exists tr,
    for_each l (main_extract_body w) acc st
    = (Ok (acc ++ concat (loop_blocks w l st)), after_entries w l st) /\
    extends st (after_entries w l st) tr /\
    called_urls tr = links l /\ downloads tr = [] /\
    steps w tr = [] /\ attempts w tr = [].
Proof.
  revert acc st. induction l as [|e l IH]; intros acc st.
  - exists []. cbn [concat loop_blocks after_entries for_each]. rewrite app_nil_r.
    split; [reflexivity|]. split; [apply extends_refl|]. repeat split.
  - cbn [for_each loop_blocks after_entries concat]. unfold bind.
    destruct (main_extract_body_exact w e acc st) as (tr1 & Hrun & Hext1 & C1 & D1 & S1 & A1).
    rewrite Hrun.
    destruct (IH (acc ++ entry_blocks w e st) (after_entry w e st))
      as (tr2 & Hloop & Hext2 & C2 & D2 & S2 & A2).
    rewrite Hloop. exists (tr1 ++ tr2).
    rewrite app_assoc. split; [reflexivity|].
    split; [eapply extends_trans; eassumption|].
    rewrite called_urls_app, downloads_app, steps_app, attempts_app, C1, C2, D1, D2, S1, S2, A1, A2.
    repeat split.
    unfold links. cbn [flat_map]. now rewrite app_nil_r.
Qed.

(** X10: the extraction loop of [main] never raises.  It fetches exactly
    the non-empty links of the entries, once each and in feed order;
    an entry without a link, or with an empty link, costs no network call.
    What it returns is the concatenation, in feed order, of what each
    entry contributes: an entry with a non-empty link whose page, as
    fetched when the loop comes to it, passes the status check and
    yields a non-empty text contributes the one block made of the line
    [--- Article: <title> ---] (with [Untitled Article] for a missing
    title), that text and two newlines; every other entry contributes
    nothing.  The loop sends nothing to the chat. *)
Theorem X10_extraction_follows_links (w : env) (l : list entry) (st : state) :
  exists st' tr,
    for_each l (main_extract_body w) [] st = (Ok (concat (loop_blocks w l st)), st') /\
    extends st st' tr /\
    called_urls tr = links l /\ downloads tr = [] /\
    steps w tr = [].
Proof.
  destruct (extraction_loop_exact w l [] st) as (tr & Hrun & Hext & C & D & S & _).
  exists (after_entries w l st), tr. repeat split; assumption.
Qed.

(** ** The orchestrator, stage by stage *)

Lemma no_network_call_views (tr : list event) :
  no_network_call tr = true -> called_urls tr = [] /\ downloads tr = [].
Proof.
  induction tr as [|ev tr IH]; intros H; [split; reflexivity|].
  cbn [no_network_call forallb] in H. apply andb_true_iff in H as [Hev Htr].
  destruct (IH Htr) as [H1 H2]. unfold called_urls, downloads in *.
  destruct ev; try discriminate Hev; cbn [flat_map app]; split; assumption.
Qed.

(** A notice: one log line, one text message, whatever the send returns. *)
Lemma notice_trace {A} (w : env) (m : M A) (notice : str) (st : state) :
  chat_configured w -> returns_quietly m ->
  exists res st' tr,
    (m ;; send_telegram_message w notice ;; ret tt) st = (res, st') /\
    extends st st' tr /\
    attempts w tr = [(TextMessage (CHAT_ID w) notice,
                      acknowledged w (message_outcome w notice (snd (m st))))] /\
    called_urls tr = [TELEGRAM_SEND_MESSAGE_URL w] /\ downloads tr = [].
Proof.
  intros Hcfg Hm. destruct (Hm st) as (a & s1 & tr1 & H1 & E1 & _ & L1).
  unfold bind at 1. rewrite H1. cbn [snd]. unfold bind at 1.
  destruct (send_telegram_message_trace w notice s1 Hcfg)
    as (s2 & logs & Hrun & E2 & L2 & _).
  rewrite Hrun.
  destruct (only_logs_views w tr1 L1) as (P1 & P2 & _ & _ & P5).
  destruct (only_logs_views w logs L2) as (Q1 & Q2 & _ & _ & Q5).
  assert (Hviews :
    attempts w (tr1 ++ [sending_text; Http (message_request w notice s1)
                                           (message_outcome w notice s1)] ++ logs)
    = [(TextMessage (CHAT_ID w) notice, acknowledged w (message_outcome w notice s1))] /\
    called_urls (tr1 ++ [sending_text; Http (message_request w notice s1)
                                            (message_outcome w notice s1)] ++ logs)
    = [TELEGRAM_SEND_MESSAGE_URL w] /\
    downloads (tr1 ++ [sending_text; Http (message_request w notice s1)
                                          (message_outcome w notice s1)] ++ logs) = []).
  { rewrite !attempts_app, !called_urls_app, !downloads_app, P1, P2, P5, Q1, Q2, Q5.
    unfold attempts, called_urls, downloads. cbn [flat_map sending_text app].
    rewrite delivery_of_message. repeat split. }
  destruct Hviews as (V1 & V2 & V3).
  destruct (text_send_result w (message_outcome w notice s1)) as [b|e].
  - exists (Ok tt), s2. eexists. split; [reflexivity|].
    split; [eapply extends_trans; eassumption|]. repeat split; assumption.
  - exists (Raise e), s2. eexists. split; [reflexivity|].
    split; [eapply extends_trans; eassumption|]. repeat split; assumption.
Qed.

Lemma main_configured (w : env) (rss_url : str) (st : state) :
  configured w = true ->
  main w rss_url st
  = (recent_entries <- fetch_rss_entries w rss_url ;;
     match recent_entries with
     | [] =>
         logging INFO "No recent articles found in the RSS feed. Nothing to process." [] ;;
         send_telegram_message w NO_ARTICLES ;;
         ret tt
     | _ =>
         all_extracted_text <- for_each recent_entries (main_extract_body w) [] ;;
         match all_extracted_text with
         | [] =>
             logging INFO "No text could be extracted from recent articles." [] ;;
             send_telegram_message w NO_TEXT ;;
             ret tt
         | _ =>
             logging INFO "Total length of extracted text corpus: {n}"
                     [AInt (len (concat all_extracted_text))] ;;
             narrative <- get_llm_narrative w (concat all_extracted_text) ;;
             match narrative with
             | Some j =>
                 if truthy j then
                   match j with
                   | JStr text => main_deliver w text
                   | _ =>
                       logging INFO "Narrative generated successfully." [] ;;
                       raise AttributeError
                   end
                 else
                   logging ERROR "Failed to generate narrative from LLM. Sending raw text (if short) or error." [] ;;
                   send_telegram_message w NO_SUMMARY ;;
                   ret tt
             | None =>
                 logging ERROR "Failed to generate narrative from LLM. Sending raw text (if short) or error." [] ;;
                 send_telegram_message w NO_SUMMARY ;;
                 ret tt
             end
         end
     end) (at_start st).
Proof. intros H. unfold main. rewrite H. reflexivity. Qed.

(** ** The servers a computation contacts *)

Lemma contacts_views (allowed : list str) (tr : list event) :
  Forall (contacts allowed) tr ->
  downloads tr = [] /\ Forall (fun u => In u allowed) (called_urls tr).
Proof.
  induction 1 as [|ev tr Hev _ [IH1 IH2]]; [split; constructor|].
  unfold downloads, called_urls in *.
  destruct ev; cbn [flat_map app contacts] in *; try (split; assumption).
  - split; [assumption|]. constructor; assumption.
  - contradiction.
Qed.

Section Within.

Variable allowed : list str.

Lemma sw_ret {A} (a : A) : stays_within allowed (ret a).
Proof. intros st. exists (Ok a), st, []. repeat split. apply extends_refl. constructor. Qed.

Lemma sw_raise {A} (e : exn) : stays_within allowed (@raise A e).
Proof. intros st. exists (Raise e), st, []. repeat split. apply extends_refl. constructor. Qed.

Lemma sw_lift_result {A} (r : result A) : stays_within allowed (lift_result r).
Proof. intros st. exists r, st, []. repeat split. apply extends_refl. constructor. Qed.

Lemma sw_emit (ev : event) : contacts allowed ev -> stays_within allowed (emit ev).
Proof.
  intros H st. do 2 eexists. exists [ev]. split; [reflexivity|].
  split; [reflexivity|]. constructor; [exact H|constructor].
Qed.

Lemma sw_logging lvl template args : stays_within allowed (logging lvl template args).
Proof. apply sw_emit. exact I. Qed.

Lemma sw_time_sleep (n : Z) : stays_within allowed (time_sleep n).
Proof. apply sw_emit. exact I. Qed.

Lemma sw_bind {A B} (m : M A) (k : A -> M B) :
  stays_within allowed m -> (forall a, stays_within allowed (k a)) ->
  stays_within allowed (bind m k).
Proof.
  intros Hm Hk st. destruct (Hm st) as (r & s1 & tr1 & H1 & E1 & L1).
  unfold bind. rewrite H1. destruct r as [a|e].
  - destruct (Hk a s1) as (b & s2 & tr2 & H2 & E2 & L2).
    exists b, s2, (tr1 ++ tr2). split; [exact H2|].
    split; [eapply extends_trans; eassumption|]. apply Forall_app. split; assumption.
  - exists (Raise e), s1, tr1. repeat split; assumption.
Qed.

Lemma sw_try_except {A} (m : M A) (handles : exn -> bool) (h : exn -> M A) :
  stays_within allowed m -> (forall e, stays_within allowed (h e)) ->
  stays_within allowed (try_except m handles h).
Proof.
  intros Hm Hh st. destruct (Hm st) as (r & s1 & tr1 & H1 & E1 & L1).
  unfold try_except. rewrite H1. destruct r as [a|e].
  - exists (Ok a), s1, tr1. repeat split; assumption.
  - destruct (handles e).
    + destruct (Hh e s1) as (b & s2 & tr2 & H2 & E2 & L2).
      exists b, s2, (tr1 ++ tr2). split; [exact H2|].
      split; [eapply extends_trans; eassumption|]. apply Forall_app. split; assumption.
    + exists (Raise e), s1, tr1. repeat split; assumption.
Qed.

Lemma sw_for_each {A S} (l : list A) (body : A -> S -> M S) (acc : S) :
  (forall x s, stays_within allowed (body x s)) ->
  stays_within allowed (for_each l body acc).
Proof.
  intros Hbody. revert acc. induction l as [|x l IH]; intros acc; cbn [for_each].
  - apply sw_ret.
  - apply sw_bind; [apply Hbody|intros s; apply IH].
Qed.

Lemma sw_random_choice (w : env) (l : list str) : stays_within allowed (random_choice w l).
Proof.
  intros st. do 2 eexists. exists []. split; [reflexivity|].
  split; [unfold extends; cbn [trace]; now rewrite app_nil_r|constructor].
Qed.

Lemma sw_requests_call (w : env) (req : request) :
  In (req_url req) allowed -> stays_within allowed (requests_call w req).
Proof.
  intros H st. unfold requests_call.
  destruct (http_server w (trace st) req) as [r|e] eqn:Hout; do 2 eexists;
    exists [Http req (http_server w (trace st) req)]; rewrite Hout;
    (split; [reflexivity|]); (split; [reflexivity|]);
    (constructor; [exact H|constructor]).
Qed.

End Within.

Ltac in_list :=
  lazymatch goal with
  | |- In ?u (?u :: _) => left; reflexivity
  | |- In _ (_ :: _) => right; in_list
  | _ => assumption
  end.

(** One step of a proof that a piece of code stays within the servers
    allowed. *)
Ltac within_step :=
  cbv zeta;
  lazymatch goal with
  | |- stays_within _ (ret _) => apply sw_ret
  | |- stays_within _ (raise _) => apply sw_raise
  | |- stays_within _ (lift_result _) => apply sw_lift_result
  | |- stays_within _ (logging _ _ _) => apply sw_logging
  | |- stays_within _ (time_sleep _) => apply sw_time_sleep
  | |- stays_within _ (emit (Stderr _)) => apply sw_emit; exact I
  | |- stays_within _ (bind _ _) => apply sw_bind; [|intros ?]
  | |- stays_within _ (try_except _ _ _) => apply sw_try_except; [|intros ?]
  | |- stays_within _ (for_each _ _ _) => apply sw_for_each; intros ? ?
  | |- stays_within _ (get_random_user_agent _) => apply sw_random_choice
  | |- stays_within _ (requests_call _ _) => apply sw_requests_call; cbn [req_url]; in_list
  | |- stays_within _ (raise_for_status _) => unfold raise_for_status
  | |- stays_within _ (response_json _ _) => unfold response_json
  | |- stays_within _ (match ?x with _ => _ end) => destruct x
  end.

Ltac within := repeat within_step.

Lemma sw_make_request (allowed : list str) (w : env) (url method : str) (kw : kwargs) :
  In url allowed -> stays_within allowed (make_request w url method kw).
Proof. intros H. unfold make_request. within. Qed.

Ltac within_code :=
  repeat first
    [ within_step
    | lazymatch goal with
      | |- stays_within _ (make_request _ _ _ _) => apply sw_make_request; in_list
      | |- stays_within _ (llm_read_narrative _ _) => unfold llm_read_narrative
      end ].

Lemma sw_extract_text (allowed : list str) (w : env) (article_url : str) :
  In article_url allowed -> stays_within allowed (extract_text_from_url w article_url).
Proof. intros H. unfold extract_text_from_url. within_code. Qed.

Lemma sw_get_llm_narrative (allowed : list str) (w : env) (text_corpus : str) :
  In DS_API_URL allowed -> stays_within allowed (get_llm_narrative w text_corpus).
Proof. intros H. unfold get_llm_narrative. within_code. Qed.

Lemma sw_text_to_speech (allowed : list str) (w : env) (text : str) :
  In (ELEVENLABS_API_URL w) allowed -> stays_within allowed (text_to_speech_elevenlabs w text).
Proof. intros H. unfold text_to_speech_elevenlabs. within_code. Qed.

Lemma sw_send_telegram_message (allowed : list str) (w : env) (text : str) :
  In (TELEGRAM_SEND_MESSAGE_URL w) allowed -> stays_within allowed (send_telegram_message w text).
Proof. intros H. unfold send_telegram_message. within_code. Qed.

Lemma sw_send_telegram_audio (allowed : list str) (w : env) (audio : bytes) (caption : str) :
  In (TELEGRAM_SEND_AUDIO_URL w) allowed ->
  stays_within allowed (send_telegram_audio w audio caption).
Proof. intros H. unfold send_telegram_audio. within_code. Qed.

Lemma sw_main_deliver (w : env) (narrative : str) :
  stays_within (DELIVERY_SERVICES w) (main_deliver w narrative).
Proof.
  unfold main_deliver, main_send_text, DELIVERY_SERVICES.
  repeat first
    [ within_step
    | lazymatch goal with
      | |- stays_within _ (text_to_speech_elevenlabs _ _) => apply sw_text_to_speech; in_list
      | |- stays_within _ (send_telegram_audio _ _ _) => apply sw_send_telegram_audio; in_list
      | |- stays_within _ (send_telegram_message _ _) => apply sw_send_telegram_message; in_list
      end ].
Qed.

(** ** The stages of [main] *)

Lemma main_deliver_views (w : env) (narrative : str) (st : state) :
  exists res st' tr,
    main_deliver w narrative st = (res, st') /\ extends st st' tr /\
    downloads tr = [] /\
    Forall (fun u => In u (DELIVERY_SERVICES w)) (called_urls tr).
Proof.
  destruct (sw_main_deliver w narrative st) as (res & st' & tr & Hrun & Hext & Hin).
  destruct (contacts_views _ _ Hin) as [Hd Hu].
  exists res, st', tr. repeat split; assumption.
Qed.

Lemma llm_stage_views (w : env) (text_corpus : str) (st : state) :
  DS_API_KEY w <> [] ->
  exists tr,
    get_llm_narrative w text_corpus st
    = (Ok (summary_of w text_corpus st), snd (get_llm_narrative w text_corpus st)) /\
    extends st (snd (get_llm_narrative w text_corpus st)) tr /\
    downloads tr = [] /\ called_urls tr = [DS_API_URL] /\ attempts w tr = [].
Proof.
  intros Hkey.
  destruct (get_llm_narrative_run w text_corpus st Hkey)
    as (res & st' & logs & Hrun & Hext & Hnet & Hatt & _).
  destruct (no_network_call_views logs Hnet) as [Hc Hd].
  pose proof (get_llm_narrative_result w text_corpus st Hkey) as Hres.
  rewrite Hrun in *. cbn [fst snd] in *. injection Hres as ->.
  eexists. split; [reflexivity|]. split; [exact Hext|].
  rewrite !downloads_app, !called_urls_app, !attempts_app, Hc, Hd, Hatt.
  assert (Hp : only_logs (llm_preamble text_corpus) = true)
    by (unfold llm_preamble; destruct (strip text_corpus); reflexivity).
  destruct (only_logs_views w _ Hp) as (P1 & P2 & _ & _ & P5).
  rewrite P1, P2, P5. unfold downloads, called_urls, attempts. cbn [flat_map app].
  rewrite delivery_of_plain by exact I. repeat split.
Qed.

Lemma main_summarize_stage (w : env) (corpus : str) (st : state) :
  chat_configured w -> DS_API_KEY w <> [] ->
  exists res st' tr tail,
    (narrative <- get_llm_narrative w corpus ;;
     match narrative with
     | Some j =>
         if truthy j then
           match j with
           | JStr text => main_deliver w text
           | _ =>
               logging INFO "Narrative generated successfully." [] ;;
               raise AttributeError
           end
         else
           logging ERROR "Failed to generate narrative from LLM. Sending raw text (if short) or error." [] ;;
           send_telegram_message w NO_SUMMARY ;;
           ret tt
     | None =>
         logging ERROR "Failed to generate narrative from LLM. Sending raw text (if short) or error." [] ;;
         send_telegram_message w NO_SUMMARY ;;
         ret tt
     end) st = (res, st') /\
    extends st st' tr /\
    downloads tr = [] /\
    called_urls tr = DS_API_URL :: tail /\
    Forall (fun u => In u (DELIVERY_SERVICES w)) tail /\
    outcome_of_summary w corpus st res st' (deliveries w tr).
Proof.
  intros Hcfg Hkey. unfold outcome_of_summary.
  destruct (llm_stage_views w corpus st Hkey) as (tr1 & Hllm & E1 & D1 & U1 & A1).
  unfold bind at 1. rewrite Hllm.
  set (s1 := snd (get_llm_narrative w corpus st)) in *.
  assert (Hnotice : exists res st' tr tail,
    (logging ERROR "Failed to generate narrative from LLM. Sending raw text (if short) or error." [] ;;
     send_telegram_message w NO_SUMMARY ;; ret tt) s1 = (res, st') /\
    extends st st' tr /\ downloads tr = [] /\ called_urls tr = DS_API_URL :: tail /\
    Forall (fun u => In u (DELIVERY_SERVICES w)) tail /\
    deliveries w tr = [TextMessage (CHAT_ID w) NO_SUMMARY]).
  { destruct (notice_trace w (logging ERROR "Failed to generate narrative from LLM. Sending raw text (if short) or error." [])
                NO_SUMMARY s1 Hcfg (rq_logging _ _ _))
      as (res & s2 & tr2 & Hrun & E2 & A2 & U2 & D2).
    exists res, s2, (tr1 ++ tr2), [TELEGRAM_SEND_MESSAGE_URL w].
    split; [exact Hrun|]. split; [eapply extends_trans; eassumption|].
    rewrite downloads_app, called_urls_app, deliveries_attempts, attempts_app, D1, D2, U1, U2, A1, A2.
    split; [reflexivity|]. split; [reflexivity|]. split; [|reflexivity].
    constructor; [|constructor]. unfold DELIVERY_SERVICES. in_list. }
  assert (Hraise : exists res st' tr tail,
    (logging INFO "Narrative generated successfully." [] ;; @raise unit AttributeError) s1
    = (res, st') /\
    extends st st' tr /\ downloads tr = [] /\ called_urls tr = DS_API_URL :: tail /\
    Forall (fun u => In u (DELIVERY_SERVICES w)) tail /\
    deliveries w tr = [] /\ res = Raise AttributeError).
  { exists (Raise AttributeError). eexists.
    exists (tr1 ++ [Log INFO (lit "Narrative generated successfully.") []]), [].
    split; [reflexivity|]. split; [|split; [|split; [|split; [|split]]]].
    - unfold extends in *. cbn [trace]. rewrite E1, <- app_assoc. reflexivity.
    - rewrite downloads_app, D1. reflexivity.
    - rewrite called_urls_app, U1. reflexivity.
    - constructor.
    - rewrite deliveries_attempts, attempts_app, A1. reflexivity.
    - reflexivity. }
  destruct (summary_of w corpus st) as [j|]; [|exact Hnotice].
  destruct j as [| | | |text| |];
    try (destruct (truthy _); [exact Hraise|exact Hnotice]).
  destruct text as [|c narrative]; [exact Hnotice|]. cbn [truthy].
  destruct (main_deliver_views w (c :: narrative) s1) as (res & s2 & tr2 & Hrun & E2 & D2 & U2).
  exists res, s2, (tr1 ++ tr2), (called_urls tr2).
  split; [exact Hrun|]. split; [eapply extends_trans; eassumption|].
  rewrite downloads_app, called_urls_app, deliveries_attempts, attempts_app, D1, D2, U1, A1.
  split; [reflexivity|]. split; [reflexivity|]. split; [exact U2|].
  exists tr2. split; [exact Hrun|]. split; [exact E2|].
  cbn [app]. now rewrite deliveries_attempts.
Qed.


Lemma main_stages (w : env) (rss_url : str) (st : state) :
  configured w = true ->
  exists res st' rest,
    main w rss_url st = (res, st') /\
    extends st st'
      (Log INFO (lit "Starting news aggregation process...") []
       :: fetching rss_url
       :: FeedParse rss_url (drawn_user_agent w (at_start st))
                    (fetched_feed w rss_url (at_start st))
       :: rest) /\
    downloads rest = [] /\
    match selected w rss_url st with
    | [] =>
        deliveries w rest = [TextMessage (CHAT_ID w) NO_ARTICLES] /\
        called_urls rest = [TELEGRAM_SEND_MESSAGE_URL w]
    | _ :: _ =>
        match extracted_texts w rss_url st with
        | [] =>
            deliveries w rest = [TextMessage (CHAT_ID w) NO_TEXT] /\
            called_urls rest
            = links (selected w rss_url st) ++ [TELEGRAM_SEND_MESSAGE_URL w]
        | _ :: _ =>
            (exists tail,
               called_urls rest = links (selected w rss_url st) ++ DS_API_URL :: tail /\
               Forall (fun u => In u (DELIVERY_SERVICES w)) tail) /\
            outcome_of_summary w (corpus_of w rss_url st) (at_summary w rss_url st)
              res st' (deliveries w rest)
        end
    end.
Proof.
  intros Hconf. destruct (configured_credentials w Hconf) as [Hcfg Hkey].
  rewrite (main_configured w rss_url st Hconf).
  unfold at_summary, corpus_of, extracted_texts.
  destruct (fetch_rss_entries_trace w rss_url (at_start st))
    as (s1 & logs & Hfetch & E1 & L1 & _).
  assert (Hs1 : after_fetch w rss_url st = s1) by (unfold after_fetch; now rewrite Hfetch).
  rewrite Hs1. clear Hs1.
  destruct (only_logs_views w logs L1) as (LU & LD & _ & _ & LA).
  unfold bind at 1. rewrite Hfetch.
  change (filter (kept w) (entries (fetched_feed w rss_url (at_start st))))
    with (selected w rss_url st).
  assert (E0 : extends st s1
                 (Log INFO (lit "Starting news aggregation process...") []
                  :: fetching rss_url
                  :: FeedParse rss_url (drawn_user_agent w (at_start st))
                       (fetched_feed w rss_url (at_start st)) :: logs)).
  { unfold extends in *. cbn [trace at_start] in E1. rewrite E1, <- app_assoc. reflexivity. }
  assert (Hglue : forall s2 tr, extends s1 s2 tr ->
            extends st s2
              (Log INFO (lit "Starting news aggregation process...") []
               :: fetching rss_url
               :: FeedParse rss_url (drawn_user_agent w (at_start st))
                    (fetched_feed w rss_url (at_start st)) :: logs ++ tr)).
  { intros s2 tr E2. unfold extends in *. rewrite E2, E0, <- app_assoc. reflexivity. }
  destruct (selected w rss_url st) as [|e0 l0].
  - destruct (notice_trace w
                (logging INFO "No recent articles found in the RSS feed. Nothing to process." [])
                NO_ARTICLES s1 Hcfg (rq_logging _ _ _))
      as (res & s2 & tr2 & Hrun & E2 & A2 & U2 & D2).
    exists res, s2, (logs ++ tr2). split; [exact Hrun|]. split; [apply Hglue, E2|].
    rewrite downloads_app, called_urls_app, deliveries_attempts, attempts_app,
      LU, LD, LA, D2, U2, A2.
    repeat split.
  - destruct (extraction_loop_exact w (e0 :: l0) [] s1)
      as (tr2 & Hloop & E2 & U2 & D2 & _ & A2).
    unfold bind at 1. rewrite Hloop. cbn [app].
    destruct (concat (loop_blocks w (e0 :: l0) s1)) as [|t0 ts].
    + destruct (notice_trace w
                  (logging INFO "No text could be extracted from recent articles." [])
                  NO_TEXT (after_entries w (e0 :: l0) s1) Hcfg (rq_logging _ _ _))
        as (res & s3 & tr3 & Hrun & E3 & A3 & U3 & D3).
      exists res, s3, (logs ++ tr2 ++ tr3). split; [exact Hrun|].
      split; [apply Hglue; eapply extends_trans; eassumption|].
      rewrite !downloads_app, !called_urls_app, deliveries_attempts, !attempts_app,
        LU, LD, LA, D2, U2, A2, D3, U3, A3.
      split; [reflexivity|]. split; reflexivity.
    + unfold bind at 1, logging at 1, emit at 1.
      match goal with |- context [bind (get_llm_narrative w ?c) ?k ?s] =>
        destruct (main_summarize_stage w c s Hcfg Hkey)
          as (res & s3 & tr3 & tail & Hrun & E3 & D3 & U3 & Htail & Hshape)
      end.
      exists res, s3,
        (logs ++ tr2 ++ Log INFO (lit "Total length of extracted text corpus: {n}")
                            [AInt (len (concat (t0 :: ts)))] :: tr3).
      split; [exact Hrun|].
      split.
      { apply Hglue.
        unfold extends in *. cbn [trace] in E3. rewrite E3, E2, <- !app_assoc. reflexivity. }
      assert (V : forall ev, is_log ev = true ->
                deliveries w (logs ++ tr2 ++ ev :: tr3) = deliveries w tr3 /\
                downloads (logs ++ tr2 ++ ev :: tr3) = [] /\
                called_urls (logs ++ tr2 ++ ev :: tr3) = links (e0 :: l0) ++ DS_API_URL :: tail).
      { intros ev Hev. change (ev :: tr3) with ([ev] ++ tr3).
        destruct (only_logs_views w [ev]) as (P1 & P2 & _ & _ & P5);
          [cbn; now rewrite Hev|].
        rewrite !deliveries_attempts, !downloads_app, !called_urls_app, !attempts_app,
          LU, LD, LA, D2, U2, A2, D3, U3, P1, P2, P5.
        cbn [app]. repeat split. }
      destruct (V (Log INFO (lit "Total length of extracted text corpus: {n}")
                       [AInt (len (concat (t0 :: ts)))]) eq_refl) as (V1 & V2 & V3).
      split; [exact V2|]. split.
      * exists tail. split; [exact V3|exact Htail].
      * rewrite V1. exact Hshape.
Qed.

Lemma main_prefix_views (w : env) (rss_url agent : str) (f : feed) (rest : list event) :
  deliveries w (Log INFO (lit "Starting news aggregation process...") []
                :: fetching rss_url :: FeedParse rss_url agent f :: rest)
  = deliveries w rest /\
  called_urls (Log INFO (lit "Starting news aggregation process...") []
               :: fetching rss_url :: FeedParse rss_url agent f :: rest)
  = called_urls rest /\
  downloads (Log INFO (lit "Starting news aggregation process...") []
             :: fetching rss_url :: FeedParse rss_url agent f :: rest)
  = (rss_url, agent) :: downloads rest.
Proof. repeat split. Qed.

(** X11: what a configured run of [main] delivers, stage by stage, on a
    host running in UTC, for a feed dated within the years 1 to 9999 and
    chat credentials that can be encoded.  With no recent entry it sends
    the one notice that there are no new articles.  With recent entries from whose pages no text was
    extracted, it sends the one notice that no text could be extracted.
    Otherwise the corpus is the concatenation of the extracted blocks and
    the summarizer is asked once: when it answers with a non-empty text,
    the run ends as the delivery stage on that text does and delivers
    exactly what that stage delivers; when it answers with a true value
    that is not a text, nothing is delivered and [AttributeError] is
    raised; when it gives no answer or an empty one, the one notice that
    no summary could be produced is sent. *)
Theorem X11_main_delivers_by_stage (w : env) (rss_url : str) (st : state) :
  configured w = true ->
  timezone w = 0 ->
  dated_in_range (fetched_feed w rss_url (at_start st)) = true ->
  encodable_chat w = true ->
  exists res st' tr,
    main w rss_url st = (res, st') /\ extends st st' tr /\
    match selected w rss_url st with
    | [] => deliveries w tr = [TextMessage (CHAT_ID w) NO_ARTICLES]
    | _ :: _ =>
        match extracted_texts w rss_url st with
        | [] => deliveries w tr = [TextMessage (CHAT_ID w) NO_TEXT]
        | _ :: _ =>
            outcome_of_summary w (corpus_of w rss_url st) (at_summary w rss_url st)
              res st' (deliveries w tr)
        end
    end.
Proof.
  intros Hconf _ _ _.
  destruct (main_stages w rss_url st Hconf) as (res & st' & rest & Hrun & Hext & _ & Hcase).
  exists res, st'. eexists. split; [exact Hrun|]. split; [exact Hext|].
  destruct (main_prefix_views w rss_url (drawn_user_agent w (at_start st))
              (fetched_feed w rss_url (at_start st)) rest) as (-> & _ & _).
  destruct (selected w rss_url st) as [|e0 l0]; [apply Hcase|].
  destruct (extracted_texts w rss_url st) as [|t0 ts]; apply Hcase.
Qed.

Lemma X11_main_delivers_by_stage_witness :
  (configured World.steady_host = true) /\
  (timezone World.steady_host = 0) /\
  (dated_in_range (fetched_feed World.steady_host World.feed_url (at_start World.start)) = true) /\
  (encodable_chat World.steady_host = true) /\
  (exists res st' tr,
    main World.steady_host World.feed_url World.start = (res, st') /\ extends World.start st' tr /\
    match selected World.steady_host World.feed_url World.start with
    | [] => deliveries World.steady_host tr = [TextMessage (CHAT_ID World.steady_host) NO_ARTICLES]
    | _ :: _ =>
        match extracted_texts World.steady_host World.feed_url World.start with
        | [] => deliveries World.steady_host tr = [TextMessage (CHAT_ID World.steady_host) NO_TEXT]
        | _ :: _ =>
            outcome_of_summary World.steady_host (corpus_of World.steady_host World.feed_url World.start) (at_summary World.steady_host World.feed_url World.start)
              res st' (deliveries World.steady_host tr)
        end
    end).
Proof.
  assert (H0 : configured World.steady_host = true) by (reflexivity).
  assert (H1 : timezone World.steady_host = 0) by (reflexivity).
  assert (H2 : dated_in_range (fetched_feed World.steady_host World.feed_url (at_start World.start)) = true) by (vm_compute; reflexivity).
  assert (H3 : encodable_chat World.steady_host = true) by (reflexivity).
  split; [exact H0|].
  split; [exact H1|].
  split; [exact H2|].
  split; [exact H3|].
  exact (X11_main_delivers_by_stage World.steady_host World.feed_url World.start H0 H1 H2 H3).
Defined.





(** ** The script *)

Lemma report_unhandled_trace (w : env) (exn_text : exn -> str) (e : exn) (st : state) :
  chat_configured w ->
  exists st' tr,
    report_unhandled w exn_text e st = (Ok tt, st') /\ extends st st' tr /\
    called_urls tr = [TELEGRAM_SEND_MESSAGE_URL w] /\
    deliveries w tr = [TextMessage (CHAT_ID w) (critical_notice exn_text e)].
Proof.
  intros Hcfg. unfold report_unhandled.
  unfold bind at 1, logging at 1, emit at 1. unfold try_except, bind at 1.
  fold (critical_notice exn_text e).
  match goal with |- context [send_telegram_message w _ ?s] =>
    destruct (send_telegram_message_trace w (critical_notice exn_text e) s Hcfg)
      as (s1 & logs & Hrun & Hext & Hlogs & _)
  end.
  rewrite Hrun.
  destruct (only_logs_views w logs Hlogs) as (P1 & _ & _ & _ & P5).
  unfold extends in Hext. cbn [trace] in Hext.
  destruct (text_send_result w _) as [b|te].
  - exists s1. eexists. split; [reflexivity|]. split.
    + unfold extends. rewrite Hext, <- app_assoc. reflexivity.
    + rewrite deliveries_attempts. change (?a :: ?l ++ logs) with ([a] ++ l ++ logs).
      rewrite !called_urls_app, !attempts_app, P1, P5.
      unfold called_urls, attempts. cbn [flat_map sending_text app].
      rewrite delivery_of_message. split; reflexivity.
  - do 2 eexists. split; [reflexivity|]. split.
    + unfold extends. cbn [trace]. rewrite Hext, <- !app_assoc. reflexivity.
    + rewrite deliveries_attempts.
      rewrite !called_urls_app, !attempts_app, P1, P5.
      unfold called_urls, attempts. cbn [flat_map sending_text app].
      rewrite delivery_of_message. split; reflexivity.
Qed.

Lemma main_extends (w : env) (rss_url : str) (st : state) :
  exists res st' tr, main w rss_url st = (res, st') /\ extends st st' tr.
Proof.
  destruct (configured w) eqn:Hconf.
  - destruct (main_stages w rss_url st Hconf) as (res & st' & rest & Hrun & Hext & _).
    exists res, st'. eexists. split; [exact Hrun|exact Hext].
  - destruct (main_unconfigured w rss_url st Hconf) as (st' & tr & Hrun & Hext & _).
    exists (Ok tt), st', tr. split; [exact Hrun|exact Hext].
Qed.

Lemma report_unhandled_returns (w : env) (exn_text : exn -> str) (e : exn) (st : state) :
  exists st' tr, report_unhandled w exn_text e st = (Ok tt, st') /\ extends st st' tr.
Proof.
  unfold report_unhandled.
  unfold bind at 1, logging at 1, emit at 1. unfold try_except, bind at 1.
  match goal with |- context [send_telegram_message w ?t ?s] =>
    destruct (sw_send_telegram_message [TELEGRAM_SEND_MESSAGE_URL w] w t
                (or_introl eq_refl) s) as (r & s1 & tr & Hrun & Hext & _)
  end.
  rewrite Hrun. unfold extends in Hext. cbn [trace] in Hext.
  destruct r as [b|te].
  - exists s1. eexists. split; [reflexivity|].
    unfold extends. rewrite Hext, <- app_assoc. reflexivity.
  - do 2 eexists. split; [reflexivity|].
    unfold extends. cbn [trace]. rewrite Hext, <- !app_assoc. reflexivity.
Qed.

Lemma script_runs_main (w : env) (exn_text : exn -> str) (rss_feed_url : str) (st : state) :
  exists st' tr,
    (try_except (main w rss_feed_url) (fun _ => true) (report_unhandled w exn_text) ;;
     ret 0) st = (Ok 0, st') /\
    extends st st' tr /\
    (forall s1, main w rss_feed_url st = (Ok tt, s1) -> st' = s1).
Proof.
  destruct (main_extends w rss_feed_url st) as (res & s1 & tr & Hrun & Hext).
  unfold bind, try_except. rewrite Hrun. destruct res as [[]|e].
  - exists s1, tr. split; [reflexivity|]. split; [exact Hext|].
    intros s2 H. congruence.
  - destruct (report_unhandled_returns w exn_text e s1) as (s2 & tr2 & Hrep & Hext2).
    rewrite Hrep. exists s2, (tr ++ tr2). split; [reflexivity|].
    split; [eapply extends_trans; eassumption|]. intros s3 H. discriminate H.
Qed.

(** X14: the script ends with an exception only when logging cannot be
    set up, and then before anything is logged or contacted: what
    creating the log directory or opening the log file raises is not
    caught.  Once logging is set up, the script never ends with an
    exception and its exit status is decided by the URL alone.  The URL
    is the first command-line argument when there is one (even an empty
    one), else the configured default.  With an empty URL the status is
    1 and nothing is contacted; otherwise [main] is run and the status
    is 0 whether [main] returned or raised, and after a [main] that
    returned nothing more happens. *)
Theorem X14_script_exit_status (w : env) (DEFAULT_RSS_URL : str) (exn_text : exn -> str)
    (log_files : result unit) (argv : list str) (st : state) :
  match log_files with
  | Raise e =>
      run_as_script w DEFAULT_RSS_URL exn_text log_files argv st = (Raise e, st)
  | Ok _ =>
      exists code st' tr,
        run_as_script w DEFAULT_RSS_URL exn_text log_files argv st = (Ok code, st') /\
        extends st st' tr /\
        (requested_url DEFAULT_RSS_URL argv = [] ->
         code = 1 /\ no_network_call tr = true) /\
        (requested_url DEFAULT_RSS_URL argv <> [] ->
         code = 0 /\
         forall s1,
           main w (requested_url DEFAULT_RSS_URL argv) (at_main DEFAULT_RSS_URL argv st)
           = (Ok tt, s1) ->
           st' = s1)
  end.
Proof.
  destruct log_files as [[]|e]; [|reflexivity].
  assert (Hmain : forall url s0 tr0,
            url <> [] -> extends st s0 tr0 ->
            exists code st' tr,
              (try_except (main w url) (fun _ => true) (report_unhandled w exn_text) ;;
               ret 0) s0 = (Ok code, st') /\
              extends st st' tr /\
              (url = [] -> code = 1 /\ no_network_call tr = true) /\
              (url <> [] -> code = 0 /\ forall s1, main w url s0 = (Ok tt, s1) -> st' = s1)).
  { intros url s0 tr0 Hurl Hext0.
    destruct (script_runs_main w exn_text url s0) as (st' & tr & Hrun & Hext & Hsame).
    exists 0, st', (tr0 ++ tr). split; [exact Hrun|].
    split; [eapply extends_trans; eassumption|].
    split; [intros H; now elim Hurl|]. intros _. split; [reflexivity|exact Hsame]. }
  unfold run_as_script, setup_logging.
  unfold bind at 1. unfold bind at 1, lift_result at 1, logging at 1, emit at 1.
  unfold bind at 1.
  destruct argv as [|a [|u r]]; cbn [requested_url at_main].
  - destruct DEFAULT_RSS_URL as [|c cs].
    + do 3 eexists. split; [reflexivity|]. split; [trace_ext|].
      split; [intros _; split; reflexivity|]. intros H. now elim H.
    + unfold bind at 1, logging at 1, emit at 1, ret at 1.
      eapply Hmain; [discriminate|]. unfold extends. cbn [trace at_main].
      rewrite <- app_assoc. reflexivity.
  - destruct DEFAULT_RSS_URL as [|c cs].
    + do 3 eexists. split; [reflexivity|]. split; [trace_ext|].
      split; [intros _; split; reflexivity|]. intros H. now elim H.
    + unfold bind at 1, logging at 1, emit at 1, ret at 1.
      eapply Hmain; [discriminate|]. unfold extends. cbn [trace at_main].
      rewrite <- app_assoc. reflexivity.
  - unfold bind at 1, logging at 1, emit at 1, ret at 1.
    destruct u as [|c cs].
    + do 3 eexists. split; [reflexivity|]. split; [trace_ext|].
      split; [intros _; split; reflexivity|]. intros H. now elim H.
    + eapply Hmain; [discriminate|]. unfold extends. cbn [trace at_main].
      rewrite <- app_assoc. reflexivity.
Qed.

Lemma script_reports (w : env) (exn_text : exn -> str) (rss_feed_url : str)
    (st s1 : state) (e : exn) :
  main w rss_feed_url st = (Raise e, s1) ->
  exists st' tr,
    (try_except (main w rss_feed_url) (fun _ => true) (report_unhandled w exn_text) ;;
     ret 0) st = (Ok 0, st') /\
    extends s1 st' tr /\
    called_urls tr = [TELEGRAM_SEND_MESSAGE_URL w] /\
    deliveries w tr = [TextMessage (CHAT_ID w) (critical_notice exn_text e)].
Proof.
  intros Hrun.
  assert (Hcfg : chat_configured w).
  { destruct (configured w) eqn:Hconf; [now apply configured_credentials|].
    destruct (main_unconfigured w rss_feed_url st Hconf) as (s2 & tr & H & _).
    rewrite Hrun in H. discriminate H. }
  destruct (report_unhandled_trace w exn_text e s1 Hcfg) as (s2 & tr & Hrep & Hext & Hu & Hd).
  exists s2, tr. unfold bind, try_except. rewrite Hrun, Hrep.
  split; [reflexivity|]. split; [exact Hext|]. split; [exact Hu|exact Hd].
Qed.

(** X15: an exception that escapes [main] is reported to the chat.
    The script, whose logging was set up, then sends exactly one request,
    to the message endpoint, carrying
    [CRITICAL ERROR in news bot: <exception>. Check logs.], and still
    ends with status 0, also when that send fails or raises. *)
Theorem X15_unhandled_exception_is_reported (w : env) (DEFAULT_RSS_URL : str)
    (exn_text : exn -> str) (argv : list str) (st s1 : state) (e : exn) :
  requested_url DEFAULT_RSS_URL argv <> [] ->
  main w (requested_url DEFAULT_RSS_URL argv) (at_main DEFAULT_RSS_URL argv st)
  = (Raise e, s1) ->
  exists st' tr,
    run_as_script w DEFAULT_RSS_URL exn_text (Ok tt) argv st = (Ok 0, st') /\
    extends s1 st' tr /\
    called_urls tr = [TELEGRAM_SEND_MESSAGE_URL w] /\
    deliveries w tr = [TextMessage (CHAT_ID w) (critical_notice exn_text e)].
Proof.
  intros Hurl Hrun.
  pose proof (script_reports w exn_text _ _ _ _ Hrun) as Hrep.
  unfold run_as_script, setup_logging.
  unfold bind at 1. unfold bind at 1, lift_result at 1, logging at 1, emit at 1.
  unfold bind at 1.
  destruct argv as [|a [|u r]]; cbn [requested_url at_main] in *.
  - destruct DEFAULT_RSS_URL as [|c cs]; [now elim Hurl|].
    unfold bind at 1, logging at 1, emit at 1, ret at 1. exact Hrep.
  - destruct DEFAULT_RSS_URL as [|c cs]; [now elim Hurl|].
    unfold bind at 1, logging at 1, emit at 1, ret at 1. exact Hrep.
  - unfold bind at 1, logging at 1, emit at 1, ret at 1.
    destruct u as [|c cs]; [now elim Hurl|]. exact Hrep.
Qed.

Lemma X15_unhandled_exception_is_reported_witness :
  (requested_url World.feed_url ([lit "news.py"]) <> []) /\
  (main World.proxy_host (requested_url World.feed_url ([lit "news.py"])) (at_main World.feed_url ([lit "news.py"]) World.start)
  = (Raise JSONDecodeError, (snd (main World.proxy_host World.feed_url (at_main World.feed_url [lit "news.py"] World.start))))) /\
  (exists st' tr,
    run_as_script World.proxy_host World.feed_url (fun _ : exn => lit "boom") (Ok tt) ([lit "news.py"]) World.start = (Ok 0, st') /\
    extends (snd (main World.proxy_host World.feed_url (at_main World.feed_url [lit "news.py"] World.start))) st' tr /\
    called_urls tr = [TELEGRAM_SEND_MESSAGE_URL World.proxy_host] /\
    deliveries World.proxy_host tr = [TextMessage (CHAT_ID World.proxy_host) (critical_notice (fun _ : exn => lit "boom") JSONDecodeError)]).
Proof.
  assert (H0 : requested_url World.feed_url ([lit "news.py"]) <> []) by (vm_compute; discriminate).
  assert (H1 : main World.proxy_host (requested_url World.feed_url ([lit "news.py"])) (at_main World.feed_url ([lit "news.py"]) World.start) = (Raise JSONDecodeError, (snd (main World.proxy_host World.feed_url (at_main World.feed_url [lit "news.py"] World.start))))) by (vm_compute; reflexivity).
  split; [exact H0|].
  split; [exact H1|].
  exact (X15_unhandled_exception_is_reported World.proxy_host World.feed_url (fun _ : exn => lit "boom") ([lit "news.py"]) World.start (snd (main World.proxy_host World.feed_url (at_main World.feed_url [lit "news.py"] World.start))) JSONDecodeError H0 H1).
Defined.


(** ** The caption *)

Lemma first_line_no_newline (s : str) : ~ In NL (first_line s).
Proof.
  induction s as [|c r IH]; cbn [first_line]; [intros []|].
  destruct (N.eqb c NL) eqn:E; [intros []|].
  intros [H|H]; [|exact (IH H)]. subst c. now rewrite N.eqb_refl in E.
Qed.

Lemma in_firstn {A} (n : nat) (l : list A) (x : A) : In x (firstn n l) -> In x l.
Proof.
  revert n. induction l as [|c l IH]; intros [|n] H; try contradiction H.
  destruct H as [H|H]; [left; exact H|right; exact (IH n H)].
Qed.

(** X16: the caption [main] builds for the audio is short and has two
    lines.  It is at most 227 characters long, so the cut to 1024
    characters in [send_telegram_audio] never shortens it, and what
    follows the heading line holds no newline. *)
Theorem X16_caption_is_two_short_lines (narrative : str) :
  len (audio_caption narrative) <= 227 /\
  slice_to 1024 (audio_caption narrative) = audio_caption narrative /\
  ~ In NL (audio_caption_summary narrative).
Proof.
  assert (Hsum : audio_caption_summary narrative = short_first_line narrative).
  { pose proof (audio_caption_first_line narrative) as H.
    unfold audio_caption, CAPTION_HEADING in H. apply app_inv_head in H. apply app_inv_head in H. exact H. }
  split; [|split].
  - rewrite audio_caption_first_line. unfold len. rewrite !length_app.
    pose proof (short_first_line_bounded narrative) as H. unfold len in H.
    change (length CAPTION_HEADING) with 23%nat. cbn [length]. lia.
  - apply audio_caption_fits.
  - rewrite Hsum. unfold short_first_line.
    destruct (200 <? len (first_line narrative)).
    + intros H. apply in_app_or in H as [H|H].
      * apply (first_line_no_newline narrative). exact (in_firstn _ _ _ H).
      * vm_compute in H. intuition discriminate.
    + apply first_line_no_newline.
Qed.
